(** * NextExpense (budgetbot): the ledger store and the add-expense flow

    A shallow embedding of [src/budgetbot/src/database.py] (module [Db]) and
    of the handlers of [src/budgetbot/src/main.py] (module [Bot]), followed
    by the properties of the specification that are stated about them.

    Modelling conventions.
    - A Python [float] / SQLite [REAL] is a [pyfloat]: the rational a finite
      double denotes, the two infinities, or NaN.  Addition is that of IEEE
      754 binary64: the exact sum rounded to the nearest double, ties to
      even ([round64]).  [SUM] adds the values one by one in the order the
      rows are visited, as SQLite does up to version 3.42; the signed zero
      is not told apart from zero.
    - A timestamp is the number of seconds it denotes.  The program stores
      the text [%Y-%m-%d %H:%M:%S], which SQLite compares bytewise; that
      order is the chronological one.
    - Integers and dates stay within what SQLite and [datetime] can hold:
      the [OverflowError] of a binding or of date arithmetic beyond these
      ranges is not modelled.
    - The builtins [float()] and [int()] on strings are parameters
      ([py_float], [py_int]); [None] stands for [ValueError].
    - A message that a handler sends is recorded with the chat it goes to;
      a failure of the call to Telegram is not modelled.
    - The queries on [expenses] select on [user_id] and [date], and SQLite
      answers them from the index [idx_expenses_user_date] that
      [_create_tables] creates: it walks the index forwards for the
      statistics and backwards for the listing, whose [ORDER BY e.date DESC]
      it gets that way.  [Db.idx_expenses_user_date] is the order of the
      index.  Where a property does not depend on that order the queries
      take it as the parameter [scan]; [ORDER BY] is a stable sort of the
      rows in the order they are visited. *)

From Stdlib Require Import ZArith QArith List String Ascii Bool Lia Sorted Permutation.
From stdpp Require Import base option gmap strings list sorting pretty relations.

Open Scope string_scope.
Open Scope Z_scope.

(** ** Python and SQLite values *)

Inductive pyfloat : Type :=
| Finite (q : Q)
| PosInf
| NegInf
| NaN.

(** [x <= 0] on floats; every comparison with NaN is false. *)
Definition float_le0 (x : pyfloat) : bool :=
  match x with
  | Finite q => Qle_bool q 0
  | NegInf => true
  | PosInf | NaN => false
  end.

(** [x > 0], the positivity of the specification. *)
Definition float_gt0 (x : pyfloat) : bool :=
  match x with
  | Finite q => negb (Qle_bool q 0)
  | PosInf => true
  | NegInf | NaN => false
  end.

Definition float_is_nan (x : pyfloat) : bool :=
  match x with NaN => true | _ => false end.

(** Truth value of a float: only zero is false. *)
Definition float_truthy (x : pyfloat) : bool :=
  match x with
  | Finite q => negb (Qeq_bool q 0)
  | _ => true
  end.

(** *** Rounding to binary64 *)

(** The integer nearest to [n / d], the even one of two that are equally near. *)
Definition round_half_even (n d : Z) : Z :=
  let q := n / d in
  let r := 2 * (n mod d) in
  if r <? d then q
  else if d <? r then q + 1
  else if Z.even q then q else q + 1.

(** [n / d] divided by [2 ^ e], as a fraction of integers. *)
Definition scale2 (n d e : Z) : Z * Z :=
  if 0 <=? e then (n, d * 2 ^ e) else (n * 2 ^ (- e), d).

(** The exponent of the unit in the last place of the double nearest to
    [n / d]: the [e] with [2 ^ 52 <= (n / d) / 2 ^ e < 2 ^ 53], and [-1074]
    for the subnormal numbers. *)
Definition ulp_exponent (n d : Z) : Z :=
  let e := Z.log2 n - Z.log2 d - 52 in
  let nd := scale2 n d e in
  Z.max (-1074) (if 2 ^ 52 * nd.2 <=? nd.1 then e else e - 1).

(** Rounding a positive rational [n / d]: to nearest, ties to even, and to
    infinity from [2 ^ 1024 - 2 ^ 970] on. *)
Definition round64_pos (n d : Z) : pyfloat :=
  let e := ulp_exponent n d in
  let nd := scale2 n d e in
  let m := round_half_even nd.1 nd.2 in
  if 0 <=? e then
    if 2 ^ 1024 <=? m * 2 ^ e then PosInf else Finite (inject_Z (m * 2 ^ e))
  else Finite (Qred (Qmake m (Z.to_pos (2 ^ (- e))))).

Definition float_neg (x : pyfloat) : pyfloat :=
  match x with
  | Finite q => Finite (- q)
  | PosInf => NegInf
  | NegInf => PosInf
  | NaN => NaN
  end.

Definition round64 (q : Q) : pyfloat :=
  match Qnum q with
  | Z0 => Finite 0
  | Zpos n => round64_pos (Zpos n) (Zpos (Qden q))
  | Zneg n => float_neg (round64_pos (Zpos n) (Zpos (Qden q)))
  end.

(** [x + y] on doubles *)
Definition float_add (x y : pyfloat) : pyfloat :=
  match x, y with
  | NaN, _ | _, NaN => NaN
  | PosInf, NegInf | NegInf, PosInf => NaN
  | PosInf, _ | _, PosInf => PosInf
  | NegInf, _ | _, NegInf => NegInf
  | Finite a, Finite b => round64 (a + b)
  end.

(** The order SQLite sorts [REAL] values by; NaN never reaches a column
    (it is bound as NULL) and is ranked lowest here, next to NULL. *)
Definition float_leb (x y : pyfloat) : bool :=
  match x, y with
  | NaN, _ => true
  | _, NaN => false
  | NegInf, _ => true
  | _, NegInf => false
  | _, PosInf => true
  | PosInf, _ => false
  | Finite a, Finite b => Qle_bool a b
  end.

(** A nullable [REAL]: [None] is NULL, which sorts before every value. *)
Definition sql_real_leb (x y : option pyfloat) : bool :=
  match x, y with
  | None, _ => true
  | Some _, None => false
  | Some a, Some b => float_leb a b
  end.

(** Binding a Python float to a statement parameter, and returning a
    double from an aggregate: NaN becomes NULL. *)
Definition sql_of_float (x : pyfloat) : option pyfloat :=
  if float_is_nan x then None else Some x.

(** [SUM(...)]: NULL over no rows, else the values added in the order
    they come. *)
Definition sql_sum (xs : list pyfloat) : option pyfloat :=
  match xs with
  | [] => None
  | x :: xs' => sql_of_float (fold_left float_add xs' x)
  end.

(** [v or 0.0] for a nullable float [v]. *)
Definition or_zero (v : option pyfloat) : pyfloat :=
  match v with
  | Some x => if float_truthy x then x else Finite 0
  | None => Finite 0
  end.

(** Truth value of an optional string: [None] and the empty string are false. *)
Definition str_truthy (s : option string) : bool :=
  match s with
  | Some (String _ _) => true
  | _ => false
  end.

(** [s.split(sep)] for a one-character separator. *)
Fixpoint split (sep : ascii) (s : string) : list string :=
  match s with
  | EmptyString => [EmptyString]
  | String c s' =>
      if Ascii.eqb c sep then EmptyString :: split sep s'
      else match split sep s' with
           | [] => [String c EmptyString]
           | w :: ws => String c w :: ws
           end
  end.

(** ** ORDER BY and LIMIT *)

Fixpoint order_insert {A : Type} (leb : A -> A -> bool) (x : A) (l : list A) : list A :=
  match l with
  | [] => [x]
  | y :: l' => if leb x y then x :: y :: l' else y :: order_insert leb x l'
  end.

(** Stable sort: rows that tie keep the order in which they were visited. *)
Definition order_by {A : Type} (leb : A -> A -> bool) (l : list A) : list A :=
  fold_right (order_insert leb) [] l.

(** [LIMIT n]: a negative [n] is no bound at all. *)
Definition sql_limit {A : Type} (n : Z) (l : list A) : list A :=
  if n <? 0 then l else take (Z.to_nat n) l.

Inductive exn : Type :=
| IntegrityError
| OperationalError
| ValueError
| IndexError
| TypeError.

Inductive outcome (A : Type) : Type :=
| Ok (a : A)
| Raise (e : exn).
Arguments Ok {A} a.
Arguments Raise {A} e.

(** ** database.py *)

Module Db.

Record user_row : Type := mk_user {
  username : option string;
  first_name : option string;
  last_name : option string
}.

Record category : Type := mk_category {
  c_id : Z;
  c_name : string;
  c_icon : string
}.

(** A row of [expenses]; [created_at] is never read and is left out. *)
Record expense : Type := mk_expense {
  e_id : Z;
  e_user_id : Z;
  e_amount : pyfloat;
  e_category_id : Z;
  e_description : option string;
  e_date : Z
}.

(** The three tables with the two AUTOINCREMENT counters of
    [sqlite_sequence]. *)
Record Database : Type := mk_db {
  users : gmap Z user_row;
  categories : list category;
  categories_seq : Z;
  expenses : list expense;
  expenses_seq : Z
}.

Definition empty_db : Database :=
  {| users := ∅; categories := []; categories_seq := 0; expenses := []; expenses_seq := 0 |}.

Definition default_categories : list (string * string) :=
  [("Food", "🍔"); ("Transport", "🚌"); ("Shopping", "🛍️"); ("Entertainment", "🎮");
   ("Bills", "📄"); ("Health", "💊"); ("Other", "📦")].

Definition max_rowid {A : Type} (rowid : A -> Z) (rows : list A) : Z :=
  fold_right (fun r m => Z.max (rowid r) m) 0 rows.

(** The rowid AUTOINCREMENT assigns: above every rowid ever used. *)
Definition next_rowid {A : Type} (rowid : A -> Z) (rows : list A) (seq : Z) : Z :=
  Z.max seq (max_rowid rowid rows) + 1.

(** [INSERT OR IGNORE INTO categories (name, icon)]: SQLite allocates the
    rowid before it meets the [UNIQUE] conflict on [name], so a taken name
    is skipped but the id meant for it is used up: [sqlite_sequence]
    advances whether or not the row is stored. *)
Definition insert_or_ignore_category (d : Database) (ni : string * string) : Database :=
  let i := next_rowid c_id (categories d) (categories_seq d) in
  {| users := users d;
     categories :=
       if existsb (fun c => String.eqb (c_name c) ni.1) (categories d) then categories d
       else categories d ++ [mk_category i ni.1 ni.2];
     categories_seq := i;
     expenses := expenses d;
     expenses_seq := expenses_seq d |}.

Definition _create_tables (d : Database) : Database :=
  fold_left insert_or_ignore_category default_categories d.

(** [COALESCE(new, old)] *)
Definition coalesce {A : Type} (new old : option A) : option A :=
  match new with Some _ => new | None => old end.

(** [add_user]: an upsert; [write_ok = false] is an [INSERT] that SQLite
    refuses (read-only file, full disk, lock time-out). *)
Definition add_user (write_ok : bool) (d : Database) (user_id : Z)
    (un fn ln : option string) : outcome unit * Database :=
  if negb write_ok then (Raise OperationalError, d)
  else
    let row :=
      match users d !! user_id with
      | None => mk_user un fn ln
      | Some old =>
          mk_user (coalesce un (username old)) (coalesce fn (first_name old))
                  (coalesce ln (last_name old))
      end in
    (Ok tt,
     {| users := <[user_id := row]> (users d);
        categories := categories d;
        categories_seq := categories_seq d;
        expenses := expenses d;
        expenses_seq := expenses_seq d |}).

Definition get_user (d : Database) (user_id : Z) : option user_row :=
  users d !! user_id.

Definition name_leb (c1 c2 : category) : bool := String.leb (c_name c1) (c_name c2).

(** The order of the keys of [idx_expenses_user_date ON expenses (user_id,
    date)]: an index entry ends with the rowid of its row. *)
Definition idx_leb (e1 e2 : expense) : bool :=
  (e_user_id e1 <? e_user_id e2) ||
  (e_user_id e1 =? e_user_id e2) &&
  ((e_date e1 <? e_date e2) || (e_date e1 =? e_date e2) && (e_id e1 <=? e_id e2)).

(** The rows of [expenses] as the index lists them. *)
Definition idx_expenses_user_date (es : list expense) : list expense :=
  order_by idx_leb es.

Section Queries.

(** The order in which the index lists the rows of [expenses]. *)
Variable scan : list expense -> list expense.

(** [SELECT * FROM categories ORDER BY name] *)
Definition get_categories (d : Database) : list category :=
  order_by name_leb (categories d).

(** [SELECT * FROM categories WHERE id = ?], first row; [id = NULL]
    selects nothing. *)
Definition get_category (d : Database) (category_id : option Z) : option category :=
  match category_id with
  | None => None
  | Some i => head (filter (fun c => c_id c =? i) (categories d))
  end.

(** [SELECT * FROM categories WHERE name = ?], first row. *)
Definition get_category_by_name (d : Database) (category_name : string) : option category :=
  head (filter (fun c => String.eqb (c_name c) category_name) (categories d)).

(** [add_expense]: the [INSERT] fails on a NULL in a NOT NULL column
    ([amount], [category_id]); nothing else about the values is checked.
    [now] is the clock read when [date] is absent. *)
Definition add_expense (write_ok : bool) (now : Z) (d : Database) (user_id : Z)
    (amount : option pyfloat) (category_id : option Z)
    (description : option string) (date : option Z) : outcome Z * Database :=
  let date := match date with Some t => t | None => now end in
  if negb write_ok then (Raise OperationalError, d)
  else
    match amount ≫= sql_of_float, category_id with
    | Some a, Some c =>
        let expense_id := next_rowid e_id (expenses d) (expenses_seq d) in
        (Ok expense_id,
         {| users := users d;
            categories := categories d;
            categories_seq := categories_seq d;
            expenses := expenses d ++ [mk_expense expense_id user_id a c description date];
            expenses_seq := expense_id |})
    | _, _ => (Raise IntegrityError, d)
    end.

(** A row of the listing: the expense with its category's name and icon. *)
Record expense_view : Type := mk_view {
  v_id : Z;
  v_amount : pyfloat;
  v_date : Z;
  v_description : option string;
  v_category_name : string;
  v_category_icon : string
}.

(** [FROM expenses e JOIN categories c ON e.category_id = c.id] over the
    rows [es], in the order they are visited. *)
Definition join_categories (d : Database) (es : list expense) : list (expense * category) :=
  flat_map (fun e => map (fun c => (e, c))
                         (filter (fun c => e_category_id e =? c_id c) (categories d))) es.

Definition view_of (ec : expense * category) : expense_view :=
  mk_view (e_id ec.1) (e_amount ec.1) (e_date ec.1) (e_description ec.1)
          (c_name ec.2) (c_icon ec.2).

(** [ORDER BY e.date DESC] *)
Definition date_desc (v1 v2 : expense_view) : bool := v_date v2 <=? v_date v1.

(** The rows of the user are visited from the last index entry back. *)
Definition get_user_expenses (d : Database) (user_id : Z) (limit : Z) : list expense_view :=
  let es := filter (fun e => e_user_id e =? user_id) (rev (scan (expenses d))) in
  sql_limit limit (order_by date_desc (map view_of (join_categories d es))).

(** [date BETWEEN ? AND ?] *)
Definition between (lo hi t : Z) : bool := (lo <=? t) && (t <=? hi).

Record category_stat : Type := mk_stat {
  s_category_id : Z;
  s_category_name : string;
  s_category_icon : string;
  s_sum : pyfloat
}.

(** One step of [GROUP BY c.id] with [SUM(e.amount)]: the row joins the
    group of its category, or opens it. *)
Fixpoint group_step (gs : list category_stat) (ec : expense * category) : list category_stat :=
  match gs with
  | [] => [mk_stat (c_id ec.2) (c_name ec.2) (c_icon ec.2) (e_amount ec.1)]
  | g :: gs' =>
      if s_category_id g =? c_id ec.2
      then mk_stat (s_category_id g) (s_category_name g) (s_category_icon g)
                   (float_add (s_sum g) (e_amount ec.1)) :: gs'
      else g :: group_step gs' ec
  end.

Definition group_by_category (rows : list (expense * category)) : list category_stat :=
  fold_left group_step rows [].

(** [category_total] as the query returns it. *)
Definition category_total (g : category_stat) : option pyfloat := sql_of_float (s_sum g).

(** [ORDER BY category_total DESC] *)
Definition total_desc (g1 g2 : category_stat) : bool :=
  sql_real_leb (category_total g2) (category_total g1).

Record stats : Type := mk_stats {
  total_spending : pyfloat;
  category_spending : list category_stat;
  period_days : Z
}.

Definition seconds_per_day : Z := 86400.

(** Both queries visit the rows of the user from the first index entry of
    the window on. *)
Definition get_user_expense_stats (now : Z) (d : Database) (user_id : Z) (days : Z) : stats :=
  let end_date := now in
  let start_date := end_date - days * seconds_per_day in
  let es := filter (fun e => (e_user_id e =? user_id) && between start_date end_date (e_date e))
                   (scan (expenses d)) in
  {| total_spending := or_zero (sql_sum (map e_amount es));
     category_spending := order_by total_desc (group_by_category (join_categories d es));
     period_days := days |}.

End Queries.

End Db.

(** ** keyboards.py *)

Module Keyboards.

(** An inline keyboard: the buttons as (text, callback data). *)
Definition get_category_selection_keyboard (categories : list Db.category)
    : list (string * string) :=
  map (fun c => (Db.c_icon c +:+ " " +:+ Db.c_name c,
                 "select_category:" +:+ pretty (Db.c_id c))) categories
  ++ [("❌ Cancel", "cancel_add_expense")].

Definition get_confirmation_keyboard : list (string * string) :=
  [("✅ Confirm", "confirm_expense"); ("❌ Cancel", "cancel_confirm_expense")].

End Keyboards.

(** ** states.py and main.py *)

Module Bot.

Inductive ExpenseStates : Type :=
| waiting_for_category
| waiting_for_amount
| waiting_for_description
| confirming_expense.

(** The data dictionary of a conversation: the three keys the handlers
    write.  A key is absent ([None]) or bound; [description] can be bound
    to Python's [None]. *)
Record fsm_data : Type := mk_data {
  selected_category_id : option Z;
  amount : option pyfloat;
  description : option (option string)
}.

Definition no_data : fsm_data := mk_data None None None.

(** What the memory storage of the dispatcher keeps for one conversation. *)
Record MemoryStorageRecord : Type := mk_record {
  data : fsm_data;
  state : option ExpenseStates
}.

Definition empty_record : MemoryStorageRecord := mk_record no_data None.

(** The messages the handlers send, by what they say. *)
Inductive reply : Type :=
| WelcomeBack (name : string)
| Welcome
| Help
| ChooseCategory (keyboard : list (string * string))
| CategorySelected
| AddExpenseCancelled
| AmountNotPositive
| InvalidAmount
| AskDescription
| CategoryNotFound
| ConfirmExpense (c : Db.category) (amount : pyfloat) (description : option string)
                 (keyboard : list (string * string))
| ExpenseSaved (amount : pyfloat) (description : option string)
| FailedToSave
| ExpenseCancelled
| NoExpensesYet
| RecentExpenses (rows : list Db.expense_view)
| NoStatistics
| Statistics (total : pyfloat) (top : list Db.category_stat).

(** The process: the database, the memory storage of the dispatcher, and
    the messages sent so far, each with the chat it went to.  The
    dispatcher is built with its defaults, so the storage keeps one record
    for each pair of a chat and a user. *)
Record world : Type := mk_world {
  db : Db.Database;
  storage : gmap (Z * Z) MemoryStorageRecord;
  sent : list (Z * reply)
}.

(** Handlers run in a state monad over the world; an exception ends the
    handler and keeps the effects it had so far. *)
Definition M (A : Type) : Type := world -> outcome A * world.

#[global] Instance M_ret : MRet M := fun A a w => (Ok a, w).

#[global] Instance M_bind : MBind M := fun A B f m w =>
  match m w with
  | (Ok a, w') => f a w'
  | (Raise e, w') => (Raise e, w')
  end.

Definition raise {A : Type} (e : exn) : M A := fun w => (Raise e, w).

(** Where an update comes from: the chat ([message.chat.id]; for a callback
    query the chat of the message the button is under) and the sender
    ([from_user]).  In a private chat the two ids are equal. *)
Record from_user : Type := mk_from {
  chat_id : Z;
  user_id : Z;
  username : option string;
  first_name : option string;
  last_name : option string
}.

(** What the process finds around it when it handles one update: the
    clock, and whether SQLite accepts a write. *)
Record env : Type := mk_env {
  now : Z;
  write_ok : bool
}.

(** An incoming update.  The five commands are the messages the command
    filters of [main_router] accept; [Text] is any other text message and
    [NoText] a message whose [text] is [None]: a photo, a sticker, a
    location. *)
Inductive update : Type :=
| CommandStart
| CommandHelp
| CommandAdd
| CommandRecent
| CommandStats
| Text (text : string)
| NoText
| Callback (data : string).

(** *** The FSM context of one conversation *)

(** The storage key of the context a handler is given: the chat and the
    sender of the update. *)
Definition key (m : from_user) : Z * Z := (chat_id m, user_id m).

Definition record_of (w : world) (k : Z * Z) : MemoryStorageRecord :=
  default empty_record (storage w !! k).

Definition get_state (k : Z * Z) : M (option ExpenseStates) :=
  fun w => (Ok (state (record_of w k)), w).

Definition set_state (k : Z * Z) (s : option ExpenseStates) : M unit :=
  fun w => (Ok tt, mk_world (db w)
                            (<[k := mk_record (data (record_of w k)) s]> (storage w))
                            (sent w)).

Definition get_data (k : Z * Z) : M fsm_data :=
  fun w => (Ok (data (record_of w k)), w).

Definition set_data (k : Z * Z) (d : fsm_data) : M unit :=
  fun w => (Ok tt, mk_world (db w)
                            (<[k := mk_record d (state (record_of w k))]> (storage w))
                            (sent w)).

(** [update_data(key=value)]: read, change one key, write back. *)
Definition update_data (k : Z * Z) (f : fsm_data -> fsm_data) : M unit :=
  d ← get_data k; set_data k (f d).

Definition clear (k : Z * Z) : M unit :=
  set_state k None;; set_data k no_data.

(** [message.answer] and [message.edit_text], which go to the chat of the
    update; acknowledging a callback query carries no text and is not
    recorded. *)
Definition answer (chat : Z) (r : reply) : M unit :=
  fun w => (Ok tt, mk_world (db w) (storage w) (sent w ++ [(chat, r)])).

Definition db_read {A : Type} (q : Db.Database -> A) : M A :=
  fun w => (Ok (q (db w)), w).

Definition db_write {A : Type} (op : Db.Database -> outcome A * Db.Database) : M A :=
  fun w => ((op (db w)).1, mk_world (op (db w)).2 (storage w) (sent w)).

(** [a or b] on optional strings *)
Definition str_or (a b : option string) : option string :=
  if str_truthy a then a else b.

Section Handlers.

(** [float(text)] and [int(text)] *)
Variable py_float : string -> option pyfloat.
Variable py_int : string -> option Z.
Variable scan : list Db.expense -> list Db.expense.

Definition cmd_start (e : env) (m : from_user) : M unit :=
  user ← db_read (fun d => Db.get_user d (user_id m));
  match user with
  | Some row =>
      answer (chat_id m)
        (WelcomeBack (default "User" (str_or (Db.first_name row)
                                        (str_or (Db.username row) (Some "User")))))
  | None =>
      db_write (fun d => Db.add_user (write_ok e) d (user_id m) (username m) (first_name m)
                                     (last_name m));;
      answer (chat_id m) Welcome
  end.

Definition cmd_help (m : from_user) : M unit :=
  answer (chat_id m) Help.

Definition cmd_add_expense (m : from_user) : M unit :=
  categories ← db_read Db.get_categories;
  set_state (key m) (Some waiting_for_category);;
  answer (chat_id m) (ChooseCategory (Keyboards.get_category_selection_keyboard categories)).

Definition process_category_selection (m : from_user) (callback_data : string) : M unit :=
  match split ":"%char callback_data !! 1%nat with
  | None => raise IndexError
  | Some category_id_str =>
      match py_int category_id_str with
      | None => raise ValueError
      | Some category_id =>
          update_data (key m)
            (fun d => mk_data (Some category_id) (amount d) (description d));;
          set_state (key m) (Some waiting_for_amount);;
          answer (chat_id m) CategorySelected
      end
  end.

Definition cancel_add_expense_operation (m : from_user) : M unit :=
  answer (chat_id m) AddExpenseCancelled.

(** [message.text] is [None] for a message without text, and [float(None)]
    is a [TypeError], which the handler does not catch. *)
Definition process_amount_input (m : from_user) (amount_text : option string) : M unit :=
  match amount_text with
  | None => raise TypeError
  | Some text =>
      match py_float text with
      | None => answer (chat_id m) InvalidAmount
      | Some a =>
          if float_le0 a then answer (chat_id m) AmountNotPositive
          else
            update_data (key m)
              (fun d => mk_data (selected_category_id d) (Some a) (description d));;
            set_state (key m) (Some waiting_for_description);;
            answer (chat_id m) AskDescription
      end
  end.

Definition process_description_input (m : from_user) (description_text : option string)
    : M unit :=
  let descr :=
    match description_text with
    | Some text => if String.eqb text "-" then None else Some text
    | None => None
    end in
  update_data (key m)
    (fun d => mk_data (selected_category_id d) (amount d) (Some descr));;
  user_data ← get_data (key m);
  category ← db_read (fun d => Db.get_category d (selected_category_id user_data));
  match category with
  | None =>
      answer (chat_id m) CategoryNotFound;;
      clear (key m)
  | Some c =>
      set_state (key m) (Some confirming_expense);;
      match amount user_data with
      | None => raise TypeError
      | Some a =>
          answer (chat_id m)
            (ConfirmExpense c a (str_or descr None) Keyboards.get_confirmation_keyboard)
      end
  end.

Definition confirm_expense_handler (e : env) (m : from_user) : M unit :=
  user_data ← get_data (key m);
  let descr := mjoin (description user_data) in
  expense_id ← db_write (fun d =>
    Db.add_expense (write_ok e) (now e) d (user_id m) (amount user_data)
                   (selected_category_id user_data) descr None);
  (if negb (expense_id =? 0) then
     match amount user_data with
     | None => raise TypeError
     | Some a => answer (chat_id m) (ExpenseSaved a (str_or descr None))
     end
   else answer (chat_id m) FailedToSave);;
  clear (key m).

Definition cancel_confirm_expense_handler (m : from_user) : M unit :=
  answer (chat_id m) ExpenseCancelled;;
  clear (key m).

Definition cmd_recent_expenses (m : from_user) : M unit :=
  recent_expenses ← db_read (fun d => Db.get_user_expenses scan d (user_id m) 5);
  match recent_expenses with
  | [] => answer (chat_id m) NoExpensesYet
  | _ => answer (chat_id m) (RecentExpenses recent_expenses)
  end.

(** The statistics text formats [category_total] of the first five rows
    with [:.2f]; a NULL total cannot be formatted. *)
Definition cmd_show_statistics (e : env) (m : from_user) : M unit :=
  stats_data ← db_read (fun d => Db.get_user_expense_stats scan (now e) d (user_id m) 30);
  match Db.category_spending stats_data with
  | [] => answer (chat_id m) NoStatistics
  | _ =>
      let top := take 5 (Db.category_spending stats_data) in
      if forallb (fun g => bool_decide (is_Some (Db.category_total g))) top
      then answer (chat_id m) (Statistics (Db.total_spending stats_data) top)
      else raise TypeError
  end.

(** The routing of the dispatcher: [main_router] first, then
    [expense_callback_router]; within a router the first handler whose
    filter accepts the update.  The two state filters accept any message
    of the conversation, with or without text. *)
Definition dispatch (e : env) (m : from_user) (upd : update) : M unit :=
  match upd with
  | CommandStart => cmd_start e m
  | CommandHelp => cmd_help m
  | CommandAdd => cmd_add_expense m
  | CommandRecent => cmd_recent_expenses m
  | CommandStats => cmd_show_statistics e m
  | Text text =>
      s ← get_state (key m);
      match s with
      | Some waiting_for_amount => process_amount_input m (Some text)
      | Some waiting_for_description => process_description_input m (Some text)
      | _ => mret tt
      end
  | NoText =>
      s ← get_state (key m);
      match s with
      | Some waiting_for_amount => process_amount_input m None
      | Some waiting_for_description => process_description_input m None
      | _ => mret tt
      end
  | Callback d =>
      if String.prefix "select_category:" d then process_category_selection m d
      else if String.eqb d "cancel_add_expense" then cancel_add_expense_operation m
      else if String.eqb d "confirm_expense" then confirm_expense_handler e m
      else if String.eqb d "cancel_confirm_expense" then cancel_confirm_expense_handler m
      else mret tt
  end.

(** The world after one update. *)
Definition handle (w : world) (e : env) (m : from_user) (upd : update) : world :=
  (dispatch e m upd w).2.

Inductive step : world -> world -> Prop :=
| step_update (w : world) (e : env) (m : from_user) (upd : update) :
    step w (handle w e m upd).

End Handlers.

(** The process right after start-up: tables created, no conversation. *)
Definition initial_world : world :=
  mk_world (Db._create_tables Db.empty_db) ∅ [].

End Bot.

(** ** Notions used to state the properties *)

(** The group of category [k] among the groups [gs]. *)
Definition stat_of (k : Z) (gs : list Db.category_stat) : option Db.category_stat :=
  find (fun g => Db.s_category_id g =? k) gs.

(** What one joined row does to the group of category [k]. *)
Definition group_acc (k : Z) (acc : option Db.category_stat) (ec : Db.expense * Db.category)
    : option Db.category_stat :=
  if Db.c_id ec.2 =? k then
    Some match acc with
         | None => Db.mk_stat (Db.c_id ec.2) (Db.c_name ec.2) (Db.c_icon ec.2) (Db.e_amount ec.1)
         | Some g => Db.mk_stat (Db.s_category_id g) (Db.s_category_name g) (Db.s_category_icon g)
                                (float_add (Db.s_sum g) (Db.e_amount ec.1))
         end
  else acc.

(** The rows of [es] that belong to user [u] and are dated within the
    last [days] days before [now]. *)
Definition window_rows (now u days : Z) (es : list Db.expense) : list Db.expense :=
  filter (fun e => (Db.e_user_id e =? u)
                   && Db.between (now - days * Db.seconds_per_day) now (Db.e_date e)) es.

(** The rows of [es] filed under category [c]. *)
Definition rows_of (c : Db.category) (es : list Db.expense) : list Db.expense :=
  filter (fun e => Db.e_category_id e =? Db.c_id c) es.

(** What every conversation record of a running bot satisfies: a pending
    amount passed the check of [process_amount_input], and a conversation
    with no step has no pending data. *)
Definition record_inv (r : Bot.MemoryStorageRecord) : Prop :=
  (forall a, Bot.amount (Bot.data r) = Some a -> float_le0 a = false) /\
  (Bot.state r = None -> Bot.data r = Bot.no_data).

Definition flow_inv (w : Bot.world) : Prop :=
  Forall (fun x => float_gt0 (Db.e_amount x) = true) (Db.expenses (Bot.db w)) /\
  forall u, record_inv (Bot.record_of w u).

(** The worlds the bot reaches from start-up, one update after the other. *)
Definition reachable (py_float : string -> option pyfloat) (py_int : string -> option Z)
    (scan : list Db.expense -> list Db.expense) (w : Bot.world) : Prop :=
  rtc (Bot.step py_float py_int scan) Bot.initial_world w.

(** The data a conversation holds at each step of a running bot: the
    fields entered so far. *)
Definition step_ready (r : Bot.MemoryStorageRecord) : Prop :=
  match Bot.state r with
  | Some Bot.waiting_for_amount => is_Some (Bot.selected_category_id (Bot.data r))
  | Some Bot.waiting_for_description =>
      is_Some (Bot.selected_category_id (Bot.data r)) /\ is_Some (Bot.amount (Bot.data r))
  | Some Bot.confirming_expense =>
      is_Some (Bot.selected_category_id (Bot.data r)) /\ is_Some (Bot.amount (Bot.data r)) /\
      is_Some (Bot.description (Bot.data r))
  | _ => True
  end.

(** The exceptions that come from SQLite's refusal of a write. *)
Definition write_error (ex : exn) : Prop := ex = IntegrityError \/ ex = OperationalError.

(** Whether some category of [d] is called [n]. *)
Definition has_name (d : Db.Database) (n : string) : bool :=
  existsb (fun c => String.eqb (Db.c_name c) n) (Db.categories d).

(** Whether the character [sep] occurs in [s]. *)
Fixpoint mentions (sep : ascii) (s : string) : bool :=
  match s with
  | EmptyString => false
  | String c s' => Ascii.eqb c sep || mentions sep s'
  end.

(** Not negative, and a number: what a sum of positive amounts is. *)
Definition float_ge0 (x : pyfloat) : bool :=
  match x with
  | Finite q => Qle_bool 0 q
  | PosInf => true
  | NegInf | NaN => false
  end.

(** A whole amount, and the sum of whole numbers. *)
Definition whole (n : Z) : pyfloat := Finite (inject_Z n).

Definition zsum (ns : list Z) : Z := fold_right Z.add 0 ns.

(** ** Concrete inputs for the examples *)

Module Sample.

(** What [float()] and [int()] return on the texts of the examples. *)
Definition py_float (s : string) : option pyfloat :=
  if String.eqb s "12.50" then Some (Finite (25 # 2))
  else if String.eqb s "0" then Some (Finite 0)
  else if String.eqb s "-3" then Some (Finite (-3))
  else if String.eqb s "nan" then Some NaN
  else None.

Definition py_int (s : string) : option Z :=
  if String.eqb s "1" then Some 1
  else if String.eqb s "2" then Some 2
  else if String.eqb s "99" then Some 99
  else None.

(** A stand-in for the order of the index, for the properties that hold
    whatever it is: the rows in the order of the table. *)
Definition table_order (es : list Db.expense) : list Db.expense := es.

(** Ann writes to the bot in a private chat. *)
Definition ann : Bot.from_user := Bot.mk_from 7 7 None (Some "Ann") None.

Definition noon : Bot.env := Bot.mk_env 1000 true.
Definition noon_read_only : Bot.env := Bot.mk_env 1000 false.

(** The world after Ann has sent the updates [ups], from start-up. *)
Definition after (ups : list Bot.update) : Bot.world :=
  fold_left (fun w upd => Bot.handle py_float py_int table_order w noon ann upd)
            ups Bot.initial_world.

(** Ann at the successive steps of the flow. *)
Definition choosing : Bot.world := after [Bot.CommandAdd].

Definition entering_amount : Bot.world :=
  after [Bot.CommandAdd; Bot.Callback "select_category:1"].

Definition entering_description : Bot.world :=
  after [Bot.CommandAdd; Bot.Callback "select_category:1"; Bot.Text "12.50"].

Definition confirming_nan : Bot.world :=
  after [Bot.CommandAdd; Bot.Callback "select_category:1"; Bot.Text "nan"; Bot.Text "lunch"].

Definition committed : Bot.world :=
  after [Bot.CommandAdd; Bot.Callback "select_category:1"; Bot.Text "12.50"; Bot.Text "-";
         Bot.Callback "confirm_expense"].

(** Ann has chosen Transport and entered an amount, and now sends /add. *)
Definition interrupted : Bot.world :=
  after [Bot.CommandAdd; Bot.Callback "select_category:2"; Bot.Text "12.50"].

(** Ann's ledger: expense A at time 100, B and C both at time 200. *)
Definition ledger : Db.Database :=
  let d0 := Db._create_tables Db.empty_db in
  let d1 := (Db.add_expense true 100 d0 7 (Some (Finite 10)) (Some 1) None None).2 in
  let d2 := (Db.add_expense true 200 d1 7 (Some (Finite 20)) (Some 2) None None).2 in
  (Db.add_expense true 200 d2 7 (Some (Finite 5)) (Some 1) (Some "tea") None).2.

(** Thirty days are 2592000 seconds: the first expense is older than the
    window that ends at time 1000, the other two are inside. *)
Definition old_ledger : Db.Database :=
  let d0 := Db._create_tables Db.empty_db in
  let d1 := (Db.add_expense true (-2600000) d0 7 (Some (Finite 5)) (Some 1) None None).2 in
  let d2 := (Db.add_expense true 900 d1 7 (Some (Finite 10)) (Some 1) None None).2 in
  (Db.add_expense true 950 d2 7 (Some (Finite 20)) (Some 2) None None).2.

(** More inputs: a second user, the seeded database, and worlds of Ann. *)
Definition bob : Bot.from_user := Bot.mk_from 8 8 (Some "bob") None None.

Definition seeded : Db.Database := Db._create_tables Db.empty_db.

Definition food : Db.category := Db.mk_category 1 "Food" "🍔".

Definition two_categories : Db.Database :=
  Db.mk_db ∅ [Db.mk_category 5 "Bills" "📄"; food] 5 [] 0.

Definition ann_known : Db.Database :=
  (Db.add_user true Db.empty_db 7 (Some "ann") (Some "Ann") None).2.

Definition greeted : Bot.world := after [Bot.CommandStart].

Definition confirming : Bot.world :=
  after [Bot.CommandAdd; Bot.Callback "select_category:1"; Bot.Text "12.50"; Bot.Text "-"].

(** Ann restarted the flow with a category and an amount still pending. *)
Definition restarted : Bot.world :=
  after [Bot.CommandAdd; Bot.Callback "select_category:2"; Bot.Text "12.50"; Bot.CommandAdd].

Definition with_tea : Db.Database :=
  (Db.add_expense true 5 seeded 7 (Some (Finite 3)) (Some 1) (Some "tea") None).2.

(** Ann again, writing in a group chat, and the world in which she has
    sent [/add] there while she was entering an amount in the private chat. *)
Definition ann_in_group : Bot.from_user := Bot.mk_from (-100) 7 None (Some "Ann") None.

Definition two_chats : Bot.world :=
  Bot.handle py_float py_int table_order entering_amount noon ann_in_group Bot.CommandAdd.

Definition with_orphan : Db.Database :=
  (Db.add_expense true 5 seeded 7 (Some (Finite 3)) (Some 99) None None).2.

End Sample.

(** * Properties *)

(** ** Floats *)

Lemma float_gt0_of_not_le0 (x : pyfloat) :
  float_le0 x = false -> float_is_nan x = false -> float_gt0 x = true.
Proof. destruct x; simpl; intros H1 H2; try congruence. now rewrite H1. Qed.

Lemma float_gt0_not_le0 (x : pyfloat) : float_gt0 x = true -> float_le0 x = false.
Proof. destruct x; simpl; try congruence. now destruct (Qle_bool q 0). Qed.

Lemma sql_of_float_Some (x y : pyfloat) :
  sql_of_float x = Some y -> y = x /\ float_is_nan x = false.
Proof. unfold sql_of_float. destruct (float_is_nan x); intros H; now inversion H. Qed.

Lemma Qle_bool_total (a b : Q) : Qle_bool a b = false -> Qle_bool b a = true.
Proof.
  intros H. apply Qle_bool_iff. destruct (Qlt_le_dec b a) as [Hlt | Hle].
  - now apply Qlt_le_weak.
  - apply Qle_bool_iff in Hle. congruence.
Qed.

Lemma Qle_bool_trans (a b c : Q) :
  Qle_bool a b = true -> Qle_bool b c = true -> Qle_bool a c = true.
Proof. rewrite !Qle_bool_iff. apply Qle_trans. Qed.

Lemma float_leb_total (x y : pyfloat) : float_leb x y = false -> float_leb y x = true.
Proof. destruct x, y; simpl; try congruence. apply Qle_bool_total. Qed.

Lemma float_leb_trans (x y z : pyfloat) :
  float_leb x y = true -> float_leb y z = true -> float_leb x z = true.
Proof. destruct x, y, z; simpl; try congruence. apply Qle_bool_trans. Qed.

Lemma sql_real_leb_total (x y : option pyfloat) :
  sql_real_leb x y = false -> sql_real_leb y x = true.
Proof. destruct x, y; simpl; try congruence. apply float_leb_total. Qed.

Lemma sql_real_leb_trans (x y z : option pyfloat) :
  sql_real_leb x y = true -> sql_real_leb y z = true -> sql_real_leb x z = true.
Proof. destruct x, y, z; simpl; try congruence. apply float_leb_trans. Qed.

(** ** Rounding

    A sum of numbers that are not negative is a number that is not
    negative, and whole numbers below [2 ^ 53] are added exactly. *)

Lemma round_half_even_nonneg (n d : Z) : 0 <= n -> 0 < d -> 0 <= round_half_even n d.
Proof.
  intros Hn Hd. unfold round_half_even.
  pose proof (Z.div_pos n d Hn Hd).
  destruct (_ <? _); [lia |]. destruct (_ <? _); [lia |]. destruct (Z.even _); lia.
Qed.

Lemma scale2_pos (n d e : Z) :
  0 < n -> 0 < d -> 0 < (scale2 n d e).1 /\ 0 < (scale2 n d e).2.
Proof.
  intros Hn Hd. unfold scale2. destruct (0 <=? e) eqn:He; simpl.
  - apply Z.leb_le in He. pose proof (Z.pow_pos_nonneg 2 e). split; nia.
  - apply Z.leb_gt in He. pose proof (Z.pow_pos_nonneg 2 (- e)). split; nia.
Qed.

Lemma round64_pos_ge0 (n d : Z) : 0 < n -> 0 < d -> float_ge0 (round64_pos n d) = true.
Proof.
  intros Hn Hd. unfold round64_pos.
  set (e := ulp_exponent n d).
  destruct (scale2_pos n d e Hn Hd) as [H1 H2].
  assert (Hm : 0 <= round_half_even (scale2 n d e).1 (scale2 n d e).2)
    by (apply round_half_even_nonneg; lia).
  clearbody e. set (m := round_half_even _ _) in *. clearbody m.
  destruct (0 <=? e) eqn:He.
  - destruct (2 ^ 1024 <=? m * 2 ^ e); [reflexivity |]. cbn [float_ge0]. apply Qle_bool_iff.
    unfold Qle. simpl. apply Z.leb_le in He. pose proof (Z.pow_pos_nonneg 2 e). nia.
  - cbn [float_ge0]. apply Qle_bool_iff. rewrite Qred_correct. unfold Qle. simpl. lia.
Qed.

Lemma round64_ge0 (q : Q) : (0 <= q)%Q -> float_ge0 (round64 q) = true.
Proof.
  intros Hq. unfold round64. destruct (Qnum q) as [| n | n] eqn:Hn.
  - reflexivity.
  - now apply round64_pos_ge0.
  - unfold Qle in Hq. simpl in Hq. rewrite Hn in Hq. lia.
Qed.

Lemma ulp_exponent_whole (z : Z) :
  0 < z < 2 ^ 53 -> ulp_exponent z 1 = Z.log2 z - 52 /\ -52 <= Z.log2 z - 52 <= 0.
Proof.
  intros Hz.
  assert (Hlog : 0 <= Z.log2 z <= 52).
  { split; [apply Z.log2_nonneg |].
    assert (Z.log2 z < 53); [| lia]. apply Z.log2_lt_pow2; lia. }
  assert (Hp : 2 ^ Z.log2 z <= z) by (apply Z.log2_spec; lia).
  split; [| lia].
  unfold ulp_exponent. change (Z.log2 1) with 0. rewrite Z.sub_0_r.
  remember (Z.log2 z - 52) as e eqn:He.
  assert (Ht : (2 ^ 52 * (scale2 z 1 e).2 <=? (scale2 z 1 e).1) = true).
  { apply Z.leb_le. unfold scale2. destruct (0 <=? e) eqn:E; cbn [fst snd].
    - apply Z.leb_le in E. assert (e = 0) by lia. subst e.
      replace (Z.log2 z) with 52 in Hp by lia. rewrite H. change (2 ^ 0) with 1. lia.
    - apply Z.leb_gt in E.
      assert (Hpow : 2 ^ 52 = 2 ^ Z.log2 z * 2 ^ (- e)).
      { rewrite <- Z.pow_add_r by lia. f_equal. lia. }
      rewrite Hpow. pose proof (Z.pow_pos_nonneg 2 (- e)). nia. }
  rewrite Ht. lia.
Qed.

Lemma Qred_whole (z : Z) : Qred (inject_Z z) = inject_Z z.
Proof.
  unfold Qred, inject_Z.
  pose proof (Z.ggcd_gcd z 1) as Hg. pose proof (Z.ggcd_correct_divisors z 1) as Hd.
  destruct (Z.ggcd z 1) as [g [aa bb]]. cbn [fst snd] in *.
  rewrite Z.gcd_1_r in Hg. subst g. destruct Hd as [Ha Hb].
  replace aa with z by lia. replace bb with 1 by lia. reflexivity.
Qed.

(** Whole numbers below [2 ^ 53] are doubles. *)
Lemma round64_whole (z : Z) : 0 <= z < 2 ^ 53 -> round64 (inject_Z z) = Finite (inject_Z z).
Proof.
  intros Hz. unfold round64. cbn [Qnum Qden inject_Z].
  destruct z as [| p | p]; [reflexivity | | lia].
  destruct (ulp_exponent_whole (Z.pos p)) as [He Hr]; [lia |].
  unfold round64_pos. rewrite He.
  remember (Z.log2 (Z.pos p) - 52) as e eqn:Heq. clear Heq He.
  assert (Hrhe : forall n, round_half_even n 1 = n).
  { intros n. unfold round_half_even. rewrite Z.mod_1_r, Z.div_1_r. reflexivity. }
  unfold scale2. destruct (0 <=? e) eqn:E; cbn [fst snd].
  - apply Z.leb_le in E. assert (e = 0) by lia. subst e.
    change (1 * 2 ^ 0) with 1. rewrite Hrhe. change (2 ^ 0) with 1. rewrite Z.mul_1_r.
    destruct (2 ^ 1024 <=? Z.pos p) eqn:Hbig; [| reflexivity].
    apply Z.leb_le in Hbig. assert (2 ^ 53 < 2 ^ 1024) by reflexivity. lia.
  - apply Z.leb_gt in E. rewrite Hrhe. f_equal.
    assert (Hk : 0 < 2 ^ (- e)) by (apply Z.pow_pos_nonneg; lia).
    transitivity (Qred (inject_Z (Z.pos p))).
    + apply Qred_complete. unfold Qeq, inject_Z. cbn [Qnum Qden].
      rewrite Z2Pos.id by exact Hk. lia.
    + apply Qred_whole.
Qed.

Lemma float_add_ge0 (x y : pyfloat) :
  float_ge0 x = true -> float_ge0 y = true -> float_ge0 (float_add x y) = true.
Proof.
  destruct x as [a | | |], y as [b | | |]; cbn [float_ge0 float_add]; try congruence.
  rewrite !Qle_bool_iff. intros Ha Hb. apply round64_ge0.
  replace 0%Q with (0 + 0)%Q by reflexivity. now apply Qplus_le_compat.
Qed.

Lemma float_add_whole (a b : Z) :
  0 <= a + b < 2 ^ 53 -> float_add (whole a) (whole b) = whole (a + b).
Proof.
  intros H. unfold whole, float_add.
  replace (inject_Z a + inject_Z b)%Q with (inject_Z (a + b)).
  - now apply round64_whole.
  - unfold inject_Z, Qplus. cbn [Qnum Qden]. f_equal. lia.
Qed.

Lemma fold_float_add_whole (ns : list Z) (a : Z) :
  0 <= a -> Forall (fun n => 0 <= n) ns -> a + zsum ns < 2 ^ 53 ->
  fold_left float_add (map whole ns) (whole a) = whole (a + zsum ns).
Proof.
  unfold zsum. revert a. induction ns as [| n ns IH]; intros a Ha Hall Hsum;
    cbn [map fold_left fold_right] in *.
  - now rewrite Z.add_0_r.
  - inversion Hall as [| ? ? Hn Hns]; subst.
    assert (Hpos : 0 <= fold_right Z.add 0 ns).
    { clear -Hns. induction Hns; simpl; lia. }
    rewrite float_add_whole by lia. rewrite IH; [f_equal; lia | lia | exact Hns | lia].
Qed.

Lemma zsum_perm (ns ns' : list Z) : Permutation ns ns' -> zsum ns = zsum ns'.
Proof. unfold zsum. induction 1; simpl; lia. Qed.

(** ** ORDER BY is a sort; LIMIT is a prefix *)

Section OrderBy.

Context {A : Type} (leb : A -> A -> bool).

Lemma order_insert_perm (x : A) (l : list A) : Permutation (order_insert leb x l) (x :: l).
Proof.
  induction l as [| y l IH]; simpl; [reflexivity |].
  destruct (leb x y); [reflexivity |].
  rewrite IH. apply perm_swap.
Qed.

Lemma order_by_perm (l : list A) : Permutation (order_by leb l) l.
Proof.
  induction l as [| x l IH]; simpl; [reflexivity |].
  rewrite order_insert_perm. now constructor.
Qed.

Hypothesis leb_total : forall x y, leb x y = false -> leb y x = true.
Hypothesis leb_trans : forall x y z, leb x y = true -> leb y z = true -> leb x z = true.

Lemma order_insert_sorted (x : A) (l : list A) :
  StronglySorted (fun a b => leb a b = true) l ->
  StronglySorted (fun a b => leb a b = true) (order_insert leb x l).
Proof.
  induction 1 as [| y l Hs IH Hy]; simpl.
  - repeat constructor.
  - destruct (leb x y) eqn:Hxy.
    + constructor; [now constructor |].
      constructor; [exact Hxy |].
      eapply Forall_impl; [exact Hy |]. intros z Hz. simpl in Hz. eauto.
    + constructor; [exact IH |].
      rewrite order_insert_perm. constructor; [now apply leb_total | exact Hy].
Qed.

Lemma order_by_sorted (l : list A) : StronglySorted (fun a b => leb a b = true) (order_by leb l).
Proof.
  induction l as [| x l IH]; simpl; [constructor |].
  now apply order_insert_sorted.
Qed.

End OrderBy.

Section Sorting.

Context {A : Type} (leb : A -> A -> bool).

Hypothesis leb_total : forall x y, leb x y = false -> leb y x = true.

Lemma order_insert_Sorted (x : A) (l : list A) :
  Sorted (fun a b => leb a b = true) l -> Sorted (fun a b => leb a b = true) (order_insert leb x l).
Proof.
  induction 1 as [| y l Hs IH Hy]; simpl.
  - repeat constructor.
  - destruct (leb x y) eqn:Hxy.
    + constructor; [now constructor |]. now constructor.
    + constructor; [exact IH |].
      destruct Hy as [| z l Hyz]; simpl.
      * constructor. now apply leb_total.
      * destruct (leb x z); constructor; [now apply leb_total | exact Hyz].
Qed.

Lemma order_by_Sorted (l : list A) : Sorted (fun a b => leb a b = true) (order_by leb l).
Proof.
  induction l as [| x l IH]; simpl; [constructor |]. now apply order_insert_Sorted.
Qed.

(** A sorted list is its own sort. *)
Lemma order_by_sorted_id (l : list A) :
  Sorted (fun a b => leb a b = true) l -> order_by leb l = l.
Proof.
  induction 1 as [| x l Hs IH Hx]; simpl; [reflexivity |].
  rewrite IH. destruct Hx as [| y l Hxy]; simpl; [reflexivity |]. now rewrite Hxy.
Qed.

End Sorting.

Lemma sql_limit_length {A : Type} (n : Z) (l : list A) :
  0 <= n -> Z.of_nat (length (sql_limit n l)) <= n.
Proof.
  intros Hn. unfold sql_limit. destruct (n <? 0) eqn:E; [lia |].
  rewrite length_take. lia.
Qed.

Lemma sql_limit_negative {A : Type} (n : Z) (l : list A) : n < 0 -> sql_limit n l = l.
Proof. intros Hn. unfold sql_limit. destruct (n <? 0) eqn:E; [reflexivity | lia]. Qed.

Lemma sql_limit_prefix {A : Type} (n : Z) (l : list A) :
  exists rest, l = (sql_limit n l ++ rest)%list.
Proof.
  unfold sql_limit. destruct (n <? 0).
  - exists []. now rewrite app_nil_r.
  - exists (drop (Z.to_nat n) l). now rewrite take_drop.
Qed.

(** ** The ledger store *)

Section LedgerFacts.

Import Db.

Lemma max_rowid_nonneg {A : Type} (rowid : A -> Z) (rows : list A) : 0 <= max_rowid rowid rows.
Proof. induction rows as [| r rows IH]; simpl; lia. Qed.

Lemma next_rowid_positive {A : Type} (rowid : A -> Z) (rows : list A) (seq : Z) :
  0 < next_rowid rowid rows seq.
Proof. unfold next_rowid. pose proof (max_rowid_nonneg rowid rows). lia. Qed.

(** A failed [add_expense] leaves the database as it was. *)
Lemma add_expense_raise (write_ok : bool) (now : Z) (d d' : Database) (u : Z)
    (a : option pyfloat) (c : option Z) (descr : option string) (date : option Z) (ex : exn) :
  add_expense write_ok now d u a c descr date = (Raise ex, d') -> d' = d.
Proof.
  unfold add_expense. destruct write_ok; simpl; [| congruence].
  destruct (a ≫= sql_of_float), c; congruence.
Qed.

(** What a successful [add_expense] did: one more row, holding the
    arguments, under a fresh positive id. *)
Lemma add_expense_ok (write_ok : bool) (now : Z) (d d' : Database) (u : Z)
    (a : option pyfloat) (c : option Z) (descr : option string) (date : option Z) (i : Z) :
  add_expense write_ok now d u a c descr date = (Ok i, d') ->
  exists x k,
    a = Some x /\ float_is_nan x = false /\ c = Some k /\ 0 < i /\
    expenses d' = (expenses d ++ [mk_expense i u x k descr (default now date)])%list /\
    categories d' = categories d /\ users d' = users d.
Proof.
  unfold add_expense. destruct write_ok; simpl; [| congruence].
  destruct a as [x |]; simpl; [| congruence].
  destruct (sql_of_float x) as [y |] eqn:Hx; [| congruence].
  apply sql_of_float_Some in Hx as [-> Hnan].
  destruct c as [k |]; [| congruence].
  intros H. inversion H; subst; clear H. exists x, k. simpl.
  repeat split; try reflexivity; try assumption;
    first [apply next_rowid_positive | now destruct date].
Qed.

(** [add_expense] looks at the amount only to refuse NULL. *)
Lemma add_expense_any_amount (now : Z) (d : Database) (u : Z) (x : pyfloat) (k : Z)
    (descr : option string) (date : option Z) :
  float_is_nan x = false ->
  exists i d',
    add_expense true now d u (Some x) (Some k) descr date = (Ok i, d') /\
    expenses d' = (expenses d ++ [mk_expense i u x k descr (default now date)])%list.
Proof.
  intros Hnan. unfold add_expense. simpl. unfold sql_of_float. rewrite Hnan.
  eexists _, _. split; [reflexivity |]. simpl. now destruct date.
Qed.

Lemma join_categories_In (d : Database) (es : list expense) (e : expense) (c : category) :
  In (e, c) (join_categories d es) <->
  In e es /\ In c (categories d) /\ e_category_id e = c_id c.
Proof.
  unfold join_categories. rewrite in_flat_map. split.
  - intros (e' & He' & Hin). apply in_map_iff in Hin as (c' & Heq & Hc').
    inversion Heq; subst. apply list_elem_of_In, list_elem_of_filter in Hc' as [Hid Hc'].
    apply Is_true_true, Z.eqb_eq in Hid. apply list_elem_of_In in Hc'. auto.
  - intros (He & Hc & Hid). exists e. split; [exact He |].
    apply in_map_iff. exists c. split; [reflexivity |].
    apply list_elem_of_In, list_elem_of_filter. split.
    + apply Is_true_true, Z.eqb_eq, Hid.
    + now apply list_elem_of_In.
Qed.


End LedgerFacts.

Lemma StronglySorted_weaken {A : Type} (R1 R2 : A -> A -> Prop) (l : list A) :
  (forall a b, R1 a b -> R2 a b) -> StronglySorted R1 l -> StronglySorted R2 l.
Proof.
  intros HR. induction 1 as [| x l Hs IH Hx]; constructor; [exact IH |].
  eapply Forall_impl; [exact Hx |]. intros y. apply HR.
Qed.

(** ** GROUP BY with SUM *)

Section GroupBy.

Import Db.

Lemma stat_of_group_step (k : Z) (gs : list category_stat) (ec : expense * category) :
  stat_of k (group_step gs ec) = group_acc k (stat_of k gs) ec.
Proof.
  unfold stat_of, group_acc. induction gs as [| g gs IH]; simpl.
  - now destruct (c_id ec.2 =? k).
  - destruct (s_category_id g =? c_id ec.2) eqn:Hg; simpl.
    + apply Z.eqb_eq in Hg. rewrite <- Hg.
      now destruct (s_category_id g =? k).
    + destruct (s_category_id g =? k) eqn:Hk; [| exact IH].
      apply Z.eqb_eq in Hk. apply Z.eqb_neq in Hg.
      destruct (c_id ec.2 =? k) eqn:Hc; [| reflexivity].
      apply Z.eqb_eq in Hc. congruence.
Qed.

Lemma stat_of_fold (k : Z) (rows : list (expense * category)) (gs : list category_stat) :
  stat_of k (fold_left group_step rows gs) = fold_left (group_acc k) rows (stat_of k gs).
Proof.
  revert gs. induction rows as [| ec rows IH]; intros gs; simpl; [reflexivity |].
  now rewrite IH, stat_of_group_step.
Qed.

(** Rows of other categories do not touch the group of [k]. *)
Lemma group_acc_filter (k : Z) (rows : list (expense * category)) (acc : option category_stat) :
  fold_left (group_acc k) rows acc =
  fold_left (group_acc k) (filter (fun ec => c_id ec.2 =? k) rows) acc.
Proof.
  revert acc. induction rows as [| ec rows IH]; intros acc; [reflexivity |].
  rewrite filter_cons. destruct (decide (c_id ec.2 =? k)) as [Hk | Hk]; simpl.
  - apply IH.
  - rewrite <- IH. unfold group_acc at 2. apply Is_true_false in Hk. now rewrite Hk.
Qed.

Lemma group_acc_sum (k : Z) (rows : list (expense * category)) (g : category_stat) :
  Forall (fun ec => c_id ec.2 = k) rows ->
  fold_left (group_acc k) rows (Some g) =
  Some (mk_stat (s_category_id g) (s_category_name g) (s_category_icon g)
                (fold_left float_add (map (fun ec => e_amount ec.1) rows) (s_sum g))).
Proof.
  revert g. induction rows as [| ec rows IH]; intros g Hall; simpl.
  - now destruct g.
  - inversion Hall as [| ? ? Hk Hrows]; subst.
    unfold group_acc at 2. rewrite Z.eqb_refl. now rewrite IH.
Qed.

(** The group of [k] after the whole pass: opened by the first row of
    category [k], its sum taken over these rows in the order visited. *)
Lemma stat_of_group_by (k : Z) (rows : list (expense * category)) :
  stat_of k (group_by_category rows) =
  match filter (fun ec => c_id ec.2 =? k) rows with
  | [] => None
  | ec :: rest =>
      Some (mk_stat (c_id ec.2) (c_name ec.2) (c_icon ec.2)
                    (fold_left float_add (map (fun ec => e_amount ec.1) rest) (e_amount ec.1)))
  end.
Proof.
  unfold group_by_category. rewrite stat_of_fold. simpl. rewrite group_acc_filter.
  assert (Hall : Forall (fun ec => c_id ec.2 = k) (filter (fun ec => c_id ec.2 =? k) rows)).
  { apply Forall_forall. intros ec Hin. apply list_elem_of_filter in Hin as [Hk _].
    now apply Is_true_true, Z.eqb_eq in Hk. }
  destruct (filter (fun ec => c_id ec.2 =? k) rows) as [| ec rest]; [reflexivity |].
  inversion Hall as [| ? ? Hk Hrest]; subst. simpl.
  unfold group_acc at 2. rewrite Z.eqb_refl. now rewrite group_acc_sum.
Qed.

Lemma group_step_ids (gs : list category_stat) (ec : expense * category) (k : Z) :
  In k (map s_category_id (group_step gs ec)) <->
  In k (map s_category_id gs) \/ k = c_id ec.2.
Proof.
  induction gs as [| g gs IH]; simpl.
  - intuition.
  - destruct (s_category_id g =? c_id ec.2) eqn:Hg; simpl.
    + apply Z.eqb_eq in Hg. intuition congruence.
    + rewrite IH. intuition.
Qed.

Lemma group_step_NoDup (gs : list category_stat) (ec : expense * category) :
  NoDup (map s_category_id gs) -> NoDup (map s_category_id (group_step gs ec)).
Proof.
  induction gs as [| g gs IH]; simpl; intros Hnd.
  - repeat constructor. now intros H%elem_of_nil.
  - apply NoDup_cons in Hnd as [Hg Hnd].
    destruct (s_category_id g =? c_id ec.2) eqn:Hk; simpl.
    + now apply NoDup_cons.
    + apply NoDup_cons. split; [| now apply IH].
      rewrite list_elem_of_In, group_step_ids. rewrite list_elem_of_In in Hg.
      apply Z.eqb_neq in Hk. intuition.
Qed.

Lemma group_by_NoDup (rows : list (expense * category)) :
  NoDup (map s_category_id (group_by_category rows)).
Proof.
  unfold group_by_category.
  assert (H : NoDup (map s_category_id (@nil category_stat))) by constructor.
  revert H. generalize (@nil category_stat).
  induction rows as [| ec rows IH]; intros gs Hgs; simpl; [exact Hgs |].
  apply IH. now apply group_step_NoDup.
Qed.

Lemma stat_of_In (gs : list category_stat) (g : category_stat) :
  NoDup (map s_category_id gs) -> In g gs -> stat_of (s_category_id g) gs = Some g.
Proof.
  unfold stat_of. induction gs as [| g' gs IH]; simpl; [tauto |].
  intros Hnd Hin. apply NoDup_cons in Hnd as [Hg' Hnd].
  destruct Hin as [-> | Hin]; [now rewrite Z.eqb_refl |].
  destruct (s_category_id g' =? s_category_id g) eqn:Hk; [| now apply IH].
  apply Z.eqb_eq in Hk. exfalso. apply Hg'. rewrite Hk.
  apply list_elem_of_In, in_map, Hin.
Qed.

Lemma stat_of_Some (k : Z) (gs : list category_stat) (g : category_stat) :
  stat_of k gs = Some g -> In g gs /\ s_category_id g = k.
Proof.
  unfold stat_of. intros H. apply find_some in H as [Hin Hk].
  split; [exact Hin | now apply Z.eqb_eq].
Qed.

End GroupBy.

(** ** Joining with a table whose ids are unique *)

Section JoinFacts.

Import Db.

Lemma filter_bool_none {A : Type} (p : A -> bool) (l : list A) :
  (forall x, In x l -> p x = false) -> filter (fun x => p x) l = [].
Proof.
  induction l as [| x l IH]; intros H; [reflexivity |].
  rewrite filter_cons. destruct (decide (p x)) as [Hp | Hp].
  - apply Is_true_true in Hp. rewrite (H x) in Hp by now left. discriminate.
  - apply IH. intros y Hy. apply H. now right.
Qed.

(** A primary key selects one row. *)
Lemma filter_unique_id (cs : list category) (c0 : category) :
  NoDup (map c_id cs) -> In c0 cs ->
  filter (fun c => c_id c0 =? c_id c) cs = [c0].
Proof.
  induction cs as [| c cs IH]; simpl; [tauto |].
  intros Hnd Hin. apply NoDup_cons in Hnd as [Hc Hnd]. rewrite filter_cons.
  destruct Hin as [-> | Hin].
  - rewrite decide_True by (apply Is_true_true, Z.eqb_refl). f_equal.
    apply filter_bool_none. intros c Hin. apply Z.eqb_neq. intros Heq.
    apply Hc. rewrite Heq. apply list_elem_of_In, in_map, Hin.
  - rewrite decide_False; [now apply IH |].
    intros Heq%Is_true_true%Z.eqb_eq. apply Hc. rewrite <- Heq.
    apply list_elem_of_In, in_map, Hin.
Qed.

(** The joined rows of one category are its expenses, in the same order. *)
Lemma join_filter_category (d : Database) (es : list expense) (c0 : category) :
  NoDup (map c_id (categories d)) -> In c0 (categories d) ->
  filter (fun ec => c_id ec.2 =? c_id c0) (join_categories d es) =
  map (fun e => (e, c0)) (filter (fun e => e_category_id e =? c_id c0) es).
Proof.
  intros Hnd Hin. induction es as [| e es IH]; [reflexivity |].
  unfold join_categories in *. simpl. rewrite filter_app, IH, filter_cons.
  destruct (decide (e_category_id e =? c_id c0)) as [Hk | Hk].
  - apply Is_true_true, Z.eqb_eq in Hk. rewrite Hk.
    rewrite (filter_unique_id _ _ Hnd Hin). simpl.
    rewrite filter_cons, decide_True by (apply Is_true_true, Z.eqb_refl).
    reflexivity.
  - rewrite filter_bool_none; [reflexivity |].
    intros [e' c] Hec. apply in_map_iff in Hec as (c' & Heq & Hc').
    inversion Heq; subst. simpl.
    apply list_elem_of_In, list_elem_of_filter in Hc' as [Hid _].
    apply Is_true_true, Z.eqb_eq in Hid. apply Z.eqb_neq. intros Heq'.
    apply Hk, Is_true_true, Z.eqb_eq. congruence.
Qed.

End JoinFacts.

(** ** The recent expenses *)




Section RecentExpenses.

Import Db.




(** The index holds every row once, in the order of its keys. *)
Lemma idx_expenses_user_date_perm (es : list expense) :
  Permutation (idx_expenses_user_date es) es.
Proof. apply order_by_perm. Qed.





End RecentExpenses.

(** ** Sums of whole amounts *)

(** Over whole amounts that are not negative [SUM] is exact, whatever the
    order, as long as the total stays below [2 ^ 53]. *)
Lemma sql_sum_whole (xs : list pyfloat) (ns : list Z) :
  Permutation xs (map whole ns) -> Forall (fun n => 0 <= n) ns -> zsum ns < 2 ^ 53 ->
  xs <> [] -> sql_sum xs = Some (whole (zsum ns)).
Proof.
  intros Hperm Hall Hsum Hne. apply Permutation_map_inv in Hperm as (ns' & -> & Hns).
  rewrite (zsum_perm _ _ Hns) in *.
  assert (Hall' : Forall (fun n => 0 <= n) ns') by (now rewrite <- Hns).
  destruct ns' as [| n ns']; [exfalso; now apply Hne |].
  inversion Hall' as [| ? ? Hn Hns']; subst.
  unfold sql_sum. cbn [map]. rewrite fold_float_add_whole; [reflexivity | | |]; assumption.
Qed.

Lemma or_zero_whole (xs : list pyfloat) (ns : list Z) :
  Permutation xs (map whole ns) -> Forall (fun n => 0 <= n) ns -> zsum ns < 2 ^ 53 ->
  or_zero (sql_sum xs) = whole (zsum ns).
Proof.
  intros Hperm Hall Hsum. destruct xs as [| x xs].
  - apply Permutation_nil in Hperm. destruct ns; [reflexivity | discriminate].
  - rewrite (sql_sum_whole (x :: xs) ns Hperm Hall Hsum) by discriminate.
    unfold or_zero, whole, float_truthy.
    destruct (Qeq_bool (inject_Z (zsum ns)) 0) eqn:Hz; [| reflexivity].
    apply Qeq_bool_iff in Hz. unfold Qeq in Hz. cbn [Qnum Qden inject_Z] in Hz.
    replace (zsum ns) with 0 by lia. reflexivity.
Qed.

(** ** Statistics *)

Section Statistics.

Import Db.

Variable scan : list expense -> list expense.

Lemma total_desc_total (a b : category_stat) : total_desc a b = false -> total_desc b a = true.
Proof. apply sql_real_leb_total. Qed.

Lemma total_desc_trans (a b c : category_stat) :
  total_desc a b = true -> total_desc b c = true -> total_desc a c = true.
Proof. unfold total_desc. intros H1 H2. eapply sql_real_leb_trans; eassumption. Qed.

Lemma window_rows_perm (now u days : Z) (es es' : list expense) :
  Permutation es es' -> Permutation (window_rows now u days es) (window_rows now u days es').
Proof. intros H. unfold window_rows. now rewrite H. Qed.

Lemma rows_of_perm (c : category) (es es' : list expense) :
  Permutation es es' -> Permutation (rows_of c es) (rows_of c es').
Proof. intros H. unfold rows_of. now rewrite H. Qed.

(** C9.  [get_user_expense_stats] sums the user's expenses dated in
    [[now - days, now]]: the total over all of them, and one subtotal for
    each category that has some, listed by subtotal, largest first.  The
    sums are those of the doubles, added in the order the rows are visited;
    over whole amounts they are exact as long as they stay below [2 ^ 53].
    With no expense in the window the total is zero and the list is
    empty. *)
Theorem get_user_expense_stats_window (now : Z) (d : Database) (u days : Z) :
  Permutation (scan (expenses d)) (expenses d) ->
  NoDup (map c_id (categories d)) ->
  let r := get_user_expense_stats scan now d u days in
  let visited := window_rows now u days (scan (expenses d)) in
  let rows := window_rows now u days (expenses d) in
  Permutation visited rows /\
  total_spending r = or_zero (sql_sum (map e_amount visited)) /\
  (forall ns, Forall (fun n => 0 <= n) ns -> map e_amount rows = map whole ns ->
     zsum ns < 2 ^ 53 -> total_spending r = whole (zsum ns)) /\
  (forall g, In g (category_spending r) ->
     exists c, In c (categories d) /\
       s_category_id g = c_id c /\ s_category_name g = c_name c /\
       s_category_icon g = c_icon c /\
       rows_of c visited <> [] /\
       category_total g = sql_sum (map e_amount (rows_of c visited)) /\
       (forall ns, Forall (fun n => 0 <= n) ns ->
          map e_amount (rows_of c rows) = map whole ns -> zsum ns < 2 ^ 53 ->
          category_total g = Some (whole (zsum ns)))) /\
  (forall c e, In c (categories d) -> In e rows -> e_category_id e = c_id c ->
     exists g, In g (category_spending r) /\ s_category_id g = c_id c) /\
  NoDup (map s_category_id (category_spending r)) /\
  StronglySorted (fun g1 g2 => sql_real_leb (category_total g2) (category_total g1) = true)
                 (category_spending r) /\
  period_days r = days /\
  (rows = [] -> total_spending r = Finite 0 /\ category_spending r = []).
Proof.
  intros Hperm Hnd r visited rows.
  assert (Hvis : Permutation visited rows) by now apply window_rows_perm.
  set (groups := group_by_category (join_categories d visited)).
  assert (Hcs : category_spending r = order_by total_desc groups) by reflexivity.
  assert (Hgperm : Permutation (category_spending r) groups)
    by (rewrite Hcs; apply order_by_perm).
  assert (Hgnd : NoDup (map s_category_id groups)) by apply group_by_NoDup.
  split; [exact Hvis |]. split; [reflexivity |].
  split; [| split; [| split; [| split; [| split; [| split; [reflexivity |]]]]]].
  - intros ns Hall Hns Hsum. apply or_zero_whole; [| exact Hall | exact Hsum].
    rewrite <- Hns. now apply Permutation_map.
  - intros g Hg. eapply Permutation_in in Hg; [| exact Hgperm].
    pose proof (stat_of_In groups g Hgnd Hg) as Hstat.
    unfold groups in Hstat. rewrite stat_of_group_by in Hstat.
    destruct (filter (fun ec => c_id ec.2 =? s_category_id g) (join_categories d visited))
      as [| [e0 c] rest] eqn:Hf; [discriminate |].
    assert (Hin : In (e0, c) (join_categories d visited)).
    { assert (Hel : (e0, c) ∈ filter (fun ec => c_id ec.2 =? s_category_id g)
                                     (join_categories d visited)) by (rewrite Hf; left).
      apply list_elem_of_filter in Hel as [_ Hel]. now apply list_elem_of_In. }
    apply join_categories_In in Hin as (_ & Hc & _).
    inversion Hstat as [Hg']. simpl in Hg'.
    assert (Hid : s_category_id g = c_id c) by (rewrite <- Hg'; reflexivity).
    rewrite Hid in Hf. rewrite (join_filter_category d visited c Hnd Hc) in Hf.
    fold (rows_of c visited) in Hf.
    destruct (rows_of c visited) as [| e1 es1] eqn:Hrows; [discriminate |].
    simpl in Hf. inversion Hf; subst e1 rest; clear Hf.
    assert (Htot : category_total g = sql_sum (map e_amount (e0 :: es1))).
    { rewrite <- Hg'. unfold category_total. simpl. rewrite map_map. reflexivity. }
    clear Hid Hstat. subst g. exists c. split; [exact Hc |].
    do 3 (split; [reflexivity |]). rewrite Hrows.
    split; [discriminate |]. split; [exact Htot |].
    intros ns Hall Hns Hsum. rewrite Htot.
    apply sql_sum_whole; [| exact Hall | exact Hsum | discriminate].
    rewrite <- Hns, <- Hrows. apply Permutation_map, rows_of_perm, Hvis.
  - intros c e Hc He Hid.
    assert (Hev : In e visited) by (eapply Permutation_in; [symmetry; exact Hvis | exact He]).
    pose proof (stat_of_group_by (c_id c) (join_categories d visited)) as Hstat.
    rewrite (join_filter_category d visited c Hnd Hc) in Hstat.
    destruct (filter (fun e => e_category_id e =? c_id c) visited) as [| e1 es1] eqn:Hrows.
    + exfalso. apply list_elem_of_In in Hev.
      eapply (filter_nil_not_elem_of _ _ _ Hrows); [| exact Hev].
      simpl. apply Is_true_true, Z.eqb_eq, Hid.
    + simpl in Hstat. apply stat_of_Some in Hstat as [Hin Hk].
      eexists. split; [| exact Hk].
      eapply Permutation_in; [symmetry; exact Hgperm | exact Hin].
  - assert (Hmap : Permutation (map s_category_id (category_spending r))
                               (map s_category_id groups)) by now apply Permutation_map.
    now rewrite Hmap.
  - rewrite Hcs. eapply StronglySorted_weaken;
      [| apply (order_by_sorted total_desc total_desc_total total_desc_trans)].
    intros a b H. exact H.
  - intros Hrows. rewrite Hrows in Hvis. apply Permutation_sym, Permutation_nil in Hvis.
    subst r. unfold get_user_expense_stats. fold (window_rows now u days (scan (expenses d))).
    fold visited. rewrite Hvis. split; reflexivity.
Qed.

End Statistics.

(** ** The add-expense flow *)

Section FlowFacts.

Import Db Bot.

Variable py_float : string -> option pyfloat.
Variable py_int : string -> option Z.
Variable scan : list expense -> list expense.

Abbreviation dispatch := (Bot.dispatch py_float py_int scan).
Abbreviation handle := (Bot.handle py_float py_int scan).
Abbreviation step := (Bot.step py_float py_int scan).

#[local] Arguments record_of : simpl never.

Lemma record_of_insert (d : Database) (s : gmap (Z * Z) MemoryStorageRecord)
    (o : list (Z * reply)) (u u' : Z * Z) (r : MemoryStorageRecord) :
  record_of (mk_world d (<[u := r]> s) o) u' =
  if decide (u = u') then r else record_of (mk_world d s o) u'.
Proof.
  unfold record_of. simpl. rewrite lookup_insert. now destruct (decide (u = u')).
Qed.

Lemma record_of_storage (w w' : world) (u : Z * Z) :
  storage w' = storage w -> record_of w' u = record_of w u.
Proof. unfold record_of. now intros ->. Qed.

Ltac run :=
  repeat progress
    (unfold mbind, M_bind, mret, M_ret, raise, update_data, clear, get_state, get_data,
       set_data, set_state, answer, db_read, db_write);
  cbv beta iota; cbn [db storage sent data state fst snd].

Lemma update_data_set_state (u : Z * Z) (f : fsm_data -> fsm_data) (s : option ExpenseStates)
    (w : world) :
  (update_data u f;; set_state u s) w =
  (Ok tt, mk_world (db w) (<[u := mk_record (f (data (record_of w u))) s]> (storage w)) (sent w)).
Proof.
  run. rewrite record_of_insert, decide_True by reflexivity. simpl.
  now rewrite insert_insert_eq.
Qed.

Lemma clear_world (u : Z * Z) (w : world) :
  clear u w = (Ok tt, mk_world (db w) (<[u := empty_record]> (storage w)) (sent w)).
Proof.
  run. rewrite record_of_insert, decide_True by reflexivity. simpl.
  now rewrite insert_insert_eq.
Qed.

(** C6.  In [waiting_for_amount], a text that [float()] reads as a positive
    number is stored as the amount and the flow moves on to
    [waiting_for_description]; a text that [float()] rejects, or reads as a
    value [<= 0], is answered with a validation error and changes neither
    the step nor the pending fields. *)
Theorem process_amount_input_step (w : world) (e : env) (m : from_user) (text : string) :
  state (record_of w (key m)) = Some waiting_for_amount ->
  let old := data (record_of w (key m)) in
  (forall q, py_float text = Some (Finite q) -> (0 < q)%Q ->
     dispatch e m (Text text) w =
     (Ok tt,
      mk_world (db w)
        (<[key m := mk_record (mk_data (selected_category_id old) (Some (Finite q))
                                           (description old))
                                  (Some waiting_for_description)]> (storage w))
        (sent w ++ [(chat_id m, AskDescription)]))) /\
  (py_float text = None ->
     dispatch e m (Text text) w =
     (Ok tt, mk_world (db w) (storage w) (sent w ++ [(chat_id m, InvalidAmount)]))) /\
  (forall a, py_float text = Some a -> float_le0 a = true ->
     dispatch e m (Text text) w =
     (Ok tt, mk_world (db w) (storage w) (sent w ++ [(chat_id m, AmountNotPositive)]))).
Proof.
  intros Hst old.
  assert (Hd : dispatch e m (Text text) w = process_amount_input py_float m (Some text) w).
  { unfold Bot.dispatch. run. now rewrite Hst. }
  rewrite Hd. unfold process_amount_input. split; [| split].
  - intros q Hq Hpos. rewrite Hq. simpl.
    assert (Hle : Qle_bool q 0 = false).
    { destruct (Qle_bool q 0) eqn:E; [| reflexivity].
      apply Qle_bool_iff in E. exfalso. eapply Qlt_not_le; eassumption. }
    rewrite Hle. run. rewrite record_of_insert, decide_True by reflexivity. simpl.
    now rewrite insert_insert_eq.
  - intros Hnone. now rewrite Hnone.
  - intros a Ha Hle. now rewrite Ha, Hle.
Qed.

Lemma world_eta (w : world) : mk_world (db w) (storage w) (sent w) = w.
Proof. now destruct w. Qed.

Lemma dispatch_text (w : world) (e : env) (m : from_user) (text : string) :
  dispatch e m (Text text) w =
  match state (record_of w (key m)) with
  | Some waiting_for_amount => process_amount_input py_float m (Some text) w
  | Some waiting_for_description => process_description_input m (Some text) w
  | _ => (Ok tt, w)
  end.
Proof.
  unfold Bot.dispatch. run.
  destruct (state (record_of w (key m))) as [[] |]; reflexivity.
Qed.

(** A message without text fails at the amount step, passes for no
    description at the description step, and is ignored elsewhere. *)
Lemma dispatch_no_text (w : world) (e : env) (m : from_user) :
  dispatch e m NoText w =
  match state (record_of w (key m)) with
  | Some waiting_for_amount => (Raise TypeError, w)
  | Some waiting_for_description => process_description_input m None w
  | _ => (Ok tt, w)
  end.
Proof.
  unfold Bot.dispatch. run.
  destruct (state (record_of w (key m))) as [[] |]; reflexivity.
Qed.

(** C7.  In [waiting_for_description] the text ["-"] stores no description
    and any other text is stored as it is; then the pending category is
    looked up: when it is not found the flow ends with an error and the
    conversation is cleared, otherwise the step becomes
    [confirming_expense]. *)
Theorem process_description_input_step (w : world) (e : env) (m : from_user) (text : string) :
  state (record_of w (key m)) = Some waiting_for_description ->
  let old := data (record_of w (key m)) in
  let descr := if decide (text = "-") then None else Some text in
  let w' := handle w e m (Text text) in
  (get_category (db w) (selected_category_id old) = None ->
     dispatch e m (Text text) w =
     (Ok tt, mk_world (db w) (<[key m := empty_record]> (storage w))
                      (sent w ++ [(chat_id m, CategoryNotFound)]))) /\
  (forall c, get_category (db w) (selected_category_id old) = Some c ->
     db w' = db w /\
     storage w' =
       <[key m := mk_record (mk_data (selected_category_id old) (amount old) (Some descr))
                                (Some confirming_expense)]> (storage w) /\
     state (record_of w' (key m)) = Some confirming_expense /\
     description (data (record_of w' (key m))) = Some descr /\
     forall a, amount old = Some a ->
       dispatch e m (Text text) w =
       (Ok tt, mk_world (db w) (storage w')
                 (sent w ++ [(chat_id m, ConfirmExpense c a (str_or descr None)
                                           Keyboards.get_confirmation_keyboard)]))).
Proof.
  intros Hst old descr w'.
  assert (Hdescr : (if String.eqb text "-" then None else Some text) = descr).
  { subst descr. destruct (String.eqb_spec text "-"), (decide (text = "-")); congruence. }
  assert (Hd : dispatch e m (Text text) w = process_description_input m (Some text) w)
    by now rewrite dispatch_text, Hst.
  subst w'. unfold Bot.handle. rewrite Hd. unfold process_description_input.
  rewrite Hdescr. run.
  rewrite !record_of_insert, !decide_True by reflexivity. cbn [data state selected_category_id amount].
  fold old. split.
  - intros Hnone. rewrite Hnone. run.
    rewrite !record_of_insert, !decide_True by reflexivity.
    now rewrite !insert_insert_eq.
  - intros c Hc. rewrite Hc. run.
    rewrite !record_of_insert, !decide_True by reflexivity. cbn [data state].
    rewrite !insert_insert_eq.
    destruct (amount old) as [a |] eqn:Ha; run;
      rewrite ?record_of_insert, ?decide_True by reflexivity;
      (repeat split; try reflexivity); intros a' Ha'; congruence.
Qed.

Lemma dispatch_select (w : world) (e : env) (m : from_user) (cb : string) :
  String.prefix "select_category:" cb = true ->
  dispatch e m (Callback cb) w = process_category_selection py_int m cb w.
Proof. intros H. unfold Bot.dispatch. now rewrite H. Qed.

Lemma process_category_selection_world (w : world) (m : from_user) (cb s : string) (cid : Z) :
  split ":"%char cb !! 1%nat = Some s -> py_int s = Some cid ->
  process_category_selection py_int m cb w =
  (Ok tt,
   mk_world (db w)
     (<[key m := mk_record (mk_data (Some cid) (amount (data (record_of w (key m))))
                                        (description (data (record_of w (key m)))))
                               (Some waiting_for_amount)]> (storage w))
     (sent w ++ [(chat_id m, CategorySelected)])).
Proof.
  intros Hs Hi. unfold process_category_selection. rewrite Hs, Hi. run.
  rewrite !record_of_insert, !decide_True by reflexivity. cbn [data state].
  now rewrite insert_insert_eq.
Qed.

Lemma process_amount_input_ok (w : world) (m : from_user) (text : string) (a : pyfloat) :
  py_float text = Some a -> float_le0 a = false ->
  process_amount_input py_float m (Some text) w =
  (Ok tt,
   mk_world (db w)
     (<[key m := mk_record (mk_data (selected_category_id (data (record_of w (key m))))
                                        (Some a)
                                        (description (data (record_of w (key m)))))
                               (Some waiting_for_description)]> (storage w))
     (sent w ++ [(chat_id m, AskDescription)])).
Proof.
  intros Ha Hle. unfold process_amount_input. rewrite Ha, Hle. run.
  rewrite !record_of_insert, !decide_True by reflexivity. cbn [data state].
  now rewrite insert_insert_eq.
Qed.

Lemma process_description_input_not_found (w : world) (m : from_user) (text : string) :
  get_category (db w) (selected_category_id (data (record_of w (key m)))) = None ->
  process_description_input m (Some text) w =
  (Ok tt, mk_world (db w) (<[key m := empty_record]> (storage w))
                   (sent w ++ [(chat_id m, CategoryNotFound)])).
Proof.
  intros Hnone. unfold process_description_input. run.
  rewrite !record_of_insert, !decide_True by reflexivity.
  cbn [data state selected_category_id]. rewrite Hnone. run.
  rewrite !record_of_insert, !decide_True by reflexivity.
  now rewrite !insert_insert_eq.
Qed.

Lemma process_description_input_found (w : world) (m : from_user) (text : string)
    (c : category) (a : pyfloat) :
  get_category (db w) (selected_category_id (data (record_of w (key m)))) = Some c ->
  amount (data (record_of w (key m))) = Some a ->
  let descr := if String.eqb text "-" then None else Some text in
  process_description_input m (Some text) w =
  (Ok tt,
   mk_world (db w)
     (<[key m := mk_record (mk_data (selected_category_id (data (record_of w (key m))))
                                        (Some a) (Some descr))
                               (Some confirming_expense)]> (storage w))
     (sent w ++ [(chat_id m, ConfirmExpense c a (str_or descr None)
                               Keyboards.get_confirmation_keyboard)])).
Proof.
  intros Hc Ha descr. unfold process_description_input. fold descr. run.
  rewrite !record_of_insert, !decide_True by reflexivity.
  cbn [data state selected_category_id amount]. rewrite Hc, Ha. run.
  rewrite !record_of_insert, !decide_True by reflexivity. cbn [data state].
  now rewrite !insert_insert_eq.
Qed.

(** C10.  A category selection stores the id it carries and moves to
    [waiting_for_amount]; the categories table is not consulted.  When no
    category has that id, entering the amount still moves on to
    [waiting_for_description], and it is the lookup after the description
    that ends the flow with "category not found". *)
Theorem process_category_selection_unchecked (w : world) (e e1 e2 : env) (m : from_user)
    (cb s : string) (cid : Z) :
  String.prefix "select_category:" cb = true ->
  split ":"%char cb !! 1%nat = Some s ->
  py_int s = Some cid ->
  let old := data (record_of w (key m)) in
  let w1 := handle w e m (Callback cb) in
  dispatch e m (Callback cb) w =
    (Ok tt,
     mk_world (db w)
       (<[key m := mk_record (mk_data (Some cid) (amount old) (description old))
                                 (Some waiting_for_amount)]> (storage w))
       (sent w ++ [(chat_id m, CategorySelected)])) /\
  (get_category (db w) (Some cid) = None ->
   forall amount_text a description_text,
     py_float amount_text = Some a -> float_le0 a = false ->
     let w2 := handle w1 e1 m (Text amount_text) in
     let w3 := handle w2 e2 m (Text description_text) in
     state (record_of w2 (key m)) = Some waiting_for_description /\
     sent w2 = (sent w ++ [(chat_id m, CategorySelected); (chat_id m, AskDescription)])%list /\
     record_of w3 (key m) = empty_record /\
     sent w3 = (sent w2 ++ [(chat_id m, CategoryNotFound)])%list /\
     db w3 = db w).
Proof.
  intros Hp Hs Hi old w1.
  assert (H1 : dispatch e m (Callback cb) w = _)
    by (rewrite (dispatch_select w e m cb Hp);
        exact (process_category_selection_world w m cb s cid Hs Hi)).
  split; [exact H1 |].
  intros Hnone amount_text a description_text Ha Hle w2 w3.
  assert (Hw1 : w1 = _) by (unfold w1, Bot.handle; rewrite H1; cbn [snd]; reflexivity).
  assert (Hw2 : w2 =
            mk_world (db w)
              (<[key m := mk_record (mk_data (Some cid) (Some a) (description old))
                                        (Some waiting_for_description)]> (storage w))
              (sent w ++ [(chat_id m, CategorySelected); (chat_id m, AskDescription)])).
  { unfold w2. rewrite Hw1. unfold Bot.handle. rewrite dispatch_text.
    rewrite record_of_insert, decide_True by reflexivity. cbn [state].
    rewrite (process_amount_input_ok _ m amount_text a Ha Hle). cbn [snd db storage sent].
    rewrite !record_of_insert, !decide_True by reflexivity.
    cbn [data state selected_category_id description].
    now rewrite insert_insert_eq, <- app_assoc. }
  assert (Hw3 : w3 =
            mk_world (db w) (<[key m := empty_record]> (storage w))
                     (sent w2 ++ [(chat_id m, CategoryNotFound)])).
  { unfold w3. rewrite Hw2. unfold Bot.handle. rewrite dispatch_text.
    rewrite record_of_insert, decide_True by reflexivity. cbn [state].
    rewrite process_description_input_not_found
      by (rewrite record_of_insert, decide_True by reflexivity; exact Hnone).
    cbn [snd db storage sent]. now rewrite insert_insert_eq. }
  rewrite Hw3, Hw2. cbn [db sent].
  rewrite !record_of_insert, !decide_True by reflexivity. cbn [state].
  repeat split; reflexivity.
Qed.

Lemma dispatch_add (w : world) (e : env) (m : from_user) :
  dispatch e m CommandAdd w =
  (Ok tt,
   mk_world (db w)
     (<[key m := mk_record (data (record_of w (key m))) (Some waiting_for_category)]>
        (storage w))
     (sent w ++ [(chat_id m,
                  ChooseCategory (Keyboards.get_category_selection_keyboard
                                    (get_categories (db w))))])).
Proof. unfold Bot.dispatch, cmd_add_expense. run. reflexivity. Qed.

(** C5 (as amended).  [/add] sets the step to [waiting_for_category]
    whatever it was and leaves the pending fields of the flow it interrupts
    in the stored data.  The new flow then replaces them one by one: once
    the category, the amount and the description have been entered, nothing
    of the interrupted flow is left.  A conversation belongs to a user in a
    chat: [/add] touches no other conversation, not even that of the same
    user in another chat. *)
Theorem cmd_add_expense_restarts (w : world) (e e1 e2 e3 : env) (m : from_user) :
  let u := key m in
  let w1 := handle w e m CommandAdd in
  db w1 = db w /\
  record_of w1 u = mk_record (data (record_of w u)) (Some waiting_for_category) /\
  (forall u', u' <> u -> record_of w1 u' = record_of w u') /\
  (forall m', user_id m' = user_id m -> chat_id m' <> chat_id m ->
     record_of w1 (key m') = record_of w (key m')) /\
  (forall cb s cid amount_text a description_text c,
     String.prefix "select_category:" cb = true ->
     split ":"%char cb !! 1%nat = Some s ->
     py_int s = Some cid ->
     py_float amount_text = Some a -> float_le0 a = false ->
     get_category (db w) (Some cid) = Some c ->
     let w2 := handle w1 e1 m (Callback cb) in
     let w3 := handle w2 e2 m (Text amount_text) in
     let w4 := handle w3 e3 m (Text description_text) in
     record_of w4 u =
     mk_record (mk_data (Some cid) (Some a)
                  (Some (if decide (description_text = "-") then None
                         else Some description_text)))
               (Some confirming_expense)).
Proof.
  intros u w1.
  assert (Hw1 : w1 = _)
    by (unfold w1, Bot.handle; rewrite dispatch_add; cbn [snd]; reflexivity).
  assert (Hother : forall u', u' <> u -> record_of w1 u' = record_of w u').
  { intros u' Hne. rewrite Hw1, record_of_insert, decide_False
      by (intros Heq; apply Hne; now rewrite <- Heq).
    now apply record_of_storage. }
  split; [now rewrite Hw1 |]. split; [| split; [exact Hother | split]].
  - rewrite Hw1, record_of_insert, decide_True by reflexivity. reflexivity.
  - intros m' _ Hchat. apply Hother. unfold u, key. intros Heq. inversion Heq. contradiction.
  - intros cb s cid amount_text a description_text c Hp Hs Hi Ha Hle Hc w2 w3 w4.
    clear Hother.
    assert (Hrec1 : record_of w1 u = mk_record (data (record_of w u)) (Some waiting_for_category))
      by (rewrite Hw1, record_of_insert, decide_True by reflexivity; reflexivity).
    assert (Hdb1 : db w1 = db w) by now rewrite Hw1.
    clearbody w1. clear Hw1.
    assert (Hw2 : w2 = _)
      by (unfold w2, Bot.handle; rewrite (dispatch_select _ _ _ _ Hp),
            (process_category_selection_world _ m cb s cid Hs Hi); cbn [snd]; reflexivity).
    assert (Hrec2 : record_of w2 u =
              mk_record (mk_data (Some cid) (amount (data (record_of w u)))
                                 (description (data (record_of w u))))
                        (Some waiting_for_amount)).
    { rewrite Hw2, record_of_insert, decide_True by reflexivity.
      fold u. now rewrite Hrec1. }
    assert (Hdb2 : db w2 = db w) by now rewrite Hw2.
    clearbody w2. clear Hw2.
    assert (Hw3 : w3 = _)
      by (unfold w3, Bot.handle; rewrite dispatch_text; fold u; rewrite Hrec2; cbn [state];
          rewrite (process_amount_input_ok _ m amount_text a Ha Hle); cbn [snd]; reflexivity).
    assert (Hrec3 : record_of w3 u =
              mk_record (mk_data (Some cid) (Some a) (description (data (record_of w u))))
                        (Some waiting_for_description)).
    { rewrite Hw3, record_of_insert, decide_True by reflexivity.
      fold u. now rewrite Hrec2. }
    assert (Hdb3 : db w3 = db w) by now rewrite Hw3.
    clearbody w3. clear Hw3.
    unfold w4, Bot.handle. rewrite dispatch_text. fold u. rewrite Hrec3. cbn [state].
    rewrite (process_description_input_found w3 m description_text c a).
    + cbn [snd]. rewrite record_of_insert, decide_True by reflexivity.
      fold u. rewrite Hrec3. cbn [data selected_category_id].
      destruct (String.eqb_spec description_text "-"), (decide (description_text = "-"));
        congruence.
    + fold u. rewrite Hrec3, Hdb3. exact Hc.
    + fold u. now rewrite Hrec3.
Qed.

(** The cancel button of the confirmation keyboard clears the
    conversation, in whatever step it is pressed. *)
Lemma cancel_confirm_expense_clears (w : world) (e : env) (m : from_user) :
  dispatch e m (Callback "cancel_confirm_expense") w =
  (Ok tt, mk_world (db w) (<[key m := empty_record]> (storage w))
                   (sent w ++ [(chat_id m, ExpenseCancelled)])).
Proof.
  change (dispatch e m (Callback "cancel_confirm_expense") w)
    with (cancel_confirm_expense_handler m w).
  unfold cancel_confirm_expense_handler. run.
  rewrite !record_of_insert, !decide_True by reflexivity. now rewrite insert_insert_eq.
Qed.

Lemma dispatch_cancel_add (w : world) (e : env) (m : from_user) :
  dispatch e m (Callback "cancel_add_expense") w = cancel_add_expense_operation m w.
Proof. reflexivity. Qed.

(** C4.  The two cancel buttons do not behave alike.  The one under the
    category list only answers: the step and the pending fields of every
    user, the sender included, are what they were.  The one under the
    confirmation prompt clears the sender's conversation, whatever its
    step. *)
Theorem cancel_add_expense_keeps_state (w : world) (e : env) (m : from_user) :
  let w1 := handle w e m (Callback "cancel_add_expense") in
  let w2 := handle w e m (Callback "cancel_confirm_expense") in
  (dispatch e m (Callback "cancel_add_expense") w).1 = Ok tt /\
  db w1 = db w /\
  (forall u, record_of w1 u = record_of w u) /\
  sent w1 = (sent w ++ [(chat_id m, AddExpenseCancelled)])%list /\
  (dispatch e m (Callback "cancel_confirm_expense") w).1 = Ok tt /\
  record_of w2 (key m) = empty_record.
Proof.
  intros w1 w2.
  assert (H1 : w1 = mk_world (db w) (storage w) (sent w ++ [(chat_id m, AddExpenseCancelled)])).
  { unfold w1, Bot.handle. rewrite dispatch_cancel_add.
    unfold cancel_add_expense_operation. run. reflexivity. }
  assert (H2 : w2 = mk_world (db w) (<[key m := empty_record]> (storage w))
                             (sent w ++ [(chat_id m, ExpenseCancelled)])).
  { unfold w2, Bot.handle. now rewrite cancel_confirm_expense_clears. }
  split; [now rewrite dispatch_cancel_add |].
  split; [now rewrite H1 |].
  split; [intros u; rewrite H1; now apply record_of_storage |].
  split; [now rewrite H1 |].
  split; [now rewrite cancel_confirm_expense_clears |].
  rewrite H2, record_of_insert, decide_True by reflexivity. reflexivity.
Qed.

(** *** Confirmation *)

Lemma dispatch_confirm (w : world) (e : env) (m : from_user) :
  dispatch e m (Callback "confirm_expense") w = confirm_expense_handler e m w.
Proof. reflexivity. Qed.

Lemma confirm_expense_handler_raise (w : world) (e : env) (m : from_user) (ex : exn)
    (d' : Database) :
  let old := data (record_of w (key m)) in
  add_expense (write_ok e) (now e) (db w) (user_id m) (amount old) (selected_category_id old)
              (mjoin (description old)) None = (Raise ex, d') ->
  confirm_expense_handler e m w = (Raise ex, w).
Proof.
  intros old H. pose proof (add_expense_raise _ _ _ _ _ _ _ _ _ _ H) as ->.
  unfold confirm_expense_handler. run. fold old. rewrite H. cbn [fst snd].
  now rewrite world_eta.
Qed.

Lemma confirm_expense_handler_ok (w : world) (e : env) (m : from_user) (i : Z) (d' : Database) :
  let old := data (record_of w (key m)) in
  add_expense (write_ok e) (now e) (db w) (user_id m) (amount old) (selected_category_id old)
              (mjoin (description old)) None = (Ok i, d') ->
  exists a,
    amount old = Some a /\
    confirm_expense_handler e m w =
    (Ok tt, mk_world d' (<[key m := empty_record]> (storage w))
              (sent w ++ [(chat_id m, ExpenseSaved a (str_or (mjoin (description old)) None))])).
Proof.
  intros old H. pose proof (add_expense_ok _ _ _ _ _ _ _ _ _ _ H) as (x & k & Hx & _ & _ & Hi & _).
  exists x. split; [exact Hx |].
  unfold confirm_expense_handler. run. fold old. rewrite H. cbn [fst snd].
  assert (Hz : (i =? 0) = false) by (apply Z.eqb_neq; lia).
  rewrite Hz, Hx. cbn [negb]. run.
  rewrite !record_of_insert, !decide_True by reflexivity. now rewrite insert_insert_eq.
Qed.

(** C3.  When the write of the confirmation fails, the handler stops
    there: no row, and the conversation is still in [confirming_expense]
    with its pending fields, so that pressing Confirm again retries.  A
    write that does not fail returns a non-zero id, so the branch that
    reports a failure and then clears the conversation is never taken. *)
Theorem confirm_expense_write_failure (w : world) (e : env) (m : from_user) :
  state (record_of w (key m)) = Some confirming_expense ->
  let old := data (record_of w (key m)) in
  let write := add_expense (write_ok e) (now e) (db w) (user_id m) (amount old)
                           (selected_category_id old) (mjoin (description old)) None in
  let w' := handle w e m (Callback "confirm_expense") in
  (forall ex, write.1 = Raise ex ->
     dispatch e m (Callback "confirm_expense") w = (Raise ex, w) /\
     expenses (db w') = expenses (db w) /\
     record_of w' (key m) = record_of w (key m) /\
     state (record_of w' (key m)) = Some confirming_expense) /\
  (forall i, write.1 = Ok i ->
     i <> 0 /\
     exists a, dispatch e m (Callback "confirm_expense") w =
               (Ok tt, mk_world write.2 (<[key m := empty_record]> (storage w))
                         (sent w ++ [(chat_id m,
                                      ExpenseSaved a (str_or (mjoin (description old)) None))]))).
Proof.
  intros Hst old write w'. split.
  - intros ex Hex.
    assert (H : dispatch e m (Callback "confirm_expense") w = (Raise ex, w)).
    { rewrite dispatch_confirm. apply (confirm_expense_handler_raise w e m ex write.2).
      fold old write. rewrite <- Hex. now destruct write. }
    subst w'. unfold Bot.handle. rewrite H. cbn [snd]. auto.
  - intros i Hi.
    assert (H : write = (Ok i, write.2)) by (rewrite <- Hi; now destruct write).
    split.
    + apply add_expense_ok in H as (_ & _ & _ & _ & _ & Hpos & _). lia.
    + destruct (confirm_expense_handler_ok w e m i write.2 H) as (a & _ & Ha).
      exists a. now rewrite dispatch_confirm.
Qed.

(** *** What holds in every reachable world *)

Lemma record_inv_empty : record_inv empty_record.
Proof. split; [discriminate | reflexivity]. Qed.

Lemma flow_inv_initial : flow_inv initial_world.
Proof.
  split; [constructor |]. intros u. unfold record_of. cbn [storage initial_world].
  rewrite lookup_empty. apply record_inv_empty.
Qed.

Lemma flow_inv_storage (w w' : world) :
  flow_inv w -> storage w' = storage w -> expenses (db w') = expenses (db w) -> flow_inv w'.
Proof.
  intros [Hrows Hrec] Hs He. split; [now rewrite He |].
  intros u. rewrite (record_of_storage w w' u Hs). apply Hrec.
Qed.

Lemma flow_inv_insert (w : world) (d' : Database) (o : list (Z * reply)) (u : Z * Z)
    (r : MemoryStorageRecord) :
  flow_inv w -> record_inv r ->
  Forall (fun x => float_gt0 (e_amount x) = true) (expenses d') ->
  flow_inv (mk_world d' (<[u := r]> (storage w)) o).
Proof.
  intros [Hrows Hrec] Hr He. split; [exact He |].
  intros u'. rewrite record_of_insert. destruct (decide (u = u')); [exact Hr |].
  rewrite (record_of_storage w (mk_world d' (storage w) o) u' eq_refl). apply Hrec.
Qed.

Lemma process_description_input_world (w : world) (m : from_user) (t : option string) :
  let old := data (record_of w (key m)) in
  let descr := match t with
               | Some text => if String.eqb text "-" then None else Some text
               | None => None
               end in
  exists o,
    (process_description_input m t w).2 =
    match get_category (db w) (selected_category_id old) with
    | None => mk_world (db w) (<[key m := empty_record]> (storage w)) o
    | Some c =>
        mk_world (db w)
          (<[key m := mk_record (mk_data (selected_category_id old) (amount old) (Some descr))
                                    (Some confirming_expense)]> (storage w)) o
    end.
Proof.
  intros old descr. unfold process_description_input. fold descr. run.
  rewrite !record_of_insert, !decide_True by reflexivity.
  cbn [data state selected_category_id amount]. fold old.
  destruct (get_category (db w) (selected_category_id old)) as [c |]; run.
  - rewrite !record_of_insert, !decide_True by reflexivity. cbn [data state].
    rewrite !insert_insert_eq. destruct (amount old); run; eexists; reflexivity.
  - rewrite !record_of_insert, !decide_True by reflexivity.
    rewrite !insert_insert_eq. eexists; reflexivity.
Qed.

Lemma flow_inv_handle (w : world) (e : env) (m : from_user) (upd : update) :
  flow_inv w -> flow_inv (handle w e m upd).
Proof.
  intros Hinv. pose proof Hinv as [Hrows Hrec]. pose proof (Hrec (key m)) as [Hamt Hnone].
  unfold Bot.handle. destruct upd as [| | | | | text | | cb].
  - (* /start *)
    eapply flow_inv_storage; [exact Hinv | |];
      unfold Bot.dispatch, cmd_start, add_user; run; unfold get_user;
      destruct (users (db w) !! user_id m); [reflexivity | | reflexivity |];
      destruct (write_ok e); reflexivity.
  - (* /help *)
    eapply flow_inv_storage; [exact Hinv | reflexivity | reflexivity].
  - (* /add *)
    rewrite dispatch_add. cbn [snd]. apply flow_inv_insert; [exact Hinv | | exact Hrows].
    split; [exact Hamt | discriminate].
  - (* /recent *)
    eapply flow_inv_storage; [exact Hinv | |];
      unfold Bot.dispatch, cmd_recent_expenses; run;
      destruct (get_user_expenses scan (db w) (user_id m) 5); reflexivity.
  - (* /stats *)
    eapply flow_inv_storage; [exact Hinv | |];
      unfold Bot.dispatch, cmd_show_statistics; run;
      destruct (category_spending _); [reflexivity | | reflexivity |];
      destruct (forallb _ _); reflexivity.
  - (* a text message *)
    rewrite dispatch_text.
    destruct (state (record_of w (key m))) as [[] |] eqn:Hst;
      try (cbn [snd]; exact Hinv).
    + unfold process_amount_input.
      destruct (py_float text) as [a |];
        [| eapply flow_inv_storage; [exact Hinv | reflexivity | reflexivity]].
      destruct (float_le0 a) eqn:Hle;
        [eapply flow_inv_storage; [exact Hinv | reflexivity | reflexivity] |].
      run. rewrite !record_of_insert, !decide_True by reflexivity. cbn [data state].
      rewrite insert_insert_eq. apply flow_inv_insert; [exact Hinv | | exact Hrows].
      split; [| discriminate]. cbn [data amount]. intros a' Ha'. congruence.
    + destruct (process_description_input_world w m (Some text)) as [o Ho]. rewrite Ho.
      destruct (get_category _ _); apply flow_inv_insert;
        try exact Hinv; try exact Hrows; try apply record_inv_empty.
      split; [exact Hamt | discriminate].
  - (* a message without text *)
    rewrite dispatch_no_text.
    destruct (state (record_of w (key m))) as [[] |] eqn:Hst;
      try (cbn [snd]; exact Hinv).
    destruct (process_description_input_world w m None) as [o Ho]. rewrite Ho.
    destruct (get_category _ _); apply flow_inv_insert;
      try exact Hinv; try exact Hrows; try apply record_inv_empty.
    split; [exact Hamt | discriminate].
  - (* a button *)
    unfold Bot.dispatch. destruct (String.prefix "select_category:" cb).
    { unfold process_category_selection.
      destruct (split ":"%char cb !! 1%nat) as [s |]; [| exact Hinv].
      destruct (py_int s) as [cid |]; [| exact Hinv].
      run. rewrite !record_of_insert, !decide_True by reflexivity. cbn [data state].
      rewrite insert_insert_eq. apply flow_inv_insert; [exact Hinv | | exact Hrows].
      split; [exact Hamt | discriminate]. }
    destruct (String.eqb cb "cancel_add_expense").
    { eapply flow_inv_storage; [exact Hinv | reflexivity | reflexivity]. }
    destruct (String.eqb cb "confirm_expense").
    { destruct (add_expense (write_ok e) (now e) (db w) (user_id m)
                  (amount (data (record_of w (key m))))
                  (selected_category_id (data (record_of w (key m))))
                  (mjoin (description (data (record_of w (key m))))) None)
        as [[i | ex] d'] eqn:Hadd.
      - destruct (confirm_expense_handler_ok w e m i d' Hadd) as (a & Ha & ->). cbn [snd].
        apply add_expense_ok in Hadd as (x & k & Hx & Hnan & _ & _ & Hexp & _).
        apply flow_inv_insert; [exact Hinv | apply record_inv_empty |].
        rewrite Hexp. apply Forall_app. split; [exact Hrows |].
        constructor; [| constructor]. cbn [e_amount].
        apply float_gt0_of_not_le0; [| exact Hnan]. apply Hamt. exact Hx.
      - rewrite (confirm_expense_handler_raise w e m ex d' Hadd). exact Hinv. }
    destruct (String.eqb cb "cancel_confirm_expense"); [| exact Hinv].
    unfold cancel_confirm_expense_handler. run.
    rewrite !record_of_insert, !decide_True by reflexivity. rewrite insert_insert_eq.
    apply flow_inv_insert; [exact Hinv | apply record_inv_empty | exact Hrows].
Qed.

Lemma reachable_flow_inv (w : world) : reachable py_float py_int scan w -> flow_inv w.
Proof.
  unfold reachable. revert w. apply (rtc_ind_r (fun w => flow_inv w)).
  - apply flow_inv_initial.
  - intros w1 w2 _ Hstep IH. destruct Hstep. now apply flow_inv_handle.
Qed.

(** C2.  A Confirm press that arrives when the user has no step: the
    conversation then has no pending data, the [INSERT] is refused for its
    NULL amount, and the handler ends there.  No row is created and the
    conversation is as before. *)
Theorem confirm_expense_stale (w : world) (e : env) (m : from_user) :
  reachable py_float py_int scan w ->
  state (record_of w (key m)) = None ->
  let w' := handle w e m (Callback "confirm_expense") in
  (exists ex, dispatch e m (Callback "confirm_expense") w = (Raise ex, w)) /\
  expenses (db w') = expenses (db w) /\
  record_of w' (key m) = record_of w (key m) /\
  storage w' = storage w.
Proof.
  intros Hreach Hst w'.
  destruct (reachable_flow_inv w Hreach) as [_ Hrec].
  destruct (Hrec (key m)) as [_ Hnone]. specialize (Hnone Hst).
  assert (H : exists ex, dispatch e m (Callback "confirm_expense") w = (Raise ex, w)).
  { exists (if write_ok e then IntegrityError else OperationalError).
    rewrite dispatch_confirm. eapply confirm_expense_handler_raise.
    rewrite Hnone. unfold add_expense. cbn [amount no_data]. destruct (write_ok e); reflexivity. }
  split; [exact H |]. destruct H as [ex H].
  subst w'. unfold Bot.handle. rewrite H. cbn [snd]. auto.
Qed.

(** C1 (as amended).  [add_expense] does not look at the sign of the
    amount: given any amount that is not NaN, and a category id, it inserts
    the row and returns its id; when it fails it has inserted nothing.
    Amounts [<= 0] are turned away earlier, by [process_amount_input], so
    every expense row the bot has committed since start-up has an amount
    [> 0]. *)
Theorem add_expense_amounts :
  (forall now d u x k descr date,
     float_is_nan x = false ->
     exists i d',
       add_expense true now d u (Some x) (Some k) descr date = (Ok i, d') /\
       expenses d' = (expenses d ++ [mk_expense i u x k descr (default now date)])%list) /\
  (forall write_ok now d u a k descr date ex d',
     add_expense write_ok now d u a k descr date = (Raise ex, d') -> d' = d) /\
  (forall w, reachable py_float py_int scan w ->
     Forall (fun x => float_gt0 (e_amount x) = true) (expenses (db w))).
Proof.
  split; [| split].
  - intros. now apply add_expense_any_amount.
  - intros. eapply add_expense_raise; eassumption.
  - intros w Hreach. now destruct (reachable_flow_inv w Hreach).
Qed.

End FlowFacts.

(** ** The properties on concrete inputs *)

Section Examples.

Import Db Bot Sample.

Abbreviation sample_dispatch := (Bot.dispatch Sample.py_float Sample.py_int table_order).
Abbreviation sample_handle := (Bot.handle Sample.py_float Sample.py_int table_order).
Abbreviation sample_reachable := (reachable Sample.py_float Sample.py_int table_order).

Lemma reachable_updates (ups : list update) (w : world) :
  sample_reachable w ->
  sample_reachable (fold_left (fun w upd => sample_handle w noon ann upd) ups w).
Proof.
  unfold reachable. revert w.
  induction ups as [| upd ups IH]; intros w Hw; simpl; [exact Hw |].
  apply IH. eapply rtc_r; [exact Hw | constructor].
Qed.

Lemma after_reachable (ups : list update) : sample_reachable (after ups).
Proof. apply reachable_updates. apply rtc_refl. Qed.

(** The end-to-end flow of the specification: one row, amount 12.50, Food,
    no description, and the conversation cleared. *)
Example end_to_end_flow :
  expenses (db committed) = [mk_expense 1 7 (Finite (25 # 2)) 1 None 1000] /\
  record_of committed (7, 7) = empty_record.
Proof. split; vm_compute; reflexivity. Qed.

(** The listing example of the specification: of A, B, C, entered in
    this order, the two most recent are C and B; C comes first though it
    carries the timestamp of B.  A negative limit lists all three. *)
Example recent_two :
  map v_id (get_user_expenses idx_expenses_user_date ledger 7 2) = [3; 2] /\
  map v_id (get_user_expenses idx_expenses_user_date ledger 7 (-1)) = [3; 2; 1].
Proof. split; vm_compute; reflexivity. Qed.

(** The doubles nearest to 0.1 and 0.2 add up to the double
    0.30000000000000004, which is not their exact sum. *)
Example float_add_rounds :
  float_add (Finite (3602879701896397 # 36028797018963968))
            (Finite (3602879701896397 # 18014398509481984))
  = Finite (1351079888211149 # 4503599627370496) /\
  ~ ((3602879701896397 # 36028797018963968) + (3602879701896397 # 18014398509481984)
     == 1351079888211149 # 4503599627370496)%Q.
Proof. split; [vm_compute; reflexivity | intros H; vm_compute in H; discriminate H]. Qed.

(** Seeding a seeded database adds no category and moves the counter from
    7 to 14. *)
Example second_seeding :
  categories (_create_tables seeded) = categories seeded /\
  categories_seq seeded = 7 /\
  categories_seq (_create_tables seeded) = 14.
Proof. repeat split; vm_compute; reflexivity. Qed.

(** Ann in two chats: two conversations, each at its own step. *)
Example one_user_two_conversations :
  user_id ann_in_group = user_id ann /\
  state (record_of two_chats (key ann)) = Some waiting_for_amount /\
  state (record_of two_chats (key ann_in_group)) = Some waiting_for_category.
Proof. repeat split; vm_compute; reflexivity. Qed.

(** The statistics example of the specification. *)
Example stats_thirty_days :
  total_spending (get_user_expense_stats idx_expenses_user_date 1000 old_ledger 7 30)
    = Finite 30 /\
  map (fun g => (s_category_name g, category_total g))
      (category_spending (get_user_expense_stats idx_expenses_user_date 1000 old_ledger 7 30)) =
  [("Transport", Some (Finite 20)); ("Food", Some (Finite 10))].
Proof. split; vm_compute; reflexivity. Qed.

(** The Cancel button under the category list leaves Ann in
    [waiting_for_category]. *)
Example cancel_at_category_keeps_step :
  state (record_of (after [CommandAdd; Callback "cancel_add_expense"]) (7, 7)) =
  Some waiting_for_category.
Proof. vm_compute. reflexivity. Qed.

(** C1, the claim as stated fails: an amount of -5 is inserted. *)
Lemma add_expense_accepts_negative :
  ~ (forall (write_ok : bool) (now : Z) (d : Database) (u : Z) (a : pyfloat) (k : option Z)
            (descr : option string) (date : option Z),
       float_le0 a = true ->
       exists ex, add_expense write_ok now d u (Some a) k descr date = (Raise ex, d)).
Proof.
  intros H.
  destruct (H true 0 empty_db 7 (Finite (-5)) (Some 1) None None eq_refl) as [ex Hex].
  vm_compute in Hex. discriminate Hex.
Qed.

Lemma add_expense_amounts_witness :
  float_is_nan (Finite (-5)) = false /\
  sample_reachable committed /\
  (exists i d',
     add_expense true 0 empty_db 7 (Some (Finite (-5))) (Some 1) None None = (Ok i, d') /\
     expenses d' = (expenses empty_db ++ [mk_expense i 7 (Finite (-5)) 1 None (default 0 None)])%list) /\
  Forall (fun x => float_gt0 (e_amount x) = true) (expenses (db committed)).
Proof.
  split; [reflexivity |]. split; [apply after_reachable |]. split.
  - exact (proj1 (add_expense_amounts Sample.py_float Sample.py_int table_order)
             0 empty_db 7 (Finite (-5)) 1 None None eq_refl).
  - exact (proj2 (proj2 (add_expense_amounts Sample.py_float Sample.py_int table_order))
             committed (after_reachable _)).
Defined.

Lemma confirm_expense_stale_witness :
  sample_reachable committed /\
  state (record_of committed (key ann)) = None /\
  (exists ex, sample_dispatch noon ann (Callback "confirm_expense") committed
              = (Raise ex, committed)) /\
  expenses (db (sample_handle committed noon ann (Callback "confirm_expense")))
    = expenses (db committed) /\
  record_of (sample_handle committed noon ann (Callback "confirm_expense")) (key ann)
    = record_of committed (key ann) /\
  storage (sample_handle committed noon ann (Callback "confirm_expense")) = storage committed.
Proof.
  split; [apply after_reachable |]. split; [vm_compute; reflexivity |].
  exact (confirm_expense_stale Sample.py_float Sample.py_int table_order committed noon ann
           (after_reachable _) ltac:(vm_compute; reflexivity)).
Defined.

Lemma confirm_expense_write_failure_witness :
  state (record_of confirming_nan (key ann)) = Some confirming_expense /\
  (add_expense (write_ok noon) (now noon) (db confirming_nan) (user_id ann)
     (amount (data (record_of confirming_nan (key ann))))
     (selected_category_id (data (record_of confirming_nan (key ann))))
     (mjoin (description (data (record_of confirming_nan (key ann))))) None).1
    = Raise IntegrityError /\
  sample_dispatch noon ann (Callback "confirm_expense") confirming_nan
    = (Raise IntegrityError, confirming_nan) /\
  expenses (db (sample_handle confirming_nan noon ann (Callback "confirm_expense")))
    = expenses (db confirming_nan) /\
  record_of (sample_handle confirming_nan noon ann (Callback "confirm_expense")) (key ann)
    = record_of confirming_nan (key ann) /\
  state (record_of (sample_handle confirming_nan noon ann (Callback "confirm_expense"))
                   (key ann))
    = Some confirming_expense.
Proof.
  split; [vm_compute; reflexivity |]. split; [vm_compute; reflexivity |].
  exact (proj1 (confirm_expense_write_failure Sample.py_float Sample.py_int table_order
                  confirming_nan noon ann ltac:(vm_compute; reflexivity))
           IntegrityError ltac:(vm_compute; reflexivity)).
Defined.

Lemma two_chats_reachable : sample_reachable two_chats.
Proof. eapply rtc_r; [apply after_reachable | constructor]. Qed.

(** C5, the claim as stated fails twice: the category and the amount
    entered in the interrupted flow are still in the data after [/add]; and
    a user has one conversation in each chat, so that Ann can be entering an
    amount in her private chat and choosing a category in a group. *)
Lemma cmd_add_expense_keeps_pending :
  ~ (forall (py_float : string -> option pyfloat) (py_int : string -> option Z)
            (scan : list expense -> list expense) (w : world) (e : env) (m : from_user),
       reachable py_float py_int scan w ->
       state (record_of w (key m)) <> None ->
       record_of (Bot.handle py_float py_int scan w e m CommandAdd) (key m) =
       mk_record no_data (Some waiting_for_category)) /\
  ~ (forall (py_float : string -> option pyfloat) (py_int : string -> option Z)
            (scan : list expense -> list expense) (w : world) (m m' : from_user),
       reachable py_float py_int scan w ->
       user_id m = user_id m' ->
       state (record_of w (key m)) = state (record_of w (key m'))).
Proof.
  split; intros H.
  - specialize (H Sample.py_float Sample.py_int table_order interrupted noon ann
                  (after_reachable _)).
    vm_compute in H. specialize (H ltac:(discriminate)). discriminate H.
  - specialize (H Sample.py_float Sample.py_int table_order two_chats ann ann_in_group
                  two_chats_reachable eq_refl).
    vm_compute in H. discriminate H.
Qed.

Lemma cmd_add_expense_restarts_witness :
  String.prefix "select_category:" "select_category:1" = true /\
  split ":"%char "select_category:1" !! 1%nat = Some "1" /\
  Sample.py_int "1" = Some 1 /\
  Sample.py_float "12.50" = Some (Finite (25 # 2)) /\
  float_le0 (Finite (25 # 2)) = false /\
  get_category (db interrupted) (Some 1) = Some (mk_category 1 "Food" "🍔") /\
  record_of (sample_handle interrupted noon ann CommandAdd) (key ann) =
    mk_record (data (record_of interrupted (key ann))) (Some waiting_for_category) /\
  data (record_of interrupted (key ann)) = mk_data (Some 2) (Some (Finite (25 # 2))) None /\
  user_id ann_in_group = user_id ann /\
  chat_id ann_in_group <> chat_id ann /\
  record_of (sample_handle interrupted noon ann CommandAdd) (key ann_in_group) =
    record_of interrupted (key ann_in_group) /\
  record_of
    (sample_handle
       (sample_handle
          (sample_handle (sample_handle interrupted noon ann CommandAdd)
                         noon ann (Callback "select_category:1"))
          noon ann (Text "12.50"))
       noon ann (Text "-"))
    (key ann) =
  mk_record (mk_data (Some 1) (Some (Finite (25 # 2)))
                     (Some (if decide ("-" = "-") then None else Some "-")))
            (Some confirming_expense).
Proof.
  assert (Hchat : chat_id ann_in_group <> chat_id ann) by discriminate.
  do 5 (split; [reflexivity |]). split; [vm_compute; reflexivity |].
  pose proof (cmd_add_expense_restarts Sample.py_float Sample.py_int table_order
                interrupted noon noon noon noon ann) as H.
  split; [exact (proj1 (proj2 H)) |]. split; [vm_compute; reflexivity |].
  split; [reflexivity |]. split; [exact Hchat |]. split.
  - exact (proj1 (proj2 (proj2 (proj2 H))) ann_in_group eq_refl Hchat).
  - exact (proj2 (proj2 (proj2 (proj2 H)))
             "select_category:1" "1" 1 "12.50" (Finite (25 # 2)) "-"
             (mk_category 1 "Food" "🍔")
             eq_refl eq_refl eq_refl eq_refl eq_refl ltac:(vm_compute; reflexivity)).
Defined.

Lemma process_amount_input_step_witness :
  state (record_of entering_amount (key ann)) = Some waiting_for_amount /\
  Sample.py_float "12.50" = Some (Finite (25 # 2)) /\
  (0 < 25 # 2)%Q /\
  Sample.py_float "twelve" = None /\
  Sample.py_float "-3" = Some (Finite (-3)) /\
  float_le0 (Finite (-3)) = true /\
  sample_dispatch noon ann (Text "12.50") entering_amount =
    (Ok tt,
     mk_world (db entering_amount)
       (<[key ann :=
            mk_record (mk_data (selected_category_id (data (record_of entering_amount (key ann))))
                               (Some (Finite (25 # 2)))
                               (description (data (record_of entering_amount (key ann)))))
                      (Some waiting_for_description)]> (storage entering_amount))
       (sent entering_amount ++ [(chat_id ann, AskDescription)])) /\
  sample_dispatch noon ann (Text "twelve") entering_amount =
    (Ok tt, mk_world (db entering_amount) (storage entering_amount)
              (sent entering_amount ++ [(chat_id ann, InvalidAmount)])) /\
  sample_dispatch noon ann (Text "-3") entering_amount =
    (Ok tt, mk_world (db entering_amount) (storage entering_amount)
              (sent entering_amount ++ [(chat_id ann, AmountNotPositive)])).
Proof.
  split; [vm_compute; reflexivity |]. do 5 (split; [reflexivity |]).
  split; [| split].
  - exact (proj1 (process_amount_input_step Sample.py_float Sample.py_int table_order
                    entering_amount noon ann "12.50" ltac:(vm_compute; reflexivity))
             (25 # 2) eq_refl eq_refl).
  - exact (proj1 (proj2 (process_amount_input_step Sample.py_float Sample.py_int table_order
                    entering_amount noon ann "twelve" ltac:(vm_compute; reflexivity)))
             eq_refl).
  - exact (proj2 (proj2 (process_amount_input_step Sample.py_float Sample.py_int table_order
                    entering_amount noon ann "-3" ltac:(vm_compute; reflexivity)))
             (Finite (-3)) eq_refl eq_refl).
Defined.

Lemma process_description_input_step_witness :
  state (record_of entering_description (key ann)) = Some waiting_for_description /\
  get_category (db entering_description)
    (selected_category_id (data (record_of entering_description (key ann))))
    = Some (mk_category 1 "Food" "🍔") /\
  state (record_of (sample_handle entering_description noon ann (Text "-")) (key ann))
    = Some confirming_expense /\
  description (data (record_of (sample_handle entering_description noon ann (Text "-"))
                               (key ann)))
    = Some (if decide ("-" = "-") then None else Some "-").
Proof.
  split; [vm_compute; reflexivity |]. split; [vm_compute; reflexivity |].
  pose proof (proj2 (process_description_input_step Sample.py_float Sample.py_int table_order
                       entering_description noon ann "-" ltac:(vm_compute; reflexivity))
                (mk_category 1 "Food" "🍔") ltac:(vm_compute; reflexivity)) as H.
  exact (conj (proj1 (proj2 (proj2 H))) (proj1 (proj2 (proj2 (proj2 H))))).
Defined.

Lemma table_order_perm (d : Database) : Permutation (table_order (expenses d)) (expenses d).
Proof. apply Permutation_refl. Qed.

Lemma ledger_keys (d : Database) :
  map e_id (expenses d) = [1; 2; 3] -> map c_id (categories d) = [1; 2; 3; 4; 5; 6; 7] ->
  NoDup (map e_id (expenses d)) /\ NoDup (map c_id (categories d)).
Proof.
  intros -> ->.
  split; repeat (apply NoDup_cons_2; [rewrite ?elem_of_cons, elem_of_nil; lia |]);
    apply NoDup_nil_2.
Qed.


Lemma get_user_expense_stats_window_witness :
  Permutation (idx_expenses_user_date (expenses old_ledger)) (expenses old_ledger) /\
  NoDup (map c_id (categories old_ledger)) /\
  Forall (fun n => 0 <= n) [10; 20] /\
  map e_amount (window_rows 1000 7 30 (expenses old_ledger)) = map whole [10; 20] /\
  zsum [10; 20] < 2 ^ 53 /\
  total_spending (get_user_expense_stats idx_expenses_user_date 1000 old_ledger 7 30)
    = whole (zsum [10; 20]) /\
  StronglySorted (fun g1 g2 => sql_real_leb (category_total g2) (category_total g1) = true)
    (category_spending (get_user_expense_stats idx_expenses_user_date 1000 old_ledger 7 30)).
Proof.
  pose proof (idx_expenses_user_date_perm (expenses old_ledger)) as Hperm.
  destruct (ledger_keys old_ledger ltac:(vm_compute; reflexivity) ltac:(vm_compute; reflexivity))
    as [_ Hnd].
  assert (Hall : Forall (fun n => 0 <= n) [10; 20]) by (repeat constructor; lia).
  assert (Hrows : map e_amount (window_rows 1000 7 30 (expenses old_ledger))
                  = map whole [10; 20]) by (vm_compute; reflexivity).
  assert (Hsum : zsum [10; 20] < 2 ^ 53) by reflexivity.
  split; [exact Hperm |]. split; [exact Hnd |]. split; [exact Hall |].
  split; [exact Hrows |]. split; [exact Hsum |].
  pose proof (get_user_expense_stats_window idx_expenses_user_date 1000 old_ledger 7 30
                Hperm Hnd) as H.
  split.
  - exact (proj1 (proj2 (proj2 H)) [10; 20] Hall Hrows Hsum).
  - exact (proj1 (proj2 (proj2 (proj2 (proj2 (proj2 (proj2 H))))))).
Defined.

Lemma process_category_selection_unchecked_witness :
  String.prefix "select_category:" "select_category:99" = true /\
  split ":"%char "select_category:99" !! 1%nat = Some "99" /\
  Sample.py_int "99" = Some 99 /\
  get_category (db choosing) (Some 99) = None /\
  Sample.py_float "12.50" = Some (Finite (25 # 2)) /\
  float_le0 (Finite (25 # 2)) = false /\
  sample_dispatch noon ann (Callback "select_category:99") choosing =
    (Ok tt,
     mk_world (db choosing)
       (<[key ann :=
            mk_record (mk_data (Some 99) (amount (data (record_of choosing (key ann))))
                               (description (data (record_of choosing (key ann)))))
                      (Some waiting_for_amount)]> (storage choosing))
       (sent choosing ++ [(chat_id ann, CategorySelected)])) /\
  state (record_of (sample_handle
                      (sample_handle choosing noon ann (Callback "select_category:99"))
                      noon ann (Text "12.50")) (key ann))
    = Some waiting_for_description /\
  record_of (sample_handle
               (sample_handle
                  (sample_handle choosing noon ann (Callback "select_category:99"))
                  noon ann (Text "12.50"))
               noon ann (Text "lunch")) (key ann)
    = empty_record.
Proof.
  do 3 (split; [reflexivity |]). split; [vm_compute; reflexivity |].
  do 2 (split; [reflexivity |]).
  pose proof (process_category_selection_unchecked Sample.py_float Sample.py_int table_order
                choosing noon noon noon ann "select_category:99" "99" 99
                eq_refl eq_refl eq_refl) as [H1 H2].
  pose proof (H2 ltac:(vm_compute; reflexivity) "12.50" (Finite (25 # 2)) "lunch"
                eq_refl eq_refl) as (H3 & _ & H5 & _).
  exact (conj H1 (conj H3 H5)).
Defined.

End Examples.

(** * More of the code *)

(** ** Seeding the categories *)

Section Seeding.

Import Db.

Lemma max_rowid_bound {A : Type} (rowid : A -> Z) (rows : list A) (r : A) :
  In r rows -> rowid r <= max_rowid rowid rows.
Proof.
  induction rows as [| r' rows IH]; simpl; [tauto |].
  intros [-> | Hin]; [lia |]. specialize (IH Hin). lia.
Qed.

Lemma next_rowid_fresh {A : Type} (rowid : A -> Z) (rows : list A) (seq : Z) (r : A) :
  In r rows -> rowid r < next_rowid rowid rows seq.
Proof. intros Hin. pose proof (max_rowid_bound rowid rows r Hin). unfold next_rowid. lia. Qed.

Lemma insert_or_ignore_categories (d : Database) (ni : string * string) :
  categories (insert_or_ignore_category d ni) =
  if has_name d ni.1 then categories d
  else (categories d ++
        [mk_category (next_rowid c_id (categories d) (categories_seq d)) ni.1 ni.2])%list.
Proof. reflexivity. Qed.

Lemma has_name_categories (d d' : Database) (n : string) :
  categories d' = categories d -> has_name d' n = has_name d n.
Proof. intros H. unfold has_name. now rewrite H. Qed.

Lemma insert_or_ignore_present (d : Database) (ni : string * string) :
  has_name (insert_or_ignore_category d ni) ni.1 = true.
Proof.
  unfold has_name at 1. rewrite insert_or_ignore_categories.
  destruct (has_name d ni.1) eqn:H; [exact H |].
  rewrite existsb_app. simpl. rewrite String.eqb_refl. now rewrite orb_true_r.
Qed.

Lemma insert_or_ignore_keeps (d : Database) (ni : string * string) (n : string) :
  has_name d n = true -> has_name (insert_or_ignore_category d ni) n = true.
Proof.
  intros Hn. unfold has_name at 1. rewrite insert_or_ignore_categories.
  destruct (has_name d ni.1); [exact Hn |].
  unfold has_name in Hn. rewrite existsb_app, Hn. reflexivity.
Qed.

(** A taken name adds no row. *)
Lemma insert_or_ignore_known (d : Database) (ni : string * string) :
  has_name d ni.1 = true -> categories (insert_or_ignore_category d ni) = categories d.
Proof. intros H. now rewrite insert_or_ignore_categories, H. Qed.

Lemma seed_keeps (l : list (string * string)) (d : Database) (n : string) :
  has_name d n = true -> has_name (fold_left insert_or_ignore_category l d) n = true.
Proof.
  revert d. induction l as [| ni l IH]; intros d Hn; simpl; [exact Hn |].
  apply IH. now apply insert_or_ignore_keeps.
Qed.

Lemma seed_present (l : list (string * string)) (d : Database) (ni : string * string) :
  In ni l -> has_name (fold_left insert_or_ignore_category l d) ni.1 = true.
Proof.
  revert d. induction l as [| ni' l IH]; intros d; simpl; [tauto |].
  intros [-> | Hin]; [| now apply IH].
  apply seed_keeps, insert_or_ignore_present.
Qed.

Lemma seed_known (l : list (string * string)) (d : Database) :
  (forall ni, In ni l -> has_name d ni.1 = true) ->
  categories (fold_left insert_or_ignore_category l d) = categories d.
Proof.
  revert d. induction l as [| ni l IH]; intros d H; simpl; [reflexivity |].
  assert (Hc : categories (insert_or_ignore_category d ni) = categories d)
    by (apply insert_or_ignore_known, H; now left).
  rewrite IH; [exact Hc |].
  intros ni' Hin. rewrite (has_name_categories _ _ _ Hc). apply H. now right.
Qed.

Lemma insert_or_ignore_rest (d : Database) (ni : string * string) :
  users (insert_or_ignore_category d ni) = users d /\
  expenses (insert_or_ignore_category d ni) = expenses d /\
  expenses_seq (insert_or_ignore_category d ni) = expenses_seq d /\
  exists new, categories (insert_or_ignore_category d ni) = (categories d ++ new)%list.
Proof.
  rewrite insert_or_ignore_categories. do 3 (split; [reflexivity |]).
  destruct (has_name d ni.1).
  - exists []. now rewrite app_nil_r.
  - eexists. reflexivity.
Qed.

Lemma seed_rest (l : list (string * string)) (d : Database) :
  users (fold_left insert_or_ignore_category l d) = users d /\
  expenses (fold_left insert_or_ignore_category l d) = expenses d /\
  expenses_seq (fold_left insert_or_ignore_category l d) = expenses_seq d /\
  exists new, categories (fold_left insert_or_ignore_category l d) = (categories d ++ new)%list.
Proof.
  revert d. induction l as [| ni l IH]; intros d; simpl.
  - repeat split. exists []. now rewrite app_nil_r.
  - destruct (IH (insert_or_ignore_category d ni)) as (Hu & He & Hs & new & Hc).
    destruct (insert_or_ignore_rest d ni) as (Hu' & He' & Hs' & new' & Hc').
    rewrite Hu, He, Hs, Hc, Hu', He', Hs', Hc'. repeat split.
    exists (new' ++ new)%list. now rewrite app_assoc.
Qed.

Lemma max_rowid_app {A : Type} (rowid : A -> Z) (l l' : list A) :
  max_rowid rowid (l ++ l') = Z.max (max_rowid rowid l) (max_rowid rowid l').
Proof.
  induction l as [| r l IH]; simpl.
  - pose proof (max_rowid_nonneg rowid l'). lia.
  - rewrite IH. lia.
Qed.

(** Every [INSERT OR IGNORE] moves the counter: to one above the highest id
    in use, and from then on by one. *)
Lemma insert_or_ignore_seq (d : Database) (ni : string * string) :
  categories_seq (insert_or_ignore_category d ni) =
    Z.max (categories_seq d) (max_rowid c_id (categories d)) + 1 /\
  max_rowid c_id (categories (insert_or_ignore_category d ni)) <=
    categories_seq (insert_or_ignore_category d ni).
Proof.
  split; [reflexivity |].
  rewrite insert_or_ignore_categories.
  change (categories_seq (insert_or_ignore_category d ni))
    with (next_rowid c_id (categories d) (categories_seq d)).
  unfold next_rowid. destruct (has_name d ni.1); [lia |].
  rewrite max_rowid_app. unfold max_rowid at 2. cbn [fold_right c_id].
  pose proof (max_rowid_nonneg c_id (categories d)). lia.
Qed.

Lemma seed_seq (l : list (string * string)) (d : Database) :
  max_rowid c_id (categories d) <= categories_seq d ->
  categories_seq (fold_left insert_or_ignore_category l d) =
    categories_seq d + Z.of_nat (length l).
Proof.
  revert d. induction l as [| ni l IH]; intros d Hd; simpl length; simpl fold_left; [lia |].
  destruct (insert_or_ignore_seq d ni) as [Hs Hm].
  rewrite IH by exact Hm. rewrite Hs. lia.
Qed.

(** X1.  Creating the tables again adds no row: after [_create_tables] a
    second run leaves the categories as they are, and on any database it
    keeps the users, the expenses and the categories that were there, adding
    the missing default categories after the existing ones.  What a run does
    change, each time, is the AUTOINCREMENT counter of [categories]: each of
    the seven [INSERT OR IGNORE] statements uses up an id, stored or not. *)
Theorem create_tables_reseeds_nothing (d : Database) :
  categories (_create_tables (_create_tables d)) = categories (_create_tables d) /\
  users (_create_tables d) = users d /\
  expenses (_create_tables d) = expenses d /\
  expenses_seq (_create_tables d) = expenses_seq d /\
  (exists new, categories (_create_tables d) = (categories d ++ new)%list) /\
  categories_seq (_create_tables d) =
    Z.max (categories_seq d) (max_rowid c_id (categories d)) + 7.
Proof.
  destruct (seed_rest default_categories d) as (Hu & He & Hs & Hnew).
  split; [| repeat (split; [assumption |])].
  - unfold _create_tables at 1. apply seed_known.
    intros ni Hin. now apply seed_present.
  - unfold _create_tables, default_categories.
    match goal with
    | |- categories_seq (fold_left ?f (?x :: ?l) ?d) = _ =>
        change (fold_left f (x :: l) d) with (fold_left f l (f d x));
        destruct (insert_or_ignore_seq d x) as [H1 Hm]
    end.
    rewrite seed_seq by exact Hm. rewrite H1. simpl length. lia.
Qed.

Lemma has_name_In (d : Database) (n : string) :
  has_name d n = true <-> exists c, In c (categories d) /\ c_name c = n.
Proof.
  unfold has_name. rewrite existsb_exists. split; intros (c & Hc & Hn); exists c;
    (split; [exact Hc |]); now apply String.eqb_eq.
Qed.

Lemma get_category_by_name_spec (d : Database) (n : string) :
  match get_category_by_name d n with
  | Some c => In c (categories d) /\ c_name c = n
  | None => forall c, In c (categories d) -> c_name c <> n
  end.
Proof.
  unfold get_category_by_name.
  destruct (filter (fun c => String.eqb (c_name c) n) (categories d)) as [| c l] eqn:Hf; simpl.
  - intros c Hc Hn. apply list_elem_of_In in Hc.
    eapply (filter_nil_not_elem_of _ _ _ Hf); [| exact Hc].
    simpl. apply Is_true_true, String.eqb_eq, Hn.
  - assert (Hel : c ∈ filter (fun c => String.eqb (c_name c) n) (categories d))
      by (rewrite Hf; left).
    apply list_elem_of_filter in Hel as [Hn Hc].
    split; [now apply list_elem_of_In | now apply String.eqb_eq, Is_true_true].
Qed.

(** X2.  [get_category_by_name] answers with a category of that name when
    the table has one and with nothing otherwise; once the tables are
    created, each of the seven default names is found. *)
Theorem get_category_by_name_finds (d : Database) (n : string) :
  (forall c, get_category_by_name d n = Some c -> In c (categories d) /\ c_name c = n) /\
  (get_category_by_name d n = None <-> forall c, In c (categories d) -> c_name c <> n) /\
  (forall icon, In (n, icon) default_categories ->
     exists c, get_category_by_name (_create_tables d) n = Some c /\ c_name c = n).
Proof.
  split; [| split].
  - intros c Hc. pose proof (get_category_by_name_spec d n) as H. now rewrite Hc in H.
  - pose proof (get_category_by_name_spec d n) as H.
    destruct (get_category_by_name d n) as [c |]; split; try done.
    + intros Hall. destruct H as [Hc Hn]. now destruct (Hall c Hc).
  - intros icon Hin.
    pose proof (seed_present default_categories d (n, icon) Hin) as Hp.
    fold (_create_tables d) in Hp. cbn [fst] in Hp. apply has_name_In in Hp as (c0 & Hc0 & Hn0).
    pose proof (get_category_by_name_spec (_create_tables d) n) as H.
    destruct (get_category_by_name (_create_tables d) n) as [c |].
    + exists c. split; [reflexivity | apply H].
    + now destruct (H c0 Hc0).
Qed.

Lemma insert_or_ignore_NoDup (d : Database) (ni : string * string) :
  NoDup (map c_id (categories d)) -> NoDup (map c_name (categories d)) ->
  NoDup (map c_id (categories (insert_or_ignore_category d ni))) /\
  NoDup (map c_name (categories (insert_or_ignore_category d ni))).
Proof.
  intros Hid Hname. rewrite insert_or_ignore_categories.
  destruct (has_name d ni.1) eqn:Hn; [now split |].
  rewrite !map_app. cbn [map c_id c_name].
  split; apply NoDup_app; (split; [assumption |]); (split; [| apply NoDup_singleton]).
  - intros i Hi Hi'. apply list_elem_of_singleton in Hi'. subst i.
    apply list_elem_of_In, in_map_iff in Hi as (c & Hc & Hin).
    pose proof (next_rowid_fresh c_id (categories d) (categories_seq d) c Hin). lia.
  - intros n Hin Hin'. apply list_elem_of_singleton in Hin'. subst n.
    apply list_elem_of_In, in_map_iff in Hin as (c & Hc & Hin).
    assert (has_name d ni.1 = true) by (apply has_name_In; eauto). congruence.
Qed.

(** X3.  Seeding keeps the keys of the categories table: when ids and
    names are unique before [_create_tables], they are unique after it. *)
Theorem create_tables_keys (d : Database) :
  NoDup (map c_id (categories d)) -> NoDup (map c_name (categories d)) ->
  NoDup (map c_id (categories (_create_tables d))) /\
  NoDup (map c_name (categories (_create_tables d))).
Proof.
  unfold _create_tables. generalize default_categories. intros l. revert d.
  induction l as [| ni l IH]; intros d Hid Hname; simpl; [now split |].
  destruct (insert_or_ignore_NoDup d ni Hid Hname) as [Hid' Hname']. now apply IH.
Qed.

End Seeding.

(** ** Lookups and upserts *)

Section Lookups.

Import Db.

Lemma get_category_In (d : Database) (i : Z) (c : category) :
  get_category d (Some i) = Some c -> In c (categories d) /\ c_id c = i.
Proof.
  unfold get_category. intros H.
  destruct (filter (fun c => c_id c =? i) (categories d)) as [| c' l] eqn:Hf; [discriminate |].
  simpl in H. inversion H; subst c'.
  assert (Hel : c ∈ filter (fun c => c_id c =? i) (categories d)) by (rewrite Hf; left).
  apply list_elem_of_filter in Hel as [Hi Hc].
  split; [now apply list_elem_of_In | now apply Z.eqb_eq, Is_true_true].
Qed.

Lemma get_category_unique (cs : list category) (c : category) :
  NoDup (map c_id cs) -> In c cs ->
  filter (fun c' => c_id c' =? c_id c) cs = [c].
Proof.
  induction cs as [| c' cs IH]; simpl; [tauto |].
  intros Hnd Hin. apply NoDup_cons in Hnd as [Hc' Hnd]. rewrite filter_cons.
  destruct Hin as [-> | Hin].
  - rewrite decide_True by (apply Is_true_true, Z.eqb_refl). f_equal.
    apply filter_bool_none. intros c2 Hc2. apply Z.eqb_neq. intros Heq.
    apply Hc'. rewrite <- Heq. apply list_elem_of_In, in_map, Hc2.
  - rewrite decide_False; [now apply IH |].
    intros Heq%Is_true_true%Z.eqb_eq. apply Hc'. rewrite Heq.
    apply list_elem_of_In, in_map, Hin.
Qed.

(** X4.  [get_category] is the inverse of the id column: with unique ids
    it returns exactly the category that carries the id, and it returns
    nothing for an id no category has and for a NULL id. *)
Theorem get_category_by_id (d : Database) :
  NoDup (map c_id (categories d)) ->
  (forall c, In c (categories d) -> get_category d (Some (c_id c)) = Some c) /\
  (forall i c, get_category d (Some i) = Some c -> In c (categories d) /\ c_id c = i) /\
  (forall i, (forall c, In c (categories d) -> c_id c <> i) -> get_category d (Some i) = None) /\
  get_category d None = None.
Proof.
  intros Hnd. split; [| split; [| split]].
  - intros c Hc. unfold get_category. now rewrite (get_category_unique _ _ Hnd Hc).
  - intros i c. apply get_category_In.
  - intros i Hnone. destruct (get_category d (Some i)) as [c |] eqn:H; [| reflexivity].
    apply get_category_In in H as [Hc Hi]. now destruct (Hnone c Hc).
  - reflexivity.
Qed.

Lemma coalesce_idem {A : Type} (new old : option A) :
  coalesce new (coalesce new old) = coalesce new old.
Proof. now destruct new. Qed.

(** X5.  [add_user] is an upsert that never blanks a name: a new user is
    stored with the names given; for a known user each name given replaces
    the stored one and each name left out keeps it.  Other users and the
    other tables are untouched, repeating the call changes nothing more,
    and a refused write changes nothing at all. *)
Theorem add_user_upsert (d : Database) (u : Z) (un fn ln : option string) :
  let d' := (add_user true d u un fn ln).2 in
  (add_user true d u un fn ln).1 = Ok tt /\
  (get_user d u = None -> get_user d' u = Some (mk_user un fn ln)) /\
  (forall old, get_user d u = Some old ->
     get_user d' u = Some (mk_user (coalesce un (username old)) (coalesce fn (first_name old))
                                   (coalesce ln (last_name old))) /\
     (un = None -> username <$> get_user d' u = Some (username old)) /\
     (fn = None -> first_name <$> get_user d' u = Some (first_name old)) /\
     (ln = None -> last_name <$> get_user d' u = Some (last_name old))) /\
  (forall u', u' <> u -> get_user d' u' = get_user d u') /\
  categories d' = categories d /\ expenses d' = expenses d /\
  (add_user true d' u un fn ln).2 = d' /\
  add_user false d u un fn ln = (Raise OperationalError, d).
Proof.
  intros d'. unfold add_user, get_user in *. cbn [negb fst snd] in *. subst d'.
  cbn [users categories expenses categories_seq expenses_seq].
  split; [reflexivity |]. split; [| split; [| split; [| split; [| split; [| split]]]]];
    try reflexivity.
  - intros Hnone. now rewrite Hnone, lookup_insert_eq.
  - intros old Hold. rewrite Hold, lookup_insert_eq. cbn.
    repeat split; now intros ->.
  - intros u' Hne. now rewrite lookup_insert_ne.
  - rewrite lookup_insert_eq, insert_insert_eq.
    destruct (users d !! u) as [old |]; cbn [username first_name last_name];
      rewrite ?coalesce_idem; [reflexivity |].
    now destruct un, fn, ln.
Qed.

End Lookups.

(** ** Listing the categories *)

Section Categories.

Import Db.

Lemma name_leb_total (a b : category) : name_leb a b = false -> name_leb b a = true.
Proof.
  unfold name_leb. intros H.
  destruct (String.leb_total (c_name a) (c_name b)) as [H' | H']; congruence.
Qed.

(** X6.  [get_categories] returns every category of the table, each once,
    in the order of their names; on a table that is already in that order
    it returns the table as it is. *)
Theorem get_categories_by_name (d : Database) :
  Permutation (get_categories d) (categories d) /\
  Sorted (fun a b => String.leb (c_name a) (c_name b) = true) (get_categories d) /\
  (Sorted (fun a b => String.leb (c_name a) (c_name b) = true) (categories d) ->
   get_categories d = categories d).
Proof.
  unfold get_categories. split; [apply order_by_perm |]. split.
  - apply (order_by_Sorted name_leb name_leb_total).
  - intros Hs. now apply order_by_sorted_id.
Qed.

(** The id of a new row is above the id of every row of the table and
    above the counter, which it becomes. *)
Lemma add_expense_ids (write_ok : bool) (now : Z) (d d' : Database) (u : Z)
    (a : option pyfloat) (k : option Z) (descr : option string) (date : option Z) (i : Z) :
  add_expense write_ok now d u a k descr date = (Ok i, d') ->
  (forall x, In x (expenses d) -> e_id x < i) /\
  expenses_seq d < i /\
  expenses_seq d' = i /\
  (StronglySorted Z.lt (map e_id (expenses d)) -> StronglySorted Z.lt (map e_id (expenses d'))).
Proof.
  unfold add_expense. destruct write_ok; cbn [negb]; [| discriminate].
  destruct (a ≫= sql_of_float) as [x |]; [| discriminate].
  destruct k as [c |]; [| discriminate].
  intros H. inversion H; subst; clear H. cbn [expenses expenses_seq].
  assert (Hfresh : forall y, In y (expenses d) ->
                     e_id y < next_rowid e_id (expenses d) (expenses_seq d))
    by (intros y; apply next_rowid_fresh).
  split; [exact Hfresh |]. split; [unfold next_rowid; lia |]. split; [reflexivity |].
  intros Hs. rewrite map_app. apply StronglySorted_app_2.
  - intros i1 i2 H1 H2. apply list_elem_of_singleton in H2. subst i2.
    apply list_elem_of_In, in_map_iff in H1 as (y & <- & Hy). now apply Hfresh.
  - exact Hs.
  - repeat constructor.
Qed.

End Categories.

(** ** What one update can change *)

Section Frame.

Import Db Bot.

Variable py_float : string -> option pyfloat.
Variable py_int : string -> option Z.
Variable scan : list expense -> list expense.

Abbreviation dispatch := (Bot.dispatch py_float py_int scan).
Abbreviation handle := (Bot.handle py_float py_int scan).

#[local] Arguments record_of : simpl never.

Ltac run_all :=
  repeat progress
    (unfold mbind, M_bind, mret, M_ret, raise, update_data, clear, get_state, get_data,
       set_data, set_state, answer, db_read, db_write);
  cbv beta iota; cbn [db storage sent data state fst snd].

Lemma handle_storage (w : world) (e : env) (m : from_user) (upd : update) :
  storage (handle w e m upd) = storage w \/
  exists r, storage (handle w e m upd) = <[key m := r]> (storage w).
Proof.
  unfold Bot.handle. destruct upd as [| | | | | text | | cb].
  - left. unfold Bot.dispatch, cmd_start, add_user. run_all. unfold get_user.
    destruct (users (db w) !! user_id m); [reflexivity |].
    destruct (write_ok e); reflexivity.
  - left. reflexivity.
  - right. rewrite (dispatch_add py_float py_int scan). eexists. reflexivity.
  - left. unfold Bot.dispatch, cmd_recent_expenses. run_all.
    destruct (get_user_expenses scan (db w) (user_id m) 5); reflexivity.
  - left. unfold Bot.dispatch, cmd_show_statistics. run_all.
    destruct (category_spending _); [reflexivity |]. destruct (forallb _ _); reflexivity.
  - rewrite (dispatch_text py_float py_int scan).
    destruct (state (record_of w (key m))) as [[] |]; try (left; reflexivity).
    + unfold process_amount_input. destruct (py_float text) as [a |]; [| left; reflexivity].
      destruct (float_le0 a); [left; reflexivity |]. right. run_all.
      rewrite insert_insert_eq. eexists. reflexivity.
    + right. destruct (process_description_input_world w m (Some text)) as [o Ho]. rewrite Ho.
      destruct (get_category _ _); eexists; reflexivity.
  - rewrite (dispatch_no_text py_float py_int scan).
    destruct (state (record_of w (key m))) as [[] |]; try (left; reflexivity).
    right. destruct (process_description_input_world w m None) as [o Ho]. rewrite Ho.
    destruct (get_category _ _); eexists; reflexivity.
  - unfold Bot.dispatch. destruct (String.prefix "select_category:" cb).
    { unfold process_category_selection.
      destruct (split ":"%char cb !! 1%nat) as [s |]; [| left; reflexivity].
      destruct (py_int s) as [cid |]; [| left; reflexivity].
      right. run_all. rewrite insert_insert_eq. eexists. reflexivity. }
    destruct (String.eqb cb "cancel_add_expense"); [left; reflexivity |].
    destruct (String.eqb cb "confirm_expense").
    { destruct (add_expense (write_ok e) (now e) (db w) (user_id m)
                  (amount (data (record_of w (key m))))
                  (selected_category_id (data (record_of w (key m))))
                  (mjoin (description (data (record_of w (key m))))) None)
        as [[i | ex] d'] eqn:Hadd.
      - destruct (confirm_expense_handler_ok w e m i d' Hadd) as (a & _ & ->).
        right. eexists. reflexivity.
      - rewrite (confirm_expense_handler_raise w e m ex d' Hadd). now left. }
    destruct (String.eqb cb "cancel_confirm_expense"); [| now left].
    right. unfold cancel_confirm_expense_handler. run_all.
    rewrite insert_insert_eq. eexists. reflexivity.
Qed.

(** X8.  An update touches the conversation of its sender in its chat
    only: the step and the pending fields of every other conversation, of
    another user or of the same user in another chat, are what they were. *)
Theorem handle_other_users (w : world) (e : env) (m : from_user) (upd : update) (u : Z * Z) :
  u <> key m -> record_of (handle w e m upd) u = record_of w u.
Proof.
  intros Hne. destruct (handle_storage w e m upd) as [H | [r H]];
    unfold record_of; rewrite H; [reflexivity |].
  now rewrite lookup_insert_ne by congruence.
Qed.

Lemma handle_db (w : world) (e : env) (m : from_user) (upd : update) :
  let old := data (record_of w (key m)) in
  db (handle w e m upd) = db w \/
  (upd = CommandStart /\ get_user (db w) (user_id m) = None /\
   add_user (write_ok e) (db w) (user_id m) (Bot.username m) (Bot.first_name m)
            (Bot.last_name m) = (Ok tt, db (handle w e m upd))) \/
  (upd = Callback "confirm_expense" /\
   exists i, add_expense (write_ok e) (now e) (db w) (user_id m) (amount old)
               (selected_category_id old) (mjoin (description old)) None
             = (Ok i, db (handle w e m upd))).
Proof.
  intros old. unfold Bot.handle. destruct upd as [| | | | | text | | cb].
  - unfold Bot.dispatch, cmd_start. run_all. unfold get_user.
    destruct (users (db w) !! user_id m) eqn:Hu; [now left |].
    unfold add_user. destruct (write_ok e); cbn [negb fst snd db]; [| now left].
    right. left. auto.
  - now left.
  - left. now rewrite (dispatch_add py_float py_int scan).
  - left. unfold Bot.dispatch, cmd_recent_expenses. run_all.
    destruct (get_user_expenses scan (db w) (user_id m) 5); reflexivity.
  - left. unfold Bot.dispatch, cmd_show_statistics. run_all.
    destruct (category_spending _); [reflexivity |]. destruct (forallb _ _); reflexivity.
  - left. rewrite (dispatch_text py_float py_int scan).
    destruct (state (record_of w (key m))) as [[] |]; try reflexivity.
    + unfold process_amount_input. destruct (py_float text) as [a |]; [| reflexivity].
      destruct (float_le0 a); reflexivity.
    + destruct (process_description_input_world w m (Some text)) as [o Ho]. rewrite Ho.
      destruct (get_category _ _); reflexivity.
  - left. rewrite (dispatch_no_text py_float py_int scan).
    destruct (state (record_of w (key m))) as [[] |]; try reflexivity.
    destruct (process_description_input_world w m None) as [o Ho]. rewrite Ho.
    destruct (get_category _ _); reflexivity.
  - unfold Bot.dispatch. destruct (String.prefix "select_category:" cb).
    { left. unfold process_category_selection.
      destruct (split ":"%char cb !! 1%nat) as [s |]; [| reflexivity].
      destruct (py_int s) as [cid |]; reflexivity. }
    destruct (String.eqb cb "cancel_add_expense"); [now left |].
    destruct (String.eqb_spec cb "confirm_expense") as [-> | _].
    { destruct (add_expense (write_ok e) (now e) (db w) (user_id m) (amount old)
                  (selected_category_id old) (mjoin (description old)) None)
        as [[i | ex] d'] eqn:Hadd.
      - destruct (confirm_expense_handler_ok w e m i d' Hadd) as (a & _ & ->).
        right. right. split; [reflexivity |]. exists i. reflexivity.
      - rewrite (confirm_expense_handler_raise w e m ex d' Hadd). now left. }
    left. destruct (String.eqb cb "cancel_confirm_expense"); reflexivity.
Qed.

(** X9.  The ledger is append-only and only a Confirm press writes to it:
    an update leaves the rows of [expenses] as they are, or it is a Confirm
    press and adds one row, for the sender, dated by the clock; no update
    changes the categories. *)
Theorem handle_expenses (w : world) (e : env) (m : from_user) (upd : update) :
  categories (db (handle w e m upd)) = categories (db w) /\
  (expenses (db (handle w e m upd)) = expenses (db w) \/
   upd = Callback "confirm_expense" /\
   exists x, expenses (db (handle w e m upd)) = (expenses (db w) ++ [x])%list /\
             e_user_id x = user_id m /\ e_date x = now e /\
             Some (e_amount x) = amount (data (record_of w (key m))) /\
             Some (e_category_id x) = selected_category_id (data (record_of w (key m)))).
Proof.
  destruct (handle_db w e m upd) as [H | [(_ & _ & H) | (Hupd & i & H)]].
  - rewrite H. split; [reflexivity | now left].
  - unfold add_user in H. destruct (write_ok e); cbn [negb] in H; [| discriminate].
    inversion H as [H']. cbn [categories expenses]. split; [reflexivity | now left].
  - apply add_expense_ok in H as (x & k & Hx & _ & Hk & _ & He & Hc & _).
    rewrite Hc. split; [reflexivity |]. right. split; [exact Hupd |].
    eexists. split; [exact He |]. cbn. auto.
Qed.

(** X10.  Confirm is not tied to the confirmation step: whatever the step
    of the sender, when an amount that is not NaN and a category id are
    pending and the write is accepted, a Confirm press commits exactly one
    row built from the pending fields, the sender and the clock, under a
    fresh id, reports it and clears the conversation. *)
Theorem confirm_expense_commits (w : world) (e : env) (m : from_user) (a : pyfloat) (k : Z) :
  write_ok e = true ->
  amount (data (record_of w (key m))) = Some a ->
  float_is_nan a = false ->
  selected_category_id (data (record_of w (key m))) = Some k ->
  let descr := mjoin (description (data (record_of w (key m)))) in
  let i := next_rowid e_id (expenses (db w)) (expenses_seq (db w)) in
  let w' := handle w e m (Callback "confirm_expense") in
  (dispatch e m (Callback "confirm_expense") w).1 = Ok tt /\
  expenses (db w') = (expenses (db w) ++ [mk_expense i (user_id m) a k descr (now e)])%list /\
  record_of w' (key m) = empty_record /\
  sent w' = (sent w ++ [(chat_id m, ExpenseSaved a (str_or descr None))])%list.
Proof.
  intros Hw Ha Hnan Hk descr i w'.
  assert (Hadd : add_expense (write_ok e) (now e) (db w) (user_id m)
                   (amount (data (record_of w (key m))))
                   (selected_category_id (data (record_of w (key m)))) descr None
                 = (Ok i, mk_db (users (db w)) (categories (db w)) (categories_seq (db w))
                            (expenses (db w) ++ [mk_expense i (user_id m) a k descr (now e)])
                            i)).
  { rewrite Hw, Ha, Hk. unfold add_expense. cbn [negb mbind option_bind].
    unfold sql_of_float. rewrite Hnan. reflexivity. }
  destruct (confirm_expense_handler_ok w e m _ _ Hadd) as (a' & Ha' & H).
  assert (a' = a) by congruence. subst a'.
  subst w'. unfold Bot.handle. rewrite (dispatch_confirm py_float py_int scan), H.
  cbn [fst snd db sent expenses]. repeat split.
  now rewrite record_of_insert, decide_True.
Qed.

(** X11.  A second Confirm press after a successful one commits nothing:
    the first cleared the conversation, so the second is refused by the
    [INSERT] and leaves the world as it is. *)
Theorem confirm_expense_twice (w : world) (e e2 : env) (m : from_user) :
  (dispatch e m (Callback "confirm_expense") w).1 = Ok tt ->
  let w1 := handle w e m (Callback "confirm_expense") in
  exists ex, write_error ex /\
             dispatch e2 m (Callback "confirm_expense") w1 = (Raise ex, w1).
Proof.
  intros Hok w1.
  assert (Hrec : record_of w1 (key m) = empty_record).
  { subst w1. unfold Bot.handle. rewrite (dispatch_confirm py_float py_int scan) in *.
    destruct (add_expense (write_ok e) (now e) (db w) (user_id m)
                (amount (data (record_of w (key m))))
                (selected_category_id (data (record_of w (key m))))
                (mjoin (description (data (record_of w (key m))))) None)
      as [[i | ex] d'] eqn:Hadd.
    - destruct (confirm_expense_handler_ok w e m i d' Hadd) as (a & _ & ->). cbn [snd].
      now rewrite record_of_insert, decide_True.
    - rewrite (confirm_expense_handler_raise w e m ex d' Hadd) in Hok. discriminate. }
  exists (if write_ok e2 then IntegrityError else OperationalError). split.
  - destruct (write_ok e2); [now left | now right].
  - rewrite (dispatch_confirm py_float py_int scan).
    eapply confirm_expense_handler_raise. rewrite Hrec. unfold add_expense.
    cbn [amount data empty_record no_data]. destruct (write_ok e2); reflexivity.
Qed.

(** X12.  The amount step lets NaN through, as [nan <= 0] is false; but a
    pending NaN can never be committed: SQLite binds it as NULL, every
    Confirm press is refused and leaves the conversation where it is. *)
Theorem nan_amount_is_stuck (w : world) (e : env) (m : from_user) :
  (forall text, state (record_of w (key m)) = Some waiting_for_amount ->
     py_float text = Some NaN ->
     state (record_of (handle w e m (Text text)) (key m)) = Some waiting_for_description /\
     amount (data (record_of (handle w e m (Text text)) (key m))) = Some NaN) /\
  (amount (data (record_of w (key m))) = Some NaN ->
   exists ex, write_error ex /\ dispatch e m (Callback "confirm_expense") w = (Raise ex, w)).
Proof.
  split.
  - intros text Hst Hnan. unfold Bot.handle.
    rewrite (dispatch_text py_float py_int scan), Hst.
    rewrite (process_amount_input_ok py_float w m text NaN Hnan eq_refl). cbn [snd].
    rewrite record_of_insert, decide_True by reflexivity. now split.
  - intros Hnan. exists (if write_ok e then IntegrityError else OperationalError). split.
    + destruct (write_ok e); [now left | now right].
    + rewrite (dispatch_confirm py_float py_int scan).
      eapply confirm_expense_handler_raise. rewrite Hnan. unfold add_expense.
      destruct (write_ok e); reflexivity.
Qed.

(** X13.  [/start] registers a sender the users table does not know, with
    the names of the message, and greets a known one without touching the
    table, even when the names have changed; the conversation is left
    alone either way. *)
Theorem cmd_start_registers_once (w : world) (e : env) (m : from_user) :
  let w' := handle w e m CommandStart in
  storage w' = storage w /\
  expenses (db w') = expenses (db w) /\
  (forall row, get_user (db w) (user_id m) = Some row ->
     db w' = db w /\
     exists name, sent w' = (sent w ++ [(chat_id m, WelcomeBack name)])%list) /\
  (get_user (db w) (user_id m) = None -> write_ok e = true ->
     get_user (db w') (user_id m)
       = Some (mk_user (Bot.username m) (Bot.first_name m) (Bot.last_name m)) /\
     (forall u, u <> user_id m -> get_user (db w') u = get_user (db w) u) /\
     sent w' = (sent w ++ [(chat_id m, Welcome)])%list) /\
  (get_user (db w) (user_id m) = None -> write_ok e = false ->
     dispatch e m CommandStart w = (Raise OperationalError, w)).
Proof.
  intros w'. subst w'. unfold Bot.handle, Bot.dispatch, cmd_start. run_all.
  destruct (get_user (db w) (user_id m)) as [row |] eqn:Hu.
  - cbn [snd db storage sent].
    split; [reflexivity |]. split; [reflexivity |].
    split; [| split; intros; discriminate].
    intros row' _. split; [reflexivity |]. eexists. reflexivity.
  - unfold add_user. unfold get_user in Hu. rewrite Hu.
    destruct (write_ok e); cbn [negb fst snd db storage sent users expenses].
    + split; [reflexivity |]. split; [reflexivity |].
      split; [intros; discriminate |]. split; [| intros; discriminate].
      intros _ _. unfold get_user. cbn [users]. split; [apply lookup_insert_eq |].
      split; [| reflexivity]. intros u Hne. now rewrite lookup_insert_ne.
    + split; [reflexivity |]. split; [reflexivity |].
      split; [intros; discriminate |]. split; [intros; discriminate |].
      intros _ _. now rewrite world_eta.
Qed.

Lemma add_expense_value (now : Z) (d : Database) (u : Z) (a : pyfloat) (k : Z)
    (descr : option string) :
  float_is_nan a = false ->
  add_expense true now d u (Some a) (Some k) descr None =
  (Ok (next_rowid e_id (expenses d) (expenses_seq d)),
   mk_db (users d) (categories d) (categories_seq d)
         (expenses d ++ [mk_expense (next_rowid e_id (expenses d) (expenses_seq d))
                                    u a k descr now])
         (next_rowid e_id (expenses d) (expenses_seq d))).
Proof.
  intros Hnan. unfold add_expense. cbn [negb mbind option_bind].
  unfold sql_of_float. now rewrite Hnan.
Qed.

(** X14.  The whole flow, from any world: [/add], a button of an existing
    category, an amount that [float()] reads as a positive number, a
    description ("-" for none) and Confirm commit exactly one row, for the
    sender, with that category, amount and description, dated by the clock
    of the confirmation, and leave no conversation behind. *)
Theorem add_expense_flow (w : world) (e1 e2 e3 e4 e5 : env) (m : from_user)
    (cb s : string) (cid : Z) (c : category) (amount_text : string) (a : pyfloat)
    (description_text : string) :
  String.prefix "select_category:" cb = true ->
  split ":"%char cb !! 1%nat = Some s ->
  py_int s = Some cid ->
  get_category (db w) (Some cid) = Some c ->
  py_float amount_text = Some a ->
  float_gt0 a = true ->
  write_ok e5 = true ->
  let u := key m in
  let w4 := handle (handle (handle (handle w e1 m CommandAdd) e2 m (Callback cb))
                           e3 m (Text amount_text)) e4 m (Text description_text) in
  let w5 := handle w4 e5 m (Callback "confirm_expense") in
  let descr := if decide (description_text = "-") then None else Some description_text in
  record_of w4 u = mk_record (mk_data (Some cid) (Some a) (Some descr))
                             (Some confirming_expense) /\
  expenses (db w4) = expenses (db w) /\
  expenses (db w5) =
    (expenses (db w) ++
     [mk_expense (next_rowid e_id (expenses (db w)) (expenses_seq (db w))) (user_id m) a cid
                 descr (now e5)])%list /\
  record_of w5 u = empty_record.
Proof.
  intros Hp Hs Hi Hc Ha Hgt Hw u.
  assert (Hle : float_le0 a = false) by now apply float_gt0_not_le0.
  assert (Hnan : float_is_nan a = false) by (destruct a; simpl in *; congruence).
  set (w1 := handle w e1 m CommandAdd).
  set (w2 := handle w1 e2 m (Callback cb)).
  set (w3 := handle w2 e3 m (Text amount_text)).
  intros w4 w5 descr.
  assert (Hw1 : w1 = _)
    by (unfold w1, Bot.handle; rewrite (dispatch_add py_float py_int scan); cbn [snd];
        reflexivity).
  assert (Hdb1 : db w1 = db w) by now rewrite Hw1.
  clearbody w1. clear Hw1.
  assert (Hw2 : w2 = _)
    by (unfold w2, Bot.handle; rewrite (dispatch_select py_float py_int scan _ _ _ _ Hp),
          (process_category_selection_world py_int _ m cb s cid Hs Hi); cbn [snd];
        reflexivity).
  assert (Hrec2 : state (record_of w2 u) = Some waiting_for_amount /\
                  selected_category_id (data (record_of w2 u)) = Some cid)
    by (rewrite Hw2, record_of_insert, decide_True by reflexivity; now split).
  assert (Hdb2 : db w2 = db w) by now rewrite Hw2.
  clearbody w2. clear Hw2. destruct Hrec2 as [Hst2 Hcat2].
  assert (Hw3 : w3 = _)
    by (unfold w3, Bot.handle; rewrite (dispatch_text py_float py_int scan); fold u;
        rewrite Hst2; rewrite (process_amount_input_ok py_float _ m amount_text a Ha Hle);
        cbn [snd]; reflexivity).
  assert (Hrec3 : state (record_of w3 u) = Some waiting_for_description /\
                  selected_category_id (data (record_of w3 u)) = Some cid /\
                  amount (data (record_of w3 u)) = Some a).
  { rewrite Hw3, record_of_insert, decide_True by reflexivity.
    cbn [state data selected_category_id amount]. fold u. now rewrite Hcat2. }
  assert (Hdb3 : db w3 = db w) by now rewrite Hw3.
  clearbody w3. clear Hw3. destruct Hrec3 as (Hst3 & Hcat3 & Hamt3).
  assert (Hc3 : get_category (db w3) (selected_category_id (data (record_of w3 (key m))))
                = Some c) by (fold u; now rewrite Hcat3, Hdb3).
  assert (Hw4 : w4 = _)
    by (unfold w4, Bot.handle; rewrite (dispatch_text py_float py_int scan); fold u;
        rewrite Hst3;
        rewrite (process_description_input_found w3 m description_text c a Hc3 Hamt3);
        cbn [snd]; reflexivity).
  assert (Hrec4 : record_of w4 u = mk_record (mk_data (Some cid) (Some a) (Some descr))
                                             (Some confirming_expense)).
  { rewrite Hw4, record_of_insert, decide_True by reflexivity. fold u. rewrite Hcat3.
    subst descr.
    destruct (String.eqb_spec description_text "-"), (decide (description_text = "-"));
      congruence. }
  assert (Hdb4 : db w4 = db w) by now rewrite Hw4.
  clearbody w4. clear Hw4.
  split; [exact Hrec4 |]. split; [now rewrite Hdb4 |].
  pose proof (add_expense_value (now e5) (db w4) (user_id m) a cid (mjoin (Some descr)) Hnan)
    as Hadd.
  assert (Hadd' : add_expense (write_ok e5) (now e5) (db w4) (user_id m)
                    (amount (data (record_of w4 (key m))))
                    (selected_category_id (data (record_of w4 (key m))))
                    (mjoin (description (data (record_of w4 (key m))))) None = _)
    by (fold u; rewrite Hw, Hrec4; exact Hadd).
  destruct (confirm_expense_handler_ok w4 e5 m _ _ Hadd') as (a' & _ & H).
  unfold w5, Bot.handle. rewrite (dispatch_confirm py_float py_int scan), H.
  cbn [snd db expenses]. rewrite Hdb4. split; [reflexivity |].
  now rewrite record_of_insert, decide_True.
Qed.

End Frame.

(** ** Every reachable world *)

Section Reach.

Import Db Bot.

Variable py_float : string -> option pyfloat.
Variable py_int : string -> option Z.
Variable scan : list expense -> list expense.

Abbreviation dispatch := (Bot.dispatch py_float py_int scan).
Abbreviation handle := (Bot.handle py_float py_int scan).
Abbreviation reach := (reachable py_float py_int scan).

#[local] Arguments record_of : simpl never.

Ltac run_all :=
  repeat progress
    (unfold mbind, M_bind, mret, M_ret, raise, update_data, clear, get_state, get_data,
       set_data, set_state, answer, db_read, db_write);
  cbv beta iota; cbn [db storage sent data state fst snd].

Lemma reachable_ind (P : world -> Prop) :
  P initial_world ->
  (forall w e m upd, reach w -> P w -> P (handle w e m upd)) ->
  forall w, reach w -> P w.
Proof.
  intros H0 Hstep. unfold reachable.
  apply (rtc_ind_r (fun w => P w)); [exact H0 |].
  intros w1 w2 Hreach Hs IH. destruct Hs. now apply Hstep.
Qed.

Lemma step_ready_insert (w : world) (d : Database) (o : list (Z * reply)) (u : Z * Z)
    (r : MemoryStorageRecord) :
  (forall u', step_ready (record_of w u')) -> step_ready r ->
  forall u', step_ready (record_of (mk_world d (<[u := r]> (storage w)) o) u').
Proof.
  intros Hall Hr u'. rewrite record_of_insert. destruct (decide (u = u')); [exact Hr |].
  rewrite (record_of_storage w (mk_world d (storage w) o) u' eq_refl). apply Hall.
Qed.

Lemma step_ready_same (w w' : world) :
  (forall u, step_ready (record_of w u)) -> storage w' = storage w ->
  forall u, step_ready (record_of w' u).
Proof. intros Hall Hs u. rewrite (record_of_storage w w' u Hs). apply Hall. Qed.

Lemma step_ready_handle (w : world) (e : env) (m : from_user) (upd : update) :
  (forall u, step_ready (record_of w u)) ->
  forall u, step_ready (record_of (handle w e m upd) u).
Proof.
  intros Hall. pose proof (Hall (key m)) as Hme. unfold step_ready in Hme.
  unfold Bot.handle. destruct upd as [| | | | | text | | cb].
  - apply (step_ready_same w); [exact Hall |].
    unfold Bot.dispatch, cmd_start, add_user. run_all. unfold get_user.
    destruct (users (db w) !! user_id m); [reflexivity |].
    destruct (write_ok e); reflexivity.
  - apply (step_ready_same w); [exact Hall | reflexivity].
  - rewrite (dispatch_add py_float py_int scan). cbn [snd].
    apply step_ready_insert; [exact Hall | exact I].
  - apply (step_ready_same w); [exact Hall |].
    unfold Bot.dispatch, cmd_recent_expenses. run_all.
    destruct (get_user_expenses scan (db w) (user_id m) 5); reflexivity.
  - apply (step_ready_same w); [exact Hall |].
    unfold Bot.dispatch, cmd_show_statistics. run_all.
    destruct (category_spending _); [reflexivity |]. destruct (forallb _ _); reflexivity.
  - rewrite (dispatch_text py_float py_int scan).
    destruct (state (record_of w (key m))) as [[] |] eqn:Hst;
      try (cbn [snd]; exact Hall).
    + unfold process_amount_input.
      destruct (py_float text) as [a |]; [| apply (step_ready_same w); [exact Hall | reflexivity]].
      destruct (float_le0 a); [apply (step_ready_same w); [exact Hall | reflexivity] |].
      run_all. rewrite insert_insert_eq. apply step_ready_insert; [exact Hall |].
      unfold step_ready. cbn [state data selected_category_id amount].
      rewrite !record_of_insert, !decide_True by reflexivity. cbn [data selected_category_id].
      split; [exact Hme | now eexists].
    + destruct (process_description_input_world w m (Some text)) as [o Ho]. rewrite Ho.
      destruct (get_category _ _); apply step_ready_insert; try exact Hall; try exact I.
      unfold step_ready. cbn [state data selected_category_id amount description].
      destruct Hme as [Hc Ha]. split; [exact Hc |]. split; [exact Ha | now eexists].
  - rewrite (dispatch_no_text py_float py_int scan).
    destruct (state (record_of w (key m))) as [[] |] eqn:Hst;
      try (cbn [snd]; exact Hall).
    destruct (process_description_input_world w m None) as [o Ho]. rewrite Ho.
    destruct (get_category _ _); apply step_ready_insert; try exact Hall; try exact I.
    unfold step_ready. cbn [state data selected_category_id amount description].
    destruct Hme as [Hc Ha]. split; [exact Hc |]. split; [exact Ha | now eexists].
  - unfold Bot.dispatch. destruct (String.prefix "select_category:" cb).
    { unfold process_category_selection.
      destruct (split ":"%char cb !! 1%nat) as [s |]; [| exact Hall].
      destruct (py_int s) as [cid |]; [| exact Hall].
      run_all. rewrite insert_insert_eq.
      rewrite !record_of_insert, !decide_True by reflexivity. cbn [data].
      apply step_ready_insert; [exact Hall |].
      unfold step_ready. cbn [state data selected_category_id]. now eexists. }
    destruct (String.eqb cb "cancel_add_expense").
    { apply (step_ready_same w); [exact Hall | reflexivity]. }
    destruct (String.eqb cb "confirm_expense").
    { destruct (add_expense (write_ok e) (now e) (db w) (user_id m)
                  (amount (data (record_of w (key m))))
                  (selected_category_id (data (record_of w (key m))))
                  (mjoin (description (data (record_of w (key m))))) None)
        as [[i | ex] d'] eqn:Hadd.
      - destruct (confirm_expense_handler_ok w e m i d' Hadd) as (a & _ & ->). cbn [snd].
        apply step_ready_insert; [exact Hall | exact I].
      - rewrite (confirm_expense_handler_raise w e m ex d' Hadd). exact Hall. }
    destruct (String.eqb cb "cancel_confirm_expense"); [| exact Hall].
    unfold cancel_confirm_expense_handler. run_all. rewrite insert_insert_eq.
    rewrite !record_of_insert, !decide_True by reflexivity. cbn [state].
    apply step_ready_insert; [exact Hall | exact I].
Qed.

Lemma handle_categories (w : world) (e : env) (m : from_user) (upd : update) :
  categories (db (handle w e m upd)) = categories (db w).
Proof.
  destruct (handle_db py_float py_int scan w e m upd) as [H | [(_ & _ & H) | (_ & i & H)]].
  - now rewrite H.
  - unfold add_user in H. destruct (write_ok e); cbn [negb] in H; [| discriminate].
    now inversion H.
  - now apply add_expense_ok in H as (_ & _ & _ & _ & _ & _ & _ & Hc & _).
Qed.

Lemma handle_ids (w : world) (e : env) (m : from_user) (upd : update) :
  StronglySorted Z.lt (map e_id (expenses (db w))) ->
  StronglySorted Z.lt (map e_id (expenses (db (handle w e m upd)))).
Proof.
  intros Hs.
  destruct (handle_db py_float py_int scan w e m upd) as [H | [(_ & _ & H) | (_ & i & H)]].
  - now rewrite H.
  - unfold add_user in H. destruct (write_ok e); cbn [negb] in H; [| discriminate].
    inversion H as [H']. exact Hs.
  - apply add_expense_ids in H as (_ & _ & _ & H). now apply H.
Qed.

Lemma StronglySorted_lt_NoDup (l : list Z) : StronglySorted Z.lt l -> NoDup l.
Proof.
  induction 1 as [| x l Hs IH Hx]; [constructor |].
  apply NoDup_cons. split; [| exact IH].
  intros Hin. rewrite Forall_forall in Hx. specialize (Hx x Hin). lia.
Qed.

(** X7.  [add_expense] never reuses an id: the id it assigns is above the
    id of every row of the table and above the counter.  In every world
    the bot reaches, the ids therefore increase along the table and no two
    expenses share one. *)
Theorem expense_ids_fresh :
  (forall write_ok now d d' u a k descr date i,
     add_expense write_ok now d u a k descr date = (Ok i, d') ->
     (forall x, In x (expenses d) -> e_id x < i) /\ expenses_seq d < i /\ expenses_seq d' = i) /\
  (forall w, reach w ->
     StronglySorted Z.lt (map e_id (expenses (db w))) /\ NoDup (map e_id (expenses (db w)))).
Proof.
  split.
  - intros write_ok now d d' u a k descr date i H.
    apply add_expense_ids in H as (H1 & H2 & H3 & _). auto.
  - assert (H : forall w, reach w -> StronglySorted Z.lt (map e_id (expenses (db w)))).
    { apply reachable_ind; [constructor |]. intros w e m upd _. apply handle_ids. }
    intros w Hw. split; [now apply H |]. now apply StronglySorted_lt_NoDup, H.
Qed.

(** X15.  In every world the bot reaches, every conversation holds what
    its step needs: a category id while the amount is awaited,
    also an amount while the description is awaited, and all three fields
    at the confirmation.  The categories table is never written: it is the
    seeded one, with unique ids. *)
Theorem reachable_conversations (w : world) :
  reach w ->
  (forall u, step_ready (record_of w u)) /\
  categories (db w) = categories (db initial_world) /\
  NoDup (map c_id (categories (db w))).
Proof.
  intros Hw.
  assert (H1 : forall w, reach w -> forall u, step_ready (record_of w u)).
  { apply (reachable_ind (fun w => forall u, step_ready (record_of w u))).
    - intros u. unfold record_of. cbn [storage initial_world]. now rewrite lookup_empty.
    - intros w0 e m upd _. apply step_ready_handle. }
  assert (H2 : forall w, reach w -> categories (db w) = categories (db initial_world)).
  { apply reachable_ind; [reflexivity |].
    intros w0 e m upd _ IH. now rewrite handle_categories. }
  split; [now apply H1 |]. split; [now apply H2 |]. rewrite (H2 w Hw).
  assert (E : map c_id (categories (db initial_world)) = [1; 2; 3; 4; 5; 6; 7])
    by (vm_compute; reflexivity).
  rewrite E. repeat (apply NoDup_cons_2; [rewrite ?elem_of_cons, elem_of_nil; lia |]).
  apply NoDup_nil_2.
Qed.



(** Splitting at the first separator. *)
Lemma split_app_sep (sep : ascii) (p rest : string) :
  mentions sep p = false ->
  split sep (p ++ String sep rest) = p :: split sep rest.
Proof.
  induction p as [| c p IH]; intros H.
  - change (split sep (String sep rest) = "" :: split sep rest).
    cbn [split]. now rewrite Ascii.eqb_refl.
  - change (split sep (String c (p ++ String sep rest)) = String c p :: split sep rest).
    cbn [mentions] in H. apply orb_false_iff in H as [Hc Hp].
    cbn [split]. rewrite Hc, (IH Hp). reflexivity.
Qed.

Lemma split_no_sep (sep : ascii) (s : string) : mentions sep s = false -> split sep s = [s].
Proof.
  induction s as [| c s IH]; intros H; cbn [split]; [reflexivity |].
  cbn [mentions] in H. apply orb_false_iff in H as [Hc Hs].
  rewrite Hc, (IH Hs). reflexivity.
Qed.

Lemma split_select (rest : string) :
  split ":"%char ("select_category:" ++ rest) = "select_category" :: split ":"%char rest.
Proof.
  change ("select_category:" ++ rest)%string
    with ("select_category" ++ String ":"%char rest)%string.
  now apply split_app_sep.
Qed.




Lemma float_gt0_ge0 (x : pyfloat) : float_gt0 x = true -> float_ge0 x = true.
Proof.
  destruct x as [a | | |]; simpl; try congruence.
  intros Ha. apply negb_true_iff in Ha. now apply Qle_bool_total.
Qed.

Lemma fold_float_add_ge0 (xs : list pyfloat) (x : pyfloat) :
  float_ge0 x = true -> Forall (fun y => float_ge0 y = true) xs ->
  float_ge0 (fold_left float_add xs x) = true.
Proof.
  revert x. induction xs as [| y xs IH]; intros x Hx Hall; simpl; [exact Hx |].
  inversion Hall; subst. apply IH; [now apply float_add_ge0 | assumption].
Qed.

(** Sums of positive amounts are never NULL. *)
Lemma stats_totals (now : Z) (d : Database) (u days : Z) :
  Forall (fun x => float_gt0 (e_amount x) = true) (expenses d) ->
  (forall x, In x (scan (expenses d)) -> In x (expenses d)) ->
  Forall (fun g => is_Some (category_total g))
         (category_spending (get_user_expense_stats scan now d u days)).
Proof.
  intros Hpos Hscan. apply Forall_forall. intros g Hg.
  unfold get_user_expense_stats in Hg. cbn [category_spending] in Hg.
  apply list_elem_of_In in Hg. eapply Permutation_in in Hg; [| apply order_by_perm].
  set (rows := join_categories d _) in Hg.
  assert (Hrows : forall ec, In ec rows -> float_gt0 (e_amount ec.1) = true).
  { intros [x c] Hin. apply join_categories_In in Hin as (Hx & _ & _).
    apply list_elem_of_In, list_elem_of_filter in Hx as [_ Hx].
    apply list_elem_of_In, Hscan in Hx. rewrite Forall_forall in Hpos.
    apply Hpos. now apply list_elem_of_In. }
  pose proof (stat_of_In _ g (group_by_NoDup rows) Hg) as Hstat.
  rewrite stat_of_group_by in Hstat.
  destruct (filter (fun ec => c_id ec.2 =? s_category_id g) rows) as [| ec rest] eqn:Hf;
    [discriminate |].
  assert (Hsub : forall ec', In ec' (ec :: rest) -> In ec' rows).
  { intros ec' Hin. rewrite <- Hf in Hin.
    apply list_elem_of_In, list_elem_of_filter in Hin as [_ Hin]. now apply list_elem_of_In. }
  inversion Hstat as [Hg']. unfold category_total. cbn [s_sum].
  assert (Hsum : float_ge0 (fold_left float_add (map (fun ec => e_amount ec.1) rest)
                                      (e_amount ec.1)) = true).
  { apply fold_float_add_ge0; [apply float_gt0_ge0, Hrows, Hsub; now left |].
    apply Forall_forall. intros y Hy. apply list_elem_of_In, in_map_iff in Hy as (ec' & <- & Hin).
    apply float_gt0_ge0, Hrows, Hsub. now right. }
  unfold sql_of_float.
  destruct (fold_left float_add _ _); simpl in *; try discriminate; eexists; reflexivity.
Qed.


End Reach.

(** ** The category keyboard *)

Section Keyboard.

Import Db Bot.

Variable py_float : string -> option pyfloat.
Variable py_int : string -> option Z.
Variable scan : list expense -> list expense.

Abbreviation dispatch := (Bot.dispatch py_float py_int scan).

Lemma digit_not_colon (x : N) : Ascii.eqb (pretty_N_char x) ":" = false.
Proof. unfold pretty_N_char. repeat case_match; reflexivity. Qed.

Lemma pretty_N_go_no_colon (x : N) (s : string) :
  mentions ":" s = false -> mentions ":" (pretty_N_go x s) = false.
Proof.
  revert s. induction (N.lt_wf_0 x) as [x _ IH]. intros s Hs.
  destruct (N.eq_dec x 0%N) as [-> | Hx].
  - now rewrite pretty_N_go_0.
  - assert (Hpos : (0 < x)%N) by lia.
    rewrite (pretty_N_go_step x s Hpos). apply IH.
    + now apply N.div_lt.
    + cbn [mentions]. now rewrite digit_not_colon.
Qed.

(** The decimal text of an integer has no colon. *)
Lemma pretty_Z_no_colon (z : Z) : mentions ":" (pretty z) = false.
Proof.
  assert (Hpos : forall p : positive, mentions ":" (pretty p) = false).
  { intros p. unfold pretty, pretty_positive, pretty, pretty_N.
    destruct (decide (N.pos p = 0%N)); [reflexivity |]. now apply pretty_N_go_no_colon. }
  destruct z as [| p | p]; unfold pretty, pretty_Z; [reflexivity | apply Hpos |].
  change ("-" +:+ pretty p) with (String "-" (pretty p)). cbn [mentions].
  now rewrite Hpos.
Qed.

Lemma prefix_append (p rest : string) : String.prefix p (p ++ rest) = true.
Proof.
  induction p as [| a p IH]; [now destruct rest |].
  change (String.prefix (String a p) (String a (p ++ rest)) = true). cbn [String.prefix].
  destruct (ascii_dec a a); [exact IH | congruence].
Qed.

Lemma select_token (z : Z) :
  String.prefix "select_category:" ("select_category:" +:+ pretty z) = true /\
  split ":"%char ("select_category:" +:+ pretty z) !! 1%nat = Some (pretty z).
Proof.
  change ("select_category:" +:+ pretty z) with ("select_category:" ++ pretty z)%string.
  split; [apply prefix_append |].
  rewrite split_select, (split_no_sep _ _ (pretty_Z_no_colon z)). reflexivity.
Qed.

(** X17.  The keyboard of [/add] and the selection handler fit together.
    The keyboard has one button per category, in the order given, and the
    Cancel button last.  The callback data of a category button passes the
    selection filter and its id part is the decimal text of the category's
    id; so, [int()] reading that text back, pressing the button stores
    exactly this id and moves the sender to the amount step. *)
Theorem category_keyboard_round_trip (cs : list category) :
  let kb := Keyboards.get_category_selection_keyboard cs in
  length kb = S (length cs) /\
  kb !! length cs = Some ("❌ Cancel", "cancel_add_expense") /\
  (forall i c, cs !! i = Some c ->
     kb !! i = Some (c_icon c +:+ " " +:+ c_name c, "select_category:" +:+ pretty (c_id c))) /\
  (forall c w e m,
     py_int (pretty (c_id c)) = Some (c_id c) ->
     dispatch e m (Callback ("select_category:" +:+ pretty (c_id c))) w =
     (Ok tt,
      mk_world (db w)
        (<[key m :=
             mk_record (mk_data (Some (c_id c)) (amount (data (record_of w (key m))))
                                (description (data (record_of w (key m)))))
                       (Some waiting_for_amount)]> (storage w))
        (sent w ++ [(chat_id m, CategorySelected)]))).
Proof.
  intros kb. subst kb. unfold Keyboards.get_category_selection_keyboard.
  split; [| split; [| split]].
  - rewrite length_app, length_map. simpl. lia.
  - rewrite lookup_app_r by (rewrite length_map; lia).
    rewrite length_map, Nat.sub_diag. reflexivity.
  - intros i c Hc. rewrite lookup_app_l by (rewrite length_map; eapply lookup_lt_Some, Hc).
    change (map ?f cs) with (f <$> cs). now rewrite list_lookup_fmap, Hc.
  - intros c w e m Hint. destruct (select_token (c_id c)) as [Hp Hs].
    rewrite (dispatch_select py_float py_int scan w e m _ Hp).
    exact (process_category_selection_world py_int w m _ _ _ Hs Hint).
Qed.

End Keyboard.

(** ** Windows *)

Section Windows.

Import Db.

Variable scan : list expense -> list expense.

(** X18.  A window of a negative number of days holds nothing, whatever
    the ledger: the statistics are a zero total and no category.  With zero
    days only the expenses dated at the very second of the call count. *)
Theorem get_user_expense_stats_empty_window (now : Z) (d : Database) (u days : Z) :
  (days < 0 ->
   get_user_expense_stats scan now d u days = mk_stats (Finite 0) [] days) /\
  (days = 0 ->
   window_rows now u days (scan (expenses d)) =
   filter (fun x => (e_user_id x =? u) && (e_date x =? now)) (scan (expenses d))).
Proof.
  split.
  - intros Hneg. unfold get_user_expense_stats.
    rewrite filter_bool_none; [reflexivity |].
    intros x _. apply andb_false_iff. right. unfold between, seconds_per_day.
    apply andb_false_iff.
    destruct (now - days * 86400 <=? e_date x) eqn:H1; [right | now left].
    apply Z.leb_le in H1. apply Z.leb_gt. lia.
  - intros ->. unfold window_rows. apply list_filter_iff. intros x.
    assert (E : between (now - 0 * seconds_per_day) now (e_date x) = (e_date x =? now)).
    { unfold between. rewrite Z.mul_0_l, Z.sub_0_r.
      destruct (Z.eqb_spec (e_date x) now) as [-> | Hne]; [now rewrite Z.leb_refl |].
      apply andb_false_iff.
      destruct (Z.leb_spec now (e_date x)); [right; apply Z.leb_gt; lia | now left]. }
    now rewrite E.
Qed.

End Windows.

(** ** Committed expenses in the listing *)

Section Listing.

Import Db.

Variable scan : list expense -> list expense.

Lemma get_user_expenses_In (d : Database) (u limit : Z) (v : expense_view) :
  (forall x, In x (scan (expenses d)) -> In x (expenses d)) ->
  In v (get_user_expenses scan d u limit) ->
  exists x c, In x (expenses d) /\ e_user_id x = u /\ In c (categories d) /\
              e_category_id x = c_id c /\ v = view_of (x, c).
Proof.
  intros Hscan Hv. unfold get_user_expenses in Hv.
  destruct (sql_limit_prefix limit
              (order_by date_desc
                 (map view_of (join_categories d
                    (filter (fun e => e_user_id e =? u) (rev (scan (expenses d))))))))
    as [rest Hrest].
  assert (Hin : In v (order_by date_desc
                        (map view_of (join_categories d
                           (filter (fun e => e_user_id e =? u) (rev (scan (expenses d))))))))
    by (rewrite Hrest; apply in_or_app; now left).
  eapply Permutation_in in Hin; [| apply order_by_perm].
  apply in_map_iff in Hin as ([x c] & <- & Hin).
  apply join_categories_In in Hin as (Hx & Hc & Hid).
  apply list_elem_of_In, list_elem_of_filter in Hx as [Hu Hx].
  apply Is_true_true, Z.eqb_eq in Hu. apply list_elem_of_In, in_rev, Hscan in Hx.
  exists x, c. auto.
Qed.

Lemma get_category_Some (d : Database) (c : category) :
  In c (categories d) -> is_Some (get_category d (Some (c_id c))).
Proof.
  intros Hc. unfold get_category.
  destruct (filter (fun c' => c_id c' =? c_id c) (categories d)) as [| c' l] eqn:Hf;
    [| now eexists].
  exfalso. apply list_elem_of_In in Hc.
  eapply (filter_nil_not_elem_of _ _ _ Hf); [| exact Hc].
  simpl. apply Is_true_true, Z.eqb_refl.
Qed.

(** X19.  A committed expense is listed exactly when its category exists.
    After a successful [add_expense], the unbounded listing of the user
    holds the new expense with the name and icon of its category; but when
    no category has the id it was filed under, the join drops it and no
    listing ever shows it. *)
Theorem add_expense_listed (now : Z) (d d' : Database) (u : Z) (a : pyfloat) (k : Z)
    (descr : option string) (i : Z) :
  add_expense true now d u (Some a) (Some k) descr None = (Ok i, d') ->
  Permutation (scan (expenses d')) (expenses d') ->
  (forall c, get_category d (Some k) = Some c ->
     In (mk_view i a now descr (c_name c) (c_icon c)) (get_user_expenses scan d' u (-1))) /\
  (get_category d (Some k) = None ->
     forall limit v, In v (get_user_expenses scan d' u limit) -> v_id v <> i).
Proof.
  intros Hadd Hperm.
  pose proof (add_expense_ids _ _ _ _ _ _ _ _ _ _ Hadd) as (Hfresh & _).
  apply add_expense_ok in Hadd as (x & k' & Hx & _ & Hk & _ & Hexp & Hcat & _).
  inversion Hx; subst x. inversion Hk; subst k'. cbn [default] in Hexp.
  split.
  - intros c Hc. apply get_category_In in Hc as [Hc Hid].
    unfold get_user_expenses. rewrite sql_limit_negative by lia.
    eapply Permutation_in; [symmetry; apply order_by_perm |].
    apply in_map_iff. exists (mk_expense i u a k descr now, c). split; [reflexivity |].
    apply join_categories_In. split; [| split].
    + apply list_elem_of_In, list_elem_of_filter. split.
      * apply Is_true_true, Z.eqb_refl.
      * apply list_elem_of_In. rewrite <- in_rev.
        eapply Permutation_in; [symmetry; exact Hperm |].
        rewrite Hexp. apply in_or_app. right. now left.
    + now rewrite Hcat.
    + now rewrite Hid.
  - intros Hnone limit v Hv Hi.
    apply get_user_expenses_In in Hv as (x & c & Hx' & _ & Hc & Hid & ->);
      [| intros y Hy; eapply Permutation_in; [exact Hperm | exact Hy]].
    cbn [view_of v_id fst] in Hi. rewrite Hexp in Hx'.
    apply in_app_or in Hx' as [Hold | [<- | []]].
    + specialize (Hfresh x Hold). lia.
    + cbn [e_category_id] in Hid. rewrite Hcat in Hc.
      destruct (get_category_Some d c Hc) as [c' Hc']. rewrite <- Hid in Hc'. congruence.
Qed.

End Listing.

Section Cancel.

Import Db Bot.

Variable py_float : string -> option pyfloat.
Variable py_int : string -> option Z.
Variable scan : list expense -> list expense.

Abbreviation dispatch := (Bot.dispatch py_float py_int scan).
Abbreviation handle := (Bot.handle py_float py_int scan).

(** X22.  Cancelling at the confirmation discards the pending expense for
    good: nothing is written, the sender's conversation is empty and the
    others are untouched; afterwards a message, with or without text, is
    ignored and a Confirm press is refused by the [INSERT], leaving the
    world as it is. *)
Theorem cancel_confirm_discards (w : world) (e e2 : env) (m : from_user) :
  let w1 := handle w e m (Callback "cancel_confirm_expense") in
  db w1 = db w /\
  record_of w1 (key m) = empty_record /\
  (forall u, u <> key m -> record_of w1 u = record_of w u) /\
  (forall text, dispatch e2 m (Text text) w1 = (Ok tt, w1)) /\
  dispatch e2 m NoText w1 = (Ok tt, w1) /\
  exists ex, write_error ex /\ dispatch e2 m (Callback "confirm_expense") w1 = (Raise ex, w1).
Proof.
  intros w1.
  assert (Hw1 : w1 = mk_world (db w) (<[key m := empty_record]> (storage w))
                              (sent w ++ [(chat_id m, ExpenseCancelled)])).
  { unfold w1, Bot.handle. now rewrite cancel_confirm_expense_clears. }
  assert (Hrec : record_of w1 (key m) = empty_record).
  { rewrite Hw1, record_of_insert. now rewrite decide_True. }
  clearbody w1.
  split; [now rewrite Hw1 |]. split; [exact Hrec |]. split; [| split; [| split]].
  - intros u Hu. rewrite Hw1, record_of_insert. rewrite decide_False by congruence.
    reflexivity.
  - intros text. rewrite (dispatch_text py_float py_int scan), Hrec. reflexivity.
  - rewrite (dispatch_no_text py_float py_int scan), Hrec. reflexivity.
  - exists (if write_ok e2 then IntegrityError else OperationalError). split.
    + destruct (write_ok e2); [now left | now right].
    + rewrite (dispatch_confirm py_float py_int scan).
      eapply confirm_expense_handler_raise. rewrite Hrec. unfold add_expense.
      cbn [amount data empty_record no_data]. destruct (write_ok e2); reflexivity.
Qed.

End Cancel.

Section Reports.

Import Db Bot.

Variable py_float : string -> option pyfloat.
Variable py_int : string -> option Z.
Variable scan : list expense -> list expense.

Abbreviation dispatch := (Bot.dispatch py_float py_int scan).
Abbreviation handle := (Bot.handle py_float py_int scan).
Abbreviation reach := (reachable py_float py_int scan).

(** X20.  [/recent] only reads: it ends normally, changes neither the
    database nor any conversation, and answers the sender with one message.
    The message lists at most five expenses, each one an expense of the
    sender joined with its category, never a row of another user; it is the
    "no expenses yet" text exactly when that listing is empty. *)
Theorem cmd_recent_expenses_reply (w : world) (e : env) (m : from_user) :
  (forall l x, In x (scan l) -> In x l) ->
  let l := get_user_expenses scan (db w) (user_id m) 5 in
  dispatch e m CommandRecent w =
    (Ok tt, mk_world (db w) (storage w)
              (sent w ++ [(chat_id m, match l with
                                      | [] => NoExpensesYet
                                      | _ => RecentExpenses l
                                      end)])) /\
  (length l <= 5)%nat /\
  (forall v, In v l ->
     exists x c, In x (expenses (db w)) /\ e_user_id x = user_id m /\
                 In c (categories (db w)) /\ e_category_id x = c_id c /\ v = view_of (x, c)).
Proof.
  intros Hscan l. split; [| split].
  - unfold Bot.dispatch, cmd_recent_expenses, mbind, M_bind, db_read, answer.
    cbv beta iota. fold l. destruct l; reflexivity.
  - pose proof (sql_limit_length 5 (order_by date_desc
       (map view_of (join_categories (db w)
          (filter (fun x => e_user_id x =? user_id m) (rev (scan (expenses (db w))))))))
       ltac:(lia)) as H.
    unfold l, get_user_expenses. lia.
  - intros v Hv. eapply get_user_expenses_In; [intros x; apply Hscan | exact Hv].
Qed.

(** X21.  [/stats] only reads, and in every world the bot reaches it ends
    normally: every category total of the thirty-day statistics is present,
    so the text can be formatted.  It answers the sender with one message,
    the "no expenses" text when no category has spending in the window and
    otherwise the total with the first five categories. *)
Theorem cmd_show_statistics_reply (w : world) (e : env) (m : from_user) :
  (forall l x, In x (scan l) -> In x l) ->
  reach w ->
  let stats_data := get_user_expense_stats scan (now e) (db w) (user_id m) 30 in
  Forall (fun g => is_Some (category_total g)) (category_spending stats_data) /\
  dispatch e m CommandStats w =
    (Ok tt, mk_world (db w) (storage w)
              (sent w ++ [(chat_id m,
                           match category_spending stats_data with
                           | [] => NoStatistics
                           | _ => Statistics (total_spending stats_data)
                                             (take 5 (category_spending stats_data))
                           end)])).
Proof.
  intros Hscan Hw stats_data.
  destruct (reachable_flow_inv py_float py_int scan w Hw) as [Hpos _].
  pose proof (stats_totals scan (now e) (db w) (user_id m) 30 Hpos (Hscan _)) as Htot.
  fold stats_data in Htot. split; [exact Htot |].
  unfold Bot.dispatch, cmd_show_statistics, mbind, M_bind, db_read, answer, raise.
  cbv beta iota. fold stats_data.
  destruct (category_spending stats_data) as [| g gs] eqn:Hcs; [reflexivity |].
  assert (Htop : forallb (fun g => bool_decide (is_Some (category_total g)))
                         (take 5 (g :: gs)) = true).
  { apply forallb_forall. intros g' Hg'. apply bool_decide_eq_true.
    rewrite Forall_forall in Htot. apply Htot.
    apply list_elem_of_In, elem_of_take in Hg' as (i & Hi & _).
    apply list_elem_of_lookup. eauto. }
  rewrite Htop. reflexivity.
Qed.

End Reports.

(** ** Messages without text *)

Section Messages.

Import Db Bot.

Variable py_float : string -> option pyfloat.
Variable py_int : string -> option Z.
Variable scan : list expense -> list expense.

Abbreviation dispatch := (Bot.dispatch py_float py_int scan).

(** X23.  A message without text (a photo, a sticker) is handled like the
    text ["-"] wherever that text is not read as a number: at the
    description step it stands for no description, and outside the two
    input steps it is ignored.  At the amount step ["-"] is answered as
    [float()] has it, but the message without text ends the handler with a
    [TypeError] and changes nothing. *)
Theorem message_without_text (w : world) (e : env) (m : from_user) :
  (state (record_of w (key m)) <> Some waiting_for_amount ->
   dispatch e m NoText w = dispatch e m (Text "-") w) /\
  (state (record_of w (key m)) = Some waiting_for_description ->
   description (data (record_of (dispatch e m NoText w).2 (key m))) = Some None \/
   record_of (dispatch e m NoText w).2 (key m) = empty_record) /\
  (state (record_of w (key m)) = Some waiting_for_amount ->
   dispatch e m NoText w = (Raise TypeError, w)).
Proof.
  rewrite (dispatch_no_text py_float py_int scan), (dispatch_text py_float py_int scan).
  split; [| split].
  - destruct (state (record_of w (key m))) as [[] |]; try reflexivity. now intros [].
  - intros ->. destruct (process_description_input_world w m None) as [o Ho]. rewrite Ho.
    destruct (get_category _ _).
    + left. unfold record_of. cbn [storage]. now rewrite lookup_insert_eq.
    + right. unfold record_of. cbn [storage]. now rewrite lookup_insert_eq.
  - now intros ->.
Qed.

End Messages.

(** ** More of the code on concrete inputs *)

Section MoreExamples.

Import Db Bot Sample.

Abbreviation sample_dispatch := (Bot.dispatch Sample.py_float Sample.py_int table_order).
Abbreviation sample_handle := (Bot.handle Sample.py_float Sample.py_int table_order).
Abbreviation sample_reachable := (reachable Sample.py_float Sample.py_int table_order).

Lemma seeded_ids : NoDup (map c_id (categories seeded)).
Proof.
  assert (E : map c_id (categories seeded) = [1; 2; 3; 4; 5; 6; 7]) by (vm_compute; reflexivity).
  rewrite E. repeat (apply NoDup_cons_2; [rewrite ?elem_of_cons, elem_of_nil; lia |]).
  apply NoDup_nil_2.
Qed.

Lemma table_order_sub (l : list expense) (x : expense) : In x (table_order l) -> In x l.
Proof. intros H. exact H. Qed.

Lemma get_category_by_name_finds_witness :
  In ("Food", "🍔") default_categories /\
  exists c, get_category_by_name (_create_tables empty_db) "Food" = Some c /\ c_name c = "Food".
Proof.
  assert (H : In ("Food", "🍔") default_categories) by (left; reflexivity).
  split; [exact H |].
  exact (proj2 (proj2 (get_category_by_name_finds empty_db "Food")) "🍔" H).
Defined.

Lemma create_tables_keys_witness :
  NoDup (map c_id (categories two_categories)) /\
  NoDup (map c_name (categories two_categories)) /\
  map c_id (categories (_create_tables two_categories)) = [5; 1; 7; 8; 9; 11; 12] /\
  NoDup (map c_id (categories (_create_tables two_categories))) /\
  NoDup (map c_name (categories (_create_tables two_categories))).
Proof.
  assert (H1 : NoDup (map c_id (categories two_categories))).
  { assert (E : map c_id (categories two_categories) = [5; 1]) by (vm_compute; reflexivity).
    rewrite E. repeat (apply NoDup_cons_2; [rewrite ?elem_of_cons, elem_of_nil; lia |]).
    apply NoDup_nil_2. }
  assert (H2 : NoDup (map c_name (categories two_categories))).
  { assert (E : map c_name (categories two_categories) = ["Bills"; "Food"])
      by (vm_compute; reflexivity).
    rewrite E.
    repeat (apply NoDup_cons_2;
            [rewrite ?elem_of_cons, elem_of_nil; intros H; repeat destruct H as [H | H];
             discriminate || exact H |]).
    apply NoDup_nil_2. }
  split; [exact H1 |]. split; [exact H2 |]. split; [vm_compute; reflexivity |].
  exact (create_tables_keys two_categories H1 H2).
Defined.

Lemma get_category_by_id_witness :
  NoDup (map c_id (categories seeded)) /\
  In food (categories seeded) /\
  get_category seeded (Some (c_id food)) = Some food /\
  get_category seeded None = None.
Proof.
  assert (Hin : In food (categories seeded)) by (left; reflexivity).
  split; [exact seeded_ids |]. split; [exact Hin |]. split.
  - exact (proj1 (get_category_by_id seeded seeded_ids) food Hin).
  - exact (proj2 (proj2 (proj2 (get_category_by_id seeded seeded_ids)))).
Defined.

Lemma add_user_upsert_witness :
  get_user empty_db 7 = None /\
  get_user (add_user true empty_db 7 (Some "ann") (Some "Ann") None).2 7
    = Some (mk_user (Some "ann") (Some "Ann") None) /\
  get_user ann_known 7 = Some (mk_user (Some "ann") (Some "Ann") None) /\
  Db.username <$> get_user (add_user true ann_known 7 None (Some "Anna") None).2 7
    = Some (Db.username (mk_user (Some "ann") (Some "Ann") None)).
Proof.
  assert (H1 : get_user empty_db 7 = None) by reflexivity.
  assert (H2 : get_user ann_known 7 = Some (mk_user (Some "ann") (Some "Ann") None))
    by (vm_compute; reflexivity).
  split; [exact H1 |]. split; [| split; [exact H2 |]].
  - exact (proj1 (proj2 (add_user_upsert empty_db 7 (Some "ann") (Some "Ann") None)) H1).
  - exact (proj1 (proj2 (proj1 (proj2 (proj2
             (add_user_upsert ann_known 7 None (Some "Anna") None))) _ H2)) eq_refl).
Defined.

Lemma get_categories_by_name_witness :
  Sorted (fun a b => String.leb (c_name a) (c_name b) = true) (categories two_categories) /\
  get_categories two_categories = categories two_categories.
Proof.
  assert (H : Sorted (fun a b => String.leb (c_name a) (c_name b) = true)
                     (categories two_categories))
    by (repeat constructor).
  split; [exact H |].
  exact (proj2 (proj2 (get_categories_by_name two_categories)) H).
Defined.

Lemma expense_ids_fresh_witness :
  add_expense true 0 ledger 7 (Some (Finite 1)) (Some 1) None None
    = (Ok 4, (add_expense true 0 ledger 7 (Some (Finite 1)) (Some 1) None None).2) /\
  sample_reachable committed /\
  (forall x, In x (expenses ledger) -> e_id x < 4) /\
  NoDup (map e_id (expenses (db committed))).
Proof.
  assert (H : add_expense true 0 ledger 7 (Some (Finite 1)) (Some 1) None None
              = (Ok 4, (add_expense true 0 ledger 7 (Some (Finite 1)) (Some 1) None None).2))
    by (vm_compute; reflexivity).
  split; [exact H |]. split; [apply after_reachable |]. split.
  - exact (proj1 (proj1 (expense_ids_fresh Sample.py_float Sample.py_int table_order)
                    _ _ _ _ _ _ _ _ _ _ H)).
  - exact (proj2 (proj2 (expense_ids_fresh Sample.py_float Sample.py_int table_order)
                    committed (after_reachable _))).
Defined.

Lemma handle_other_users_witness :
  key bob <> key ann /\
  record_of (sample_handle entering_amount noon ann (Text "12.50")) (key bob)
    = record_of entering_amount (key bob).
Proof.
  assert (H : key bob <> key ann) by discriminate.
  split; [exact H |].
  exact (handle_other_users Sample.py_float Sample.py_int table_order entering_amount noon ann
           (Text "12.50") (key bob) H).
Defined.

Lemma confirm_expense_commits_witness :
  write_ok noon = true /\
  amount (data (record_of restarted (key ann))) = Some (Finite (25 # 2)) /\
  float_is_nan (Finite (25 # 2)) = false /\
  selected_category_id (data (record_of restarted (key ann))) = Some 2 /\
  state (record_of restarted (key ann)) = Some waiting_for_category /\
  expenses (db (sample_handle restarted noon ann (Callback "confirm_expense"))) =
    (expenses (db restarted) ++
     [mk_expense (next_rowid e_id (expenses (db restarted)) (expenses_seq (db restarted)))
                 (user_id ann) (Finite (25 # 2)) 2
                 (mjoin (description (data (record_of restarted (key ann)))))
                 (now noon)])%list /\
  record_of (sample_handle restarted noon ann (Callback "confirm_expense")) (key ann)
    = empty_record.
Proof.
  assert (H1 : write_ok noon = true) by reflexivity.
  assert (H2 : amount (data (record_of restarted (key ann))) = Some (Finite (25 # 2)))
    by (vm_compute; reflexivity).
  assert (H3 : float_is_nan (Finite (25 # 2)) = false) by reflexivity.
  assert (H4 : selected_category_id (data (record_of restarted (key ann))) = Some 2)
    by (vm_compute; reflexivity).
  split; [exact H1 |]. split; [exact H2 |]. split; [exact H3 |]. split; [exact H4 |].
  split; [vm_compute; reflexivity |].
  pose proof (confirm_expense_commits Sample.py_float Sample.py_int table_order restarted noon
                ann (Finite (25 # 2)) 2 H1 H2 H3 H4) as H.
  split; [exact (proj1 (proj2 H)) | exact (proj1 (proj2 (proj2 H)))].
Defined.

Lemma confirm_expense_twice_witness :
  (sample_dispatch noon ann (Callback "confirm_expense") confirming).1 = Ok tt /\
  exists ex, write_error ex /\
    sample_dispatch noon ann (Callback "confirm_expense")
      (sample_handle confirming noon ann (Callback "confirm_expense"))
    = (Raise ex, sample_handle confirming noon ann (Callback "confirm_expense")).
Proof.
  assert (H : (sample_dispatch noon ann (Callback "confirm_expense") confirming).1 = Ok tt)
    by (vm_compute; reflexivity).
  split; [exact H |].
  exact (confirm_expense_twice Sample.py_float Sample.py_int table_order confirming noon noon
           ann H).
Defined.

Lemma nan_amount_is_stuck_witness :
  state (record_of entering_amount (key ann)) = Some waiting_for_amount /\
  Sample.py_float "nan" = Some NaN /\
  amount (data (record_of confirming_nan (key ann))) = Some NaN /\
  (state (record_of (sample_handle entering_amount noon ann (Text "nan")) (key ann))
     = Some waiting_for_description /\
   amount (data (record_of (sample_handle entering_amount noon ann (Text "nan")) (key ann)))
     = Some NaN) /\
  exists ex, write_error ex /\
    sample_dispatch noon ann (Callback "confirm_expense") confirming_nan
    = (Raise ex, confirming_nan).
Proof.
  assert (H1 : state (record_of entering_amount (key ann)) = Some waiting_for_amount)
    by (vm_compute; reflexivity).
  assert (H2 : Sample.py_float "nan" = Some NaN) by reflexivity.
  assert (H3 : amount (data (record_of confirming_nan (key ann))) = Some NaN)
    by (vm_compute; reflexivity).
  split; [exact H1 |]. split; [exact H2 |]. split; [exact H3 |]. split.
  - exact (proj1 (nan_amount_is_stuck Sample.py_float Sample.py_int table_order
                    entering_amount noon ann) "nan" H1 H2).
  - exact (proj2 (nan_amount_is_stuck Sample.py_float Sample.py_int table_order
                    confirming_nan noon ann) H3).
Defined.

Lemma cmd_start_registers_once_witness :
  get_user (db initial_world) (user_id ann) = None /\
  write_ok noon = true /\
  get_user (db greeted) (user_id ann) = Some (mk_user None (Some "Ann") None) /\
  get_user (db (sample_handle initial_world noon ann CommandStart)) (user_id ann)
    = Some (mk_user (Bot.username ann) (Bot.first_name ann) (Bot.last_name ann)) /\
  db (sample_handle greeted noon_read_only ann CommandStart) = db greeted.
Proof.
  assert (H1 : get_user (db initial_world) (user_id ann) = None) by (vm_compute; reflexivity).
  assert (H2 : write_ok noon = true) by reflexivity.
  assert (H3 : get_user (db greeted) (user_id ann) = Some (mk_user None (Some "Ann") None))
    by (vm_compute; reflexivity).
  split; [exact H1 |]. split; [exact H2 |]. split; [exact H3 |]. split.
  - exact (proj1 (proj1 (proj2 (proj2 (proj2
             (cmd_start_registers_once Sample.py_float Sample.py_int table_order
                initial_world noon ann)))) H1 H2)).
  - exact (proj1 (proj1 (proj2 (proj2
             (cmd_start_registers_once Sample.py_float Sample.py_int table_order
                greeted noon_read_only ann))) _ H3)).
Defined.

Lemma add_expense_flow_witness :
  String.prefix "select_category:" "select_category:1" = true /\
  split ":"%char "select_category:1" !! 1%nat = Some "1" /\
  Sample.py_int "1" = Some 1 /\
  get_category (db initial_world) (Some 1) = Some food /\
  Sample.py_float "12.50" = Some (Finite (25 # 2)) /\
  float_gt0 (Finite (25 # 2)) = true /\
  write_ok noon = true /\
  expenses
    (db (sample_handle
           (sample_handle
              (sample_handle
                 (sample_handle (sample_handle initial_world noon ann CommandAdd)
                                noon ann (Callback "select_category:1"))
                 noon ann (Text "12.50"))
              noon ann (Text "-"))
           noon ann (Callback "confirm_expense"))) =
    (expenses (db initial_world) ++
     [mk_expense (next_rowid e_id (expenses (db initial_world))
                             (expenses_seq (db initial_world)))
                 (user_id ann) (Finite (25 # 2)) 1
                 (if decide ("-" = "-") then None else Some "-") (now noon)])%list.
Proof.
  assert (H1 : String.prefix "select_category:" "select_category:1" = true) by reflexivity.
  assert (H2 : split ":"%char "select_category:1" !! 1%nat = Some "1")
    by (vm_compute; reflexivity).
  assert (H3 : Sample.py_int "1" = Some 1) by reflexivity.
  assert (H4 : get_category (db initial_world) (Some 1) = Some food)
    by (vm_compute; reflexivity).
  assert (H5 : Sample.py_float "12.50" = Some (Finite (25 # 2))) by reflexivity.
  assert (H6 : float_gt0 (Finite (25 # 2)) = true) by reflexivity.
  assert (H7 : write_ok noon = true) by reflexivity.
  split; [exact H1 |]. split; [exact H2 |]. split; [exact H3 |]. split; [exact H4 |].
  split; [exact H5 |]. split; [exact H6 |]. split; [exact H7 |].
  exact (proj1 (proj2 (proj2
           (add_expense_flow Sample.py_float Sample.py_int table_order initial_world
              noon noon noon noon noon ann "select_category:1" "1" 1 food "12.50"
              (Finite (25 # 2)) "-" H1 H2 H3 H4 H5 H6 H7)))).
Defined.

Lemma reachable_conversations_witness :
  sample_reachable committed /\
  (forall u, step_ready (record_of committed u)) /\
  categories (db committed) = categories (db initial_world) /\
  NoDup (map c_id (categories (db committed))).
Proof.
  split; [apply after_reachable |].
  exact (reachable_conversations Sample.py_float Sample.py_int table_order committed
           (after_reachable _)).
Defined.


Lemma category_keyboard_round_trip_witness :
  Sample.py_int (pretty (c_id food)) = Some (c_id food) /\
  sample_dispatch noon ann (Callback ("select_category:" +:+ pretty (c_id food))) choosing =
  (Ok tt,
   mk_world (db choosing)
     (<[key ann :=
          mk_record (mk_data (Some (c_id food)) (amount (data (record_of choosing (key ann))))
                             (description (data (record_of choosing (key ann)))))
                    (Some waiting_for_amount)]> (storage choosing))
     (sent choosing ++ [(chat_id ann, CategorySelected)])).
Proof.
  assert (H : Sample.py_int (pretty (c_id food)) = Some (c_id food))
    by (vm_compute; reflexivity).
  split; [exact H |].
  exact (proj2 (proj2 (proj2
           (category_keyboard_round_trip Sample.py_float Sample.py_int table_order [food])))
           food choosing noon ann H).
Defined.

Lemma get_user_expense_stats_empty_window_witness :
  -1 < 0 /\
  get_user_expense_stats table_order 1000 ledger 7 (-1) = mk_stats (Finite 0) [] (-1).
Proof.
  assert (H : -1 < 0) by lia.
  split; [exact H |].
  exact (proj1 (get_user_expense_stats_empty_window table_order 1000 ledger 7 (-1)) H).
Defined.

Lemma add_expense_listed_witness :
  add_expense true 5 seeded 7 (Some (Finite 3)) (Some 1) (Some "tea") None = (Ok 1, with_tea) /\
  Permutation (table_order (expenses with_tea)) (expenses with_tea) /\
  get_category seeded (Some 1) = Some food /\
  In (mk_view 1 (Finite 3) 5 (Some "tea") (c_name food) (c_icon food))
     (get_user_expenses table_order with_tea 7 (-1)) /\
  add_expense true 5 seeded 7 (Some (Finite 3)) (Some 99) None None = (Ok 1, with_orphan) /\
  get_category seeded (Some 99) = None /\
  (forall limit v, In v (get_user_expenses table_order with_orphan 7 limit) -> v_id v <> 1).
Proof.
  assert (H1 : add_expense true 5 seeded 7 (Some (Finite 3)) (Some 1) (Some "tea") None
               = (Ok 1, with_tea)) by (vm_compute; reflexivity).
  assert (H2 : get_category seeded (Some 1) = Some food) by (vm_compute; reflexivity).
  assert (H3 : add_expense true 5 seeded 7 (Some (Finite 3)) (Some 99) None None
               = (Ok 1, with_orphan)) by (vm_compute; reflexivity).
  assert (H4 : get_category seeded (Some 99) = None) by (vm_compute; reflexivity).
  split; [exact H1 |]. split; [apply table_order_perm |]. split; [exact H2 |].
  split; [| split; [exact H3 |]; split; [exact H4 |]].
  - exact (proj1 (add_expense_listed table_order 5 seeded with_tea 7 (Finite 3) 1 (Some "tea") 1
                    H1 (table_order_perm _)) food H2).
  - exact (proj2 (add_expense_listed table_order 5 seeded with_orphan 7 (Finite 3) 99 None 1
                    H3 (table_order_perm _)) H4).
Defined.

Lemma cmd_recent_expenses_reply_witness :
  (forall l x, In x (table_order l) -> In x l) /\
  (length (get_user_expenses table_order (db committed) (user_id ann) 5) <= 5)%nat /\
  (forall v, In v (get_user_expenses table_order (db committed) (user_id ann) 5) ->
     exists x c, In x (expenses (db committed)) /\ e_user_id x = user_id ann /\
                 In c (categories (db committed)) /\ e_category_id x = c_id c /\
                 v = view_of (x, c)).
Proof.
  split; [exact table_order_sub |].
  exact (proj2 (cmd_recent_expenses_reply Sample.py_float Sample.py_int table_order committed
                  noon ann table_order_sub)).
Defined.

Lemma cmd_show_statistics_reply_witness :
  (forall l x, In x (table_order l) -> In x l) /\
  sample_reachable committed /\
  Forall (fun g => is_Some (category_total g))
         (category_spending
            (get_user_expense_stats table_order (now noon) (db committed) (user_id ann) 30)).
Proof.
  split; [exact table_order_sub |]. split; [apply after_reachable |].
  exact (proj1 (cmd_show_statistics_reply Sample.py_float Sample.py_int table_order committed
                  noon ann table_order_sub (after_reachable _))).
Defined.

End MoreExamples.
